(** * pySCENIC pipeline: path resolution, command construction and
      stage sequencing of [SCENIC/pySCENIC_pipeline.py]

    The development embeds the orchestration layer of the script:
    [DataLoader.get_analysis_paths], the three command builders of
    [GRNInference], the cell-type subsetting and the step sequence of
    [WorkflowManager.run_pyscenic_workflow], and [parse_arguments].

    Python strings are modelled as [string] (sequences of one-byte
    characters), the dictionary of paths as an insertion-ordered association
    list, the file system as a finite map from canonical paths to node kinds,
    and exceptions by a result type threaded through a state monad.  The
    numerical and plotting libraries and the external [pyscenic] executable
    are collaborators whose behaviour is a parameter of the model. *)

From Stdlib Require Import ZArith Ascii.
From stdpp Require Import base strings list gmap.


(** ** Python string primitives *)

Module PyStr.

(** [s.startswith(p)] *)
Definition startswith (s p : string) : bool := String.prefix p s.

(** [s.endswith(p)] *)
Fixpoint endswith (s p : string) : bool :=
  if String.eqb s p then true
  else match s with
       | EmptyString => false
       | String _ s' => endswith s' p
       end.

(** [sub in s] *)
Fixpoint contains (s sub : string) : bool :=
  if String.prefix sub s then true
  else match s with
       | EmptyString => false
       | String _ s' => contains s' sub
       end.

(** [c.lower()] on one character: only the letters [A]..[Z] change. *)
Definition lower_ascii (c : ascii) : ascii :=
  let n := Ascii.nat_of_ascii c in
  if (65 <=? n)%nat && (n <=? 90)%nat then Ascii.ascii_of_nat (n + 32) else c.

(** [s.lower()] *)
Fixpoint lower (s : string) : string :=
  match s with
  | EmptyString => EmptyString
  | String c s' => String (lower_ascii c) (lower s')
  end.

(** [sep.join(l)] *)
Fixpoint join (sep : string) (l : list string) : string :=
  match l with
  | [] => ""
  | [x] => x
  | x :: rest => x +:+ sep +:+ join sep rest
  end.

(** [s.split(sep)] for a one-character separator: the pieces between
    occurrences of [sep], empty pieces included. *)
Fixpoint split (sep : ascii) (s : string) : list string :=
  match s with
  | EmptyString => [""]
  | String c s' =>
      if Ascii.eqb c sep then "" :: split sep s'
      else match split sep s' with
           | [] => [String c ""]
           | p :: ps => String c p :: ps
           end
  end.

(** Python truthiness of an optional string: [None] and [""] are false. *)
Definition truthy (o : option string) : bool :=
  match o with
  | Some s => negb (String.eqb s "")
  | None => false
  end.

End PyStr.

(** ** [os.path.join] (POSIX) *)

Module OsPath.

(** One step of [posixpath.join]: an absolute component discards what was
    accumulated; otherwise a separator is inserted unless the accumulated
    path is empty or already ends with one. *)
Definition join2 (path b : string) : string :=
  if PyStr.startswith b "/" then b
  else if String.eqb path "" || PyStr.endswith path "/" then path +:+ b
  else path +:+ "/" +:+ b.

(** [os.path.join(a, *p)] *)
Definition join (a : string) (p : list string) : string :=
  fold_left join2 p a.

End OsPath.

(** ** Exceptions and results *)

(** The Python exceptions the modelled code can raise.  The four file
    errors are the subclasses of [OSError] of the same names;
    [CalledProcessError] is what [subprocess.run(..., check=True)] raises on
    a non-zero exit status; [OtherError] stands for any exception coming
    out of a library collaborator. *)
Inductive exn : Type :=
  | ValueError (msg : string)
  | KeyError (key : string)
  | FileNotFoundError (path : string)
  | FileExistsError (path : string)
  | NotADirectoryError (path : string)
  | IsADirectoryError (path : string)
  | CalledProcessError (returncode : Z) (cmd : string)
  | OtherError (what : string).

Inductive result (A : Type) : Type :=
  | Ok (a : A)
  | Raise (e : exn).
Arguments Ok {A} a.
Arguments Raise {A} e.

Definition is_ok {A} (r : result A) : bool :=
  match r with Ok _ => true | Raise _ => false end.

(** The Python class of an exception, by name.  The script defines no
    exception class of its own: the only exceptions it raises itself are
    the [ValueError]s of lines 73, 663 and 671, and the others come out of
    the dictionary and column lookups, the file system calls and
    [subprocess.run].  The class of a collaborator's exception is not
    known to the model. *)
Definition exn_class (e : exn) : option string :=
  match e with
  | ValueError _ => Some "ValueError"
  | KeyError _ => Some "KeyError"
  | FileNotFoundError _ => Some "FileNotFoundError"
  | FileExistsError _ => Some "FileExistsError"
  | NotADirectoryError _ => Some "NotADirectoryError"
  | IsADirectoryError _ => Some "IsADirectoryError"
  | CalledProcessError _ _ => Some "CalledProcessError"
  | OtherError _ => None
  end.

(** ** The file system *)

Module FS.

Inductive node : Type := Dir | File.

(** A file system state maps canonical locations (the list of names from
    the root) to the kind of node found there.  Symbolic links,
    permissions and file contents are not modelled, and the working
    directory is the root, so that relative and absolute spellings of a
    path denote the same location.  Names are taken to be within the
    limits of the file system: a name with a NUL byte ([ValueError] in
    Python) or with a component longer than the file system allows
    ([OSError], [ENAMETOOLONG]) is outside this model. *)
Abbreviation t := (gmap (list string) node).

Definition components (s : string) : list string := PyStr.split "/" s.

Definition is_dir_at (fs : t) (loc : list string) : bool :=
  match loc with
  | [] => true
  | _ => match fs !! loc with Some Dir => true | _ => false end
  end.

Definition is_file_at (fs : t) (loc : list string) : bool :=
  match fs !! loc with Some File => true | _ => false end.

Definition parent (loc : list string) : list string := removelast loc.

Definition is_dot (c : string) : bool := String.eqb c "" || String.eqb c ".".

(** Path resolution as the kernel does it: every step is taken from a
    directory; empty and [.] components stay, [..] goes up. *)
Fixpoint walk (fs : t) (cur : list string) (comps : list string)
  : option (list string) :=
  match comps with
  | [] => Some cur
  | c :: rest =>
      if is_dir_at fs cur then
        if is_dot c then walk fs cur rest
        else if String.eqb c ".." then walk fs (parent cur) rest
        else walk fs (cur ++ [c]) rest
      else None
  end.

Definition locate (fs : t) (s : string) : option (list string) :=
  if String.eqb s "" then None else walk fs [] (components s).

(** [os.path.isdir] and [os.path.isfile] *)
Definition isdir (fs : t) (s : string) : bool :=
  match locate fs s with
  | Some loc => is_dir_at fs loc
  | None => false
  end.

Definition isfile (fs : t) (s : string) : bool :=
  match locate fs s with
  | Some loc => is_file_at fs loc
  | None => false
  end.

(** Whether the resolution of a path runs into a regular file where it
    needs a directory, that is, with something left to resolve below it
    (the kernel's [ENOTDIR]); a name that is missing is not such a case
    ([ENOENT]). *)
Fixpoint hits_file (fs : t) (cur : list string) (comps : list string) : bool :=
  match comps with
  | [] => false
  | c :: rest =>
      if is_dir_at fs cur then
        if is_dot c then hits_file fs cur rest
        else if String.eqb c ".." then hits_file fs (parent cur) rest
        else hits_file fs (cur ++ [c]) rest
      else is_file_at fs cur
  end.

(** The exception of [open(s)] for a path that names no regular file. *)
Definition open_error (fs : t) (s : string) : exn :=
  if isdir fs s then IsADirectoryError s
  else if negb (String.eqb s "") && hits_file fs [] (components s)
       then NotADirectoryError s
  else FileNotFoundError s.

(** The walk of [os.makedirs(name, exist_ok=True)]: each missing directory
    on the way is created, an existing directory is accepted, and a
    regular file in the way is an error: [FileExistsError] when it is the
    leaf (followed by nothing but separators), [NotADirectoryError] when
    anything is to be resolved below it, be it only [.] or [..]. *)
Fixpoint mkdir_p (name : string) (fs : t) (cur : list string)
    (comps : list string) : result t :=
  match comps with
  | [] => Ok fs
  | c :: rest =>
      if is_dot c then mkdir_p name fs cur rest
      else if String.eqb c ".." then mkdir_p name fs (parent cur) rest
      else
        let child := cur ++ [c] in
        match fs !! child with
        | Some Dir => mkdir_p name fs child rest
        | Some File =>
            Raise (if forallb (String.eqb "") rest then FileExistsError name
                   else NotADirectoryError name)
        | None => mkdir_p name (<[child := Dir]> fs) child rest
        end
  end.

(** [os.makedirs(name, exist_ok=True)] *)
Definition makedirs (name : string) (fs : t) : result t :=
  if String.eqb name "" then Raise (FileNotFoundError name)
  else mkdir_p name fs [] (components name).

(** What a call of [os.makedirs] that fails leaves behind: the
    directories created on the way to the name at which it fails. *)
Fixpoint mkdir_p_reached (fs : t) (cur : list string) (comps : list string)
  : t :=
  match comps with
  | [] => fs
  | c :: rest =>
      if is_dot c then mkdir_p_reached fs cur rest
      else if String.eqb c ".." then mkdir_p_reached fs (parent cur) rest
      else
        let child := cur ++ [c] in
        match fs !! child with
        | Some Dir => mkdir_p_reached fs child rest
        | Some File => fs
        | None => mkdir_p_reached (<[child := Dir]> fs) child rest
        end
  end.

Definition makedirs_reached (name : string) (fs : t) : t :=
  if String.eqb name "" then fs else mkdir_p_reached fs [] (components name).

(** [os.listdir] of a location: the names directly below it, in the order
    of the directory listing (here: the order of the map). *)
Fixpoint strip_prefix (pre l : list string) : option (list string) :=
  match pre, l with
  | [], _ => Some l
  | p :: pre', x :: l' => if String.eqb p x then strip_prefix pre' l' else None
  | _ :: _, [] => None
  end.

Definition listdir (fs : t) (loc : list string) : list string :=
  omap (fun kv => match strip_prefix loc (fst kv) with
                  | Some [name] => Some name
                  | _ => None
                  end) (map_to_list fs).

(** [os.path.split]: the part before the last separator (trailing
    separators removed unless it consists of separators only) and the
    part after it. *)
Fixpoint rstrip_sep_rev (r : list string) : list string :=
  match r with
  | "" :: r' => rstrip_sep_rev r'
  | _ => r
  end.

Definition split (s : string) : string * string :=
  match rev (components s) with
  | [] => ("", "")
  | [only] => ("", only)
  | tail :: revhead =>
      let head :=
        match rstrip_sep_rev revhead with
        | [] => PyStr.join "/" (rev revhead) +:+ "/"
        | kept => PyStr.join "/" (rev kept)
        end in
      (head, tail)
  end.

(** [glob.glob(pattern)] for the patterns the pipeline uses: a literal
    directory part followed by [*] and a literal extension.  Names that
    start with a dot are skipped, as the library does for a pattern that
    does not start with one, and each match is returned joined to the
    directory part.  (A directory part that itself contains [*], [?] or
    [[] would be expanded as a pattern by the library; such base folders
    are outside this model.) *)
Definition glob (fs : t) (pattern : string) : list string :=
  let '(dirname, basename) := split pattern in
  match basename with
  | String "*"%char ext =>
      match locate fs dirname with
      | Some loc =>
          if is_dir_at fs loc then
            map (fun n => OsPath.join dirname [n])
              (filter (fun n => Is_true (PyStr.endswith n ext
                                 && negb (PyStr.startswith n ".")))
                 (listdir fs loc))
          else []
      | None => []
      end
  | _ => if isdir fs pattern || isfile fs pattern then [pattern] else []
  end.

End FS.

(** ** Python dictionaries with string keys *)

Module Dict.
Section Dict.
Context {V : Type}.

(** [k in d] / [d.get(k)] *)
Fixpoint get (d : list (string * V)) (k : string) : option V :=
  match d with
  | [] => None
  | (k', v) :: d' => if String.eqb k' k then Some v else get d' k
  end.

(** [d[k]]: a missing key raises [KeyError]. *)
Definition item (d : list (string * V)) (k : string) : result V :=
  match get d k with
  | Some v => Ok v
  | None => Raise (KeyError k)
  end.

(** [d[k] = v]: an existing key keeps its position, a new key goes last. *)
Fixpoint set (d : list (string * V)) (k : string) (v : V)
  : list (string * V) :=
  match d with
  | [] => [(k, v)]
  | (k', v') :: d' =>
      if String.eqb k' k then (k, v) :: d' else (k', v') :: set d' k v
  end.

(** [d.update(kvs)] *)
Definition update (d kvs : list (string * V)) : list (string * V) :=
  fold_left (fun acc kv => set acc (fst kv) (snd kv)) kvs d.

(** [d.values()] and [d.keys()], in insertion order *)
Definition values (d : list (string * V)) : list V := map snd d.
Definition keys (d : list (string * V)) : list string := map fst d.
End Dict.
End Dict.

(** The dictionary returned by [get_analysis_paths]. *)
Abbreviation PathSet := (list (string * string)).

(** ** Annotated expression matrices *)

(** The name of the metadata column the subsetting reads. *)
Definition annotation_column : string := "cell_type.harmonized.cancer".

Section AnnData.
Context {Row : Type}.

(** An [AnnData] object as far as the pipeline looks into it: the cell
    names, the per-cell metadata table [obs] as named columns (a value is a
    string, or missing), and one expression row per cell. *)
Record AnnData : Type := mkAnnData {
  obs_names : list string;
  obs : list (string * list (option string));
  X : list Row
}.

(** Every column of [obs] and the matrix have one entry per cell. *)
Definition well_formed (a : AnnData) : Prop :=
  length (X a) = length (obs_names a) /\
  Forall (fun col => length (snd col) = length (obs_names a)) (obs a).

(** [column == value] and [column != value]: a missing value is equal to
    nothing. *)
Definition eq_mask (col : list (option string)) (v : string) : list bool :=
  map (fun x => bool_decide (x = Some v)) col.
Definition ne_mask (col : list (option string)) (v : string) : list bool :=
  map (fun x => negb (bool_decide (x = Some v))) col.

(** Boolean indexing of one axis. *)
Fixpoint select {A} (mask : list bool) (l : list A) : list A :=
  match mask, l with
  | b :: mask', x :: l' => if b then x :: select mask' l' else select mask' l'
  | _, _ => []
  end.

(** [adata[mask].copy()] *)
Definition subset_rows (a : AnnData) (mask : list bool) : AnnData :=
  {| obs_names := select mask (obs_names a);
     obs := map (fun col => (fst col, select mask (snd col))) (obs a);
     X := select mask (X a) |}.

(** Lines 566-577 of [run_pyscenic_workflow]: both conditions are built
    from the annotation column as soon as a cell type is given, then the
    one named by the cell type is applied; a cell type that names no
    condition leaves the data as it is. *)
Definition subset_by_cell_type (a : AnnData) (cell_type : option string)
  : result AnnData :=
  match cell_type with
  | Some ct =>
      if PyStr.truthy cell_type then
        match Dict.item (obs a) annotation_column with
        | Ok col =>
            let subset_conditions :=
              [("Tumor", eq_mask col "Tumor");
               ("Non-Tumor", ne_mask col "Tumor")] in
            match Dict.get subset_conditions ct with
            | Some mask => Ok (subset_rows a mask)
            | None => Ok a
            end
        | Raise e => Raise e
        end
      else Ok a
  | None => Ok a
  end.
End AnnData.
Arguments AnnData Row : clear implicits.

(** ** The world and the monad of the orchestrator *)

(** The steps of [run_pyscenic_workflow], in program order. *)
Inductive stage : Type :=
  | StLoadPaths        (* line 562: DataLoader(...) *)
  | StReadAnnData      (* line 563: sc.read_h5ad *)
  | StSubset           (* lines 566-577 *)
  | StUpdatePaths      (* line 582 *)
  | StCreateLoom       (* Step 1 *)
  | StPrepareCommands  (* lines 590-592 *)
  | StGRN              (* Step 2 *)
  | StCtx              (* Step 3 *)
  | StGeneDistribution (* Step 4 *)
  | StAUCell           (* Step 5 *)
  | StDimReduction     (* Step 6 *)
  | StVisualise.       (* Step 7 *)

Definition stage_order : list stage :=
  [StLoadPaths; StReadAnnData; StSubset; StUpdatePaths; StCreateLoom;
   StPrepareCommands; StGRN; StCtx; StGeneDistribution; StAUCell;
   StDimReduction; StVisualise].

Global Instance stage_eq_dec : EqDecision stage.
Proof. solve_decision. Defined.

(** What an observer of a run sees: a step being entered, a step ending
    with an exception, and each command handed to the shell. *)
Inductive event : Type :=
  | Enter (s : stage)
  | Abort (s : stage) (e : exn)
  | Subprocess (cmd : string).

Record World : Type := mkWorld {
  fs : FS.t;
  trace : list event
}.

Definition M (A : Type) : Type := World -> result A * World.

Definition ret {A} (a : A) : M A := fun w => (Ok a, w).

(** Sequencing: an exception of the first computation ends the whole. *)
Definition bind {A B} (m : M A) (f : A -> M B) : M B :=
  fun w =>
    match m w with
    | (Ok a, w') => f a w'
    | (Raise e, w') => (Raise e, w')
    end.

Global Instance M_ret : MRet M := @ret.
Global Instance M_bind : MBind M := fun A B f m => bind m f.

Definition result_bind {A B} (r : result A) (f : A -> result B) : result B :=
  match r with
  | Ok a => f a
  | Raise e => Raise e
  end.

Global Instance result_ret : MRet result := @Ok.
Global Instance result_mbind : MBind result := fun A B f r => result_bind r f.

Definition raise {A} (e : exn) : M A := fun w => (Raise e, w).

Definition of_result {A} (r : result A) : M A := fun w => (r, w).

Definition emit (ev : event) : M unit :=
  fun w => (Ok tt, {| fs := fs w; trace := trace w ++ [ev] |}).

(** The instrumentation of a step: its entry is recorded before its body
    runs, and an exception leaving the body is recorded as it passes. *)
Definition in_stage {A} (s : stage) (body : M A) : M A :=
  fun w =>
    match body {| fs := fs w; trace := trace w ++ [Enter s] |} with
    | (Ok a, w') => (Ok a, w')
    | (Raise e, w') =>
        (Raise e, {| fs := fs w'; trace := trace w' ++ [Abort s e] |})
    end.

(** [os.makedirs(name, exist_ok=True)]; a call that fails has created
    the directories before the name it fails at. *)
Definition os_makedirs (name : string) : M unit :=
  fun w =>
    match FS.makedirs name (fs w) with
    | Ok fs' => (Ok tt, {| fs := fs'; trace := trace w |})
    | Raise e =>
        (Raise e, {| fs := FS.makedirs_reached name (fs w); trace := trace w |})
    end.

(** [glob.glob(pattern)] *)
Definition glob_glob (pattern : string) : M (list string) :=
  fun w => (Ok (FS.glob (fs w) pattern), w).

(** [for x in l: f(x)] *)
Fixpoint for_each {A} (f : A -> M unit) (l : list A) : M unit :=
  match l with
  | [] => ret tt
  | x :: l' => bind (f x) (fun _ => for_each f l')
  end.

(** ** [DataLoader.get_analysis_paths] *)

Definition raw_matrix_name : string :=
  "C3L-00004-T1_CPT0001540013_snRNA_ccRCC/outs/raw_feature_bc_matrix/".
Definition metadata_name : string :=
  "GSE240822_GBM_ccRCC_RNA_metadata_CPTAC_samples.tsv.gz".

Definition in_list (s : string) (l : list string) : bool :=
  existsb (String.eqb s) l.

(** [f"{cell_type}_" if cell_type else ""] *)
Definition cell_type_prefix (cell_type : option string) : string :=
  match cell_type with
  | Some ct => if PyStr.truthy cell_type then ct +:+ "_" else ""
  | None => ""
  end.

(** [cell_type and cell_type not in ['Tumor', 'Non-Tumor']] *)
Definition invalid_cell_type (cell_type : option string) : bool :=
  match cell_type with
  | Some ct => PyStr.truthy cell_type && negb (in_list ct ["Tumor"; "Non-Tumor"])
  | None => false
  end.

(** The five directories of the first dictionary literal (lines 76-82). *)
Definition base_paths (base_folder dataset_id sample_id : string) : PathSet :=
  [("base", base_folder);
   ("databases", OsPath.join base_folder ["databases"]);
   ("raw_data", OsPath.join base_folder [dataset_id; "raw_data"]);
   ("output", OsPath.join base_folder [dataset_id; sample_id]);
   ("figures", OsPath.join base_folder [dataset_id; sample_id; "figures"])].

(** Lines 89-91: the output entry gets its pruning sub-directory. *)
Definition adjust_output (paths : PathSet) (pruning : option bool)
  : result PathSet :=
  match pruning with
  | Some p =>
      let pruning_suffix := if p then "pruned" else "unpruned" in
      output ← Dict.item paths "output";
      mret (Dict.set paths "output" (OsPath.join output [pruning_suffix]))
  | None => mret paths
  end.

(** Lines 96-109: the file entries, given the result of the glob. *)
Definition file_paths (paths : PathSet) (suffix : string)
    (feather : list string) : result PathSet :=
  databases ← Dict.item paths "databases";
  raw_data ← Dict.item paths "raw_data";
  output ← Dict.item paths "output";
  mret (Dict.update paths
    [("human_tfs", OsPath.join databases ["allTFs_hg38.txt"]);
     ("ranking_dbs", PyStr.join " " feather);
     ("motif_annotations",
        OsPath.join databases ["motifs-v10nr_clust-nr.hgnc-m0.001-o0.0.tbl"]);
     ("raw_matrix", OsPath.join raw_data [raw_matrix_name]);
     ("metadata", OsPath.join raw_data [metadata_name]);
     ("anndata", OsPath.join output [suffix +:+ "anndata.h5ad"]);
     ("filtered_loom", OsPath.join output [suffix +:+ "filtered_scenic.loom"]);
     ("adjacencies", OsPath.join output [suffix +:+ "adjacencies.csv"]);
     ("regulons", OsPath.join output [suffix +:+ "reg.csv"]);
     ("pyscenic_output", OsPath.join output [suffix +:+ "pyscenic_output.loom"]);
     ("aucell_mtx", OsPath.join output [suffix +:+ "auc.csv"])]).

Definition get_analysis_paths (base_folder dataset_id sample_id : string)
    (cell_type : option string) (pruning : option bool) : M PathSet :=
  if invalid_cell_type cell_type then
    raise (ValueError "cell_type must be 'Tumor', 'Non-Tumor', or None")
  else
    let paths := base_paths base_folder dataset_id sample_id in
    for_each os_makedirs (Dict.values paths);;
    paths ← of_result (adjust_output paths pruning);
    let suffix := cell_type_prefix cell_type in
    databases ← of_result (Dict.item paths "databases");
    feather ← glob_glob (OsPath.join databases ["*.feather"]);
    of_result (file_paths paths suffix feather).

(** ** [GRNInference]: the three command builders *)

Record Config : Type := mkConfig {
  command : string;
  output_path : string
}.

Definition no_pruning_flag : string := "--no_pruning".

Definition run_grn_inference (paths : PathSet) : result Config :=
  filtered_loom ← Dict.item paths "filtered_loom";
  human_tfs ← Dict.item paths "human_tfs";
  adjacencies ← Dict.item paths "adjacencies";
  mret {| command := "pyscenic grn " +:+ filtered_loom +:+ " " +:+ human_tfs
                      +:+ " -o " +:+ adjacencies +:+ " --num_workers 20";
          output_path := adjacencies |}.

(** The command of [run_ctx_inference] before the pruning test. *)
Definition ctx_base_command (paths : PathSet) : result string :=
  adjacencies ← Dict.item paths "adjacencies";
  ranking_dbs ← Dict.item paths "ranking_dbs";
  motif_annotations ← Dict.item paths "motif_annotations";
  filtered_loom ← Dict.item paths "filtered_loom";
  regulons ← Dict.item paths "regulons";
  mret ("pyscenic ctx " +:+ adjacencies +:+ " " +:+ ranking_dbs +:+ " "
        +:+ "--annotations_fname " +:+ motif_annotations +:+ " "
        +:+ "--expression_mtx_fname " +:+ filtered_loom +:+ " "
        +:+ "--output " +:+ regulons +:+ " "
        +:+ "--mask_dropouts --num_workers 20").

(** [pruning is False] *)
Definition is_False (pruning : option bool) : bool :=
  match pruning with
  | Some false => true
  | _ => false
  end.

Definition run_ctx_inference (paths : PathSet) (pruning : option bool)
  : result Config :=
  base_command ← ctx_base_command paths;
  let base_command :=
    if is_False pruning then base_command +:+ " " +:+ no_pruning_flag
    else base_command in
  regulons ← Dict.item paths "regulons";
  mret {| command := base_command; output_path := regulons |}.

Definition run_aucell (paths : PathSet) : result Config :=
  filtered_loom ← Dict.item paths "filtered_loom";
  regulons ← Dict.item paths "regulons";
  pyscenic_output ← Dict.item paths "pyscenic_output";
  mret {| command := "pyscenic aucell " +:+ filtered_loom +:+ " " +:+ regulons
                      +:+ " --output " +:+ pyscenic_output
                      +:+ " --num_workers 20";
          output_path := pyscenic_output |}.

(** ** Collaborators and the workflow *)

Section Workflow.
Context {Row Auc : Type}.

(** The calls into the numerical and plotting libraries, with the
    arguments the script passes. *)
Inductive libcall : Type :=
  | Preprocess (paths : PathSet)
      (* lines 543-551: read_10x_mtx, filtering, metadata, clustering *)
  | LpCreate (path : string) (adata : AnnData Row)
  | PlotGeneDistribution (pdf : string) (adata : AnnData Row)
  | UmapFitTransform (auc : Auc)
  | ScPlUmap (adata : AnnData Row) (title save : string)
  | TopRegulonsHeatmap (pdf : string) (auc : Auc)
  | RegulonHeatmap (pdf : string) (auc : Auc) (adata : AnnData Row).

(** The behaviour of everything outside the script: what the shell does
    with a command (exit status and resulting file system), what a library
    call does, and what the readers find in a file that exists. *)
Record Collaborators : Type := mkCollaborators {
  shell : string -> FS.t -> Z * FS.t;
  library : libcall -> FS.t -> result unit * FS.t;
  h5ad_contents : string -> FS.t -> result (AnnData Row);
  csv_contents : string -> FS.t -> result unit;
  loom_auc : string -> FS.t -> result Auc
}.

Context (env : Collaborators).

(** [subprocess.run(cmd, shell=True, check=True)] *)
Definition subprocess_run (cmd : string) : M unit :=
  fun w =>
    let '(status, fs') := shell env cmd (fs w) in
    let w' := {| fs := fs'; trace := trace w ++ [Subprocess cmd] |} in
    if Z.eqb status 0 then (Ok tt, w')
    else (Raise (CalledProcessError status cmd), w').

Definition call_library (c : libcall) : M unit :=
  fun w =>
    let '(r, fs') := library env c (fs w) in
    (r, {| fs := fs'; trace := trace w |}).

(** A reader applied to a path: the path has to name a regular file, and
    then the outcome is what the collaborator finds in it; otherwise the
    reader fails as [open] does.  (This is what [pandas] raises; for the
    [h5py] and loom readers the constructor stands for the [OSError] they
    raise on the same condition.) *)
Definition read_file {A} (contents : string -> FS.t -> result A)
    (path : string) : M A :=
  fun w =>
    if FS.isfile (fs w) path then (contents path (fs w), w)
    else (Raise (FS.open_error (fs w) path), w).

Definition sc_read_h5ad : string -> M (AnnData Row) :=
  read_file (h5ad_contents env).
Definition pd_read_csv : string -> M unit :=
  read_file (csv_contents env).
(** [lp.connect(path, mode='r+')] followed by reading [RegulonsAUC] *)
Definition lp_connect_auc : string -> M Auc :=
  read_file (loom_auc env).

(** [GRNInference.create_loom_file] *)
Definition create_loom_file (paths : PathSet) (adata : AnnData Row)
  : M unit :=
  filtered_loom ← of_result (Dict.item paths "filtered_loom");
  of_result (Dict.item (obs adata) "louvain");;
  of_result (Dict.item (obs adata) annotation_column);;
  call_library (LpCreate filtered_loom adata).

(** [ResultVisualizer.plot_gene_distribution] *)
Definition plot_gene_distribution (paths : PathSet) (adata : AnnData Row)
    (cell_type : option string) : M unit :=
  figures ← of_result (Dict.item paths "figures");
  call_library
    (PlotGeneDistribution
       (OsPath.join figures
          [cell_type_prefix cell_type +:+ "gene_distribution.pdf"])
       adata).

(** [str(x)] of an optional string *)
Definition py_str (o : option string) : string :=
  match o with
  | Some s => s
  | None => "None"
  end.

(** [ResultVisualizer.aucell_dimensionality_reduction] *)
Definition aucell_dimensionality_reduction (paths : PathSet) (auc : Auc)
    (adata : AnnData Row) (cell_type : option string) : M unit :=
  call_library (UmapFitTransform auc);;
  figures ← of_result (Dict.item paths "figures");
  os_makedirs figures;;
  call_library
    (ScPlUmap adata ("Cell Type (" +:+ py_str cell_type +:+ ")")
       ("_" +:+ py_str cell_type +:+ "_umap.pdf")).

(** [ResultVisualizer.plot_top_regulons] *)
Definition plot_top_regulons (paths : PathSet) : M unit :=
  pyscenic_output ← of_result (Dict.item paths "pyscenic_output");
  auc ← lp_connect_auc pyscenic_output;
  figures ← of_result (Dict.item paths "figures");
  call_library
    (TopRegulonsHeatmap (OsPath.join figures ["tumor_regulon_heatmap.pdf"])
       auc).

(** [ResultVisualizer.create_regulon_heatmap] *)
Definition create_regulon_heatmap (paths : PathSet) : M unit :=
  pyscenic_output ← of_result (Dict.item paths "pyscenic_output");
  auc ← lp_connect_auc pyscenic_output;
  anndata ← of_result (Dict.item paths "anndata");
  adata ← sc_read_h5ad anndata;
  figures ← of_result (Dict.item paths "figures");
  call_library
    (RegulonHeatmap (OsPath.join figures ["regulon_heatmap.pdf"]) auc adata).

Record WorkflowManager : Type := mkWorkflowManager {
  base_folder : string;
  dataset_id : string;
  sample_id : string;
  cell_type : option string;
  pruning : option bool
}.

(** [DataLoader(...)]: the constructor stores the resolved paths. *)
Definition DataLoader (self : WorkflowManager) : M PathSet :=
  get_analysis_paths (base_folder self) (dataset_id self) (sample_id self)
    (cell_type self) (pruning self).

(** [WorkflowManager.preprocessing_workflow] *)
Definition preprocessing_workflow (self : WorkflowManager) : M unit :=
  paths ← DataLoader self;
  call_library (Preprocess paths).

(** Step 2: GRN inference and the read of its adjacency table. *)
Definition step_grn (cfg : Config) : M unit :=
  subprocess_run (command cfg);;
  pd_read_csv (output_path cfg).

(** Step 3: context inference and the read of its regulon table. *)
Definition step_ctx (cfg : Config) : M unit :=
  subprocess_run (command cfg);;
  pd_read_csv (output_path cfg).

(** Step 5: AUCell and the read of its activity matrix. *)
Definition step_aucell (cfg : Config) : M Auc :=
  subprocess_run (command cfg);;
  lp_connect_auc (output_path cfg).

(** Step 7 *)
Definition step_visualise (self : WorkflowManager) (paths : PathSet)
  : M unit :=
  if PyStr.truthy (cell_type self) then plot_top_regulons paths
  else create_regulon_heatmap paths.

(** Lines 600-631: everything from Step 3 on. *)
Definition steps_from_ctx (self : WorkflowManager) (paths : PathSet)
    (adata : AnnData Row) (ctx_cfg aucell_cfg : Config) : M unit :=
  in_stage StCtx (step_ctx ctx_cfg);;
  in_stage StGeneDistribution
    (plot_gene_distribution paths adata (cell_type self));;
  auc ← in_stage StAUCell (step_aucell aucell_cfg);
  in_stage StDimReduction
    (aucell_dimensionality_reduction paths auc adata (cell_type self));;
  in_stage StVisualise (step_visualise self paths).

(** [WorkflowManager.run_pyscenic_workflow] *)
Definition run_pyscenic_workflow (self : WorkflowManager) : M unit :=
  loader_paths ← in_stage StLoadPaths (DataLoader self);
  adata ← in_stage StReadAnnData
    (anndata ← of_result (Dict.item loader_paths "anndata");
     sc_read_h5ad anndata);
  adata ← in_stage StSubset
    (of_result (subset_by_cell_type adata (cell_type self)));
  paths ← in_stage StUpdatePaths
    (get_analysis_paths (base_folder self) (dataset_id self)
       (sample_id self) (cell_type self) None);
  in_stage StCreateLoom (create_loom_file paths adata);;
  '(grn_cfg, ctx_cfg, aucell_cfg) ← in_stage StPrepareCommands
    (of_result
       (g ← run_grn_inference paths;
        c ← run_ctx_inference paths (pruning self);
        a ← run_aucell paths;
        mret (g, c, a)));
  in_stage StGRN (step_grn grn_cfg);;
  steps_from_ctx self paths adata ctx_cfg aucell_cfg.

(** ** [parse_arguments] and [main] *)

Definition parse_prune (prune : option string) : result (option bool) :=
  match prune with
  | None => Ok None
  | Some s =>
      let s := PyStr.lower s in
      if String.eqb s "true" then Ok (Some true)
      else if String.eqb s "false" then Ok (Some false)
      else if String.eqb s "none" then Ok None
      else Raise (ValueError
        "Invalid value for --prune. Must be 'true', 'false', or 'None'.")
  end.

Definition parse_cell_type (ct : option string) : result (option string) :=
  match ct with
  | None => Ok None
  | Some s =>
      let s := PyStr.lower s in
      if String.eqb s "none" then Ok None
      else if negb (in_list s ["tumor"; "non-tumor"]) then
        Raise (ValueError
          "Invalid value for --cell_type. Must be 'Tumor', 'Non-Tumor', or 'None'.")
      else Ok (Some s)
  end.

(** The command line after [argparse]: three positional strings and the
    two optional ones. *)
Record Argv : Type := mkArgv {
  arg_base_folder : string;
  arg_dataset_id : string;
  arg_sample_id : string;
  arg_cell_type : option string;
  arg_prune : option string
}.

Definition parse_arguments (argv : Argv) : result WorkflowManager :=
  prune ← parse_prune (arg_prune argv);
  ct ← parse_cell_type (arg_cell_type argv);
  mret {| base_folder := arg_base_folder argv;
          dataset_id := arg_dataset_id argv;
          sample_id := arg_sample_id argv;
          cell_type := ct;
          pruning := prune |}.

Definition main (argv : Argv) : M unit :=
  workflow_manager ← of_result (parse_arguments argv);
  preprocessing_workflow workflow_manager;;
  run_pyscenic_workflow workflow_manager.

End Workflow.
Arguments libcall Row Auc : clear implicits.
Arguments Collaborators Row Auc : clear implicits.

(** ** Observations on traces *)

Definition entered (evs : list event) : list stage :=
  omap (fun ev => match ev with Enter s => Some s | _ => None end) evs.

Definition aborts (evs : list event) : list (stage * exn) :=
  omap (fun ev => match ev with Abort s e => Some (s, e) | _ => None end) evs.

Definition executed_commands (evs : list event) : list string :=
  omap (fun ev => match ev with Subprocess c => Some c | _ => None end) evs.

(** ** A concrete world for examples *)

Module Sample.

(** Creating a regular file at a path (parents are not created). *)
Definition touch (path : string) (f : FS.t) : FS.t :=
  <[ filter (fun c => ¬ Is_true (FS.is_dot c)) (FS.components path)
     := FS.File ]> f.

Fixpoint output_of (tokens : list string) : option string :=
  match tokens with
  | flag :: rest =>
      if String.eqb flag "-o" || String.eqb flag "--output" then head rest
      else output_of rest
  | [] => None
  end.

(** A tool that writes the file named by its output option and exits
    with status 0. *)
Definition obedient_shell (cmd : string) (f : FS.t) : Z * FS.t :=
  match output_of (PyStr.split " " cmd) with
  | Some out => (0%Z, touch out f)
  | None => (2%Z, f)
  end.

(** A tool that exits with status 0 and writes nothing. *)
Definition idle_shell (cmd : string) (f : FS.t) : Z * FS.t := (0%Z, f).

(** A tool that exits with status 1 and writes nothing. *)
Definition failing_shell (cmd : string) (f : FS.t) : Z * FS.t := (1%Z, f).

Definition adata : AnnData nat :=
  {| obs_names := ["c1"; "c2"; "c3"];
     obs := [("louvain", [Some "0"; Some "1"; Some "0"]);
             (annotation_column, [Some "Tumor"; Some "Stroma"; None])];
     X := [10; 20; 30] |}.

Definition env_with (sh : string -> FS.t -> Z * FS.t)
  : Collaborators nat unit :=
  {| shell := sh;
     library := fun _ f => (Ok tt, f);
     h5ad_contents := fun _ _ => Ok adata;
     csv_contents := fun _ _ => Ok tt;
     loom_auc := fun _ _ => Ok tt |}.

Definition env : Collaborators nat unit := env_with obedient_shell.

(** Collaborators with the obedient tool and a plotting library that, while
    it draws the gene distribution, removes the file at [path] (as any
    other process could at that time). *)
Definition env_removing (path : string) : Collaborators nat unit :=
  {| shell := obedient_shell;
     library := fun c f =>
       match c with
       | PlotGeneDistribution _ _ =>
           (Ok tt,
            delete (filter (fun c => ¬ Is_true (FS.is_dot c))
                      (FS.components path)) f)
       | _ => (Ok tt, f)
       end;
     h5ad_contents := fun _ _ => Ok adata;
     csv_contents := fun _ _ => Ok tt;
     loom_auc := fun _ _ => Ok tt |}.

Definition dirs (l : list (list string)) (f : FS.t) : FS.t :=
  foldr (fun d acc => <[ d := FS.Dir ]> acc) f l.

Definition empty_world : World := {| fs := ∅; trace := [] |}.

(** [/b/d/s/unpruned/Tumor_anndata.h5ad] is in place, nothing else. *)
Definition clustered_fs : FS.t :=
  touch "/b/d/s/unpruned/Tumor_anndata.h5ad"
    (dirs [["b"]; ["b"; "d"]; ["b"; "d"; "s"]; ["b"; "d"; "s"; "unpruned"]] ∅).

Definition clustered_world : World := {| fs := clustered_fs; trace := [] |}.

(** [/b/databases] holds one ranking database. *)
Definition feather_world : World :=
  {| fs := touch "/b/databases/hg38.feather"
             (dirs [["b"]; ["b"; "databases"]] ∅);
     trace := [] |}.

Definition tumor_unpruned : WorkflowManager :=
  {| base_folder := "/b"; dataset_id := "d"; sample_id := "s";
     cell_type := Some "Tumor"; pruning := Some false |}.

Definition cli_tumor : Argv :=
  {| arg_base_folder := "/b"; arg_dataset_id := "d"; arg_sample_id := "s";
     arg_cell_type := Some "Tumor"; arg_prune := None |}.

(** The AUCell configuration of the run above, and a world in which the
    loom export exists but no regulon table. *)
Definition aucell_cfg : Config :=
  {| command := "pyscenic aucell /b/d/s/Tumor_filtered_scenic.loom /b/d/s/Tumor_reg.csv --output /b/d/s/Tumor_pyscenic_output.loom --num_workers 20";
     output_path := "/b/d/s/Tumor_pyscenic_output.loom" |}.

Definition no_regulons_world : World :=
  {| fs := touch "/b/d/s/Tumor_filtered_scenic.loom"
             (dirs [["b"]; ["b"; "d"]; ["b"; "d"; "s"]] ∅);
     trace := [] |}.

Definition ctx_cfg : Config :=
  {| command := "pyscenic ctx /b/d/s/Tumor_adjacencies.csv  --output /b/d/s/Tumor_reg.csv";
     output_path := "/b/d/s/Tumor_reg.csv" |}.

End Sample.

(** ** Properties as the specification words them *)

(** Dependency gating of the scoring step at one input: with the regulon
    table missing, the step ends in an exception and its command is not
    handed to the shell. *)
Definition scoring_gated {Row Auc} (env : Collaborators Row Auc)
    (regulons : string) (cfg : Config) (w : World) : Prop :=
  FS.isfile (fs w) regulons = false ->
  let '(r, w') := in_stage StAUCell (step_aucell env cfg) w in
  is_ok r = false /\ Subprocess (command cfg) ∉ trace w'.

(** The pruning flag as a substring test, at one dictionary and one
    pruning choice: the command contains the flag exactly when pruning is
    the value [False]. *)
Definition flag_marks_unpruned (paths : PathSet) (pruning : option bool)
  : Prop :=
  forall cfg, run_ctx_inference paths pruning = Ok cfg ->
    (PyStr.contains (command cfg) "--no_pruning" = true
     <-> pruning = Some false).

(** A result that is an exception of the class named. *)
Definition raises_class {A} (r : result A) (cls : string) : Prop :=
  exists e, r = Raise e /\ exn_class e = Some cls.

(** Path derivation that no file system content can influence, at one
    context and two worlds. *)
Definition resolver_ignores_files (base_folder dataset_id sample_id : string)
    (cell_type : option string) (pruning : option bool) (w1 w2 : World) : Prop :=
  fst (get_analysis_paths base_folder dataset_id sample_id cell_type pruning w1)
  = fst (get_analysis_paths base_folder dataset_id sample_id cell_type pruning w2).

(** ** The resolved dictionary, written out *)

(** The value of the [output] entry after lines 89-91. *)
Definition output_dir (base_folder dataset_id sample_id : string)
    (pruning : option bool) : string :=
  match pruning with
  | Some p =>
      OsPath.join (OsPath.join base_folder [dataset_id; sample_id])
        [if p then "pruned" else "unpruned"]
  | None => OsPath.join base_folder [dataset_id; sample_id]
  end.

(** The pattern handed to [glob.glob]. *)
Definition feather_pattern (base_folder : string) : string :=
  OsPath.join (OsPath.join base_folder ["databases"]) ["*.feather"].

(** The sixteen entries of a successful resolution, as a function of the
    arguments and of the list the glob returned. *)
Definition path_table (base_folder dataset_id sample_id : string)
    (cell_type : option string) (pruning : option bool)
    (feather : list string) : PathSet :=
  let databases := OsPath.join base_folder ["databases"] in
  let raw_data := OsPath.join base_folder [dataset_id; "raw_data"] in
  let output := output_dir base_folder dataset_id sample_id pruning in
  let suffix := cell_type_prefix cell_type in
  [("base", base_folder);
   ("databases", databases);
   ("raw_data", raw_data);
   ("output", output);
   ("figures", OsPath.join base_folder [dataset_id; sample_id; "figures"]);
   ("human_tfs", OsPath.join databases ["allTFs_hg38.txt"]);
   ("ranking_dbs", PyStr.join " " feather);
   ("motif_annotations",
      OsPath.join databases ["motifs-v10nr_clust-nr.hgnc-m0.001-o0.0.tbl"]);
   ("raw_matrix", OsPath.join raw_data [raw_matrix_name]);
   ("metadata", OsPath.join raw_data [metadata_name]);
   ("anndata", OsPath.join output [suffix +:+ "anndata.h5ad"]);
   ("filtered_loom", OsPath.join output [suffix +:+ "filtered_scenic.loom"]);
   ("adjacencies", OsPath.join output [suffix +:+ "adjacencies.csv"]);
   ("regulons", OsPath.join output [suffix +:+ "reg.csv"]);
   ("pyscenic_output", OsPath.join output [suffix +:+ "pyscenic_output.loom"]);
   ("aucell_mtx", OsPath.join output [suffix +:+ "auc.csv"])].

(** ** Shapes of traces *)

(** A computation that records no step event: all it adds to the trace are
    commands handed to the shell. *)
Definition quiet {A} (m : M A) : Prop :=
  forall w, exists cmds, trace (snd (m w)) = trace w ++ map Subprocess cmds.

(** The events of a run through the steps [ss] that stops at the first
    exception.  A run that returns has entered every step, in order, and
    recorded no failure.  A run that raises [e] has entered an initial
    segment of the steps, its last event is the failure [e] of the step
    entered last, and nothing failed before. *)
Definition fail_fast_shape {A} (ss : list stage) (r : result A)
    (evs : list event) : Prop :=
  match r with
  | Ok _ => entered evs = ss /\ aborts evs = []
  | Raise e =>
      exists pre s,
        evs = pre ++ [Abort s e] /\ aborts pre = [] /\
        entered pre `prefix_of` ss /\ last (entered pre) = Some s
  end.

Definition fail_fast {A} (ss : list stage) (m : M A) : Prop :=
  forall w, exists evs,
    trace (snd (m w)) = trace w ++ evs /\ fail_fast_shape ss (fst (m w)) evs.

(** The events of a run in which a failed command is final.  For a
    command that exits with the non-zero status [status] wherever it is
    run: if it was handed to the shell at all, the run raises the
    [CalledProcessError] of that command, the command was run once, and
    the only event after it is the failure of its step. *)
Definition failed_command_final {Row Auc A} (env : Collaborators Row Auc)
    (r : result A) (evs : list event) : Prop :=
  forall cmd status,
    status <> 0%Z -> (forall f, fst (shell env cmd f) = status) ->
    In (Subprocess cmd) evs ->
    r = Raise (CalledProcessError status cmd) /\
    exists pre s,
      evs = pre ++ [Subprocess cmd; Abort s (CalledProcessError status cmd)] /\
      ~ In (Subprocess cmd) pre.

Definition stops_at_failed_command {Row Auc A} (env : Collaborators Row Auc)
    (m : M A) : Prop :=
  forall w, exists evs,
    trace (snd (m w)) = trace w ++ evs /\
    failed_command_final env (fst (m w)) evs.

(** ** Well-formed file systems and silent computations *)

(** A file system in which every node hangs below a directory. *)
Definition fs_well_formed (f : FS.t) : Prop :=
  forall loc n, f !! loc = Some n -> FS.is_dir_at f (FS.parent loc) = true.

(** A computation that adds nothing to the trace. *)
Definition silent {A} (m : M A) : Prop :=
  forall w, trace (snd (m w)) = trace w.

(** The artifact entries of the dictionary and their file names
    (lines 103-108). *)
Definition artifact_names : list (string * string) :=
  [("anndata", "anndata.h5ad");
   ("filtered_loom", "filtered_scenic.loom");
   ("adjacencies", "adjacencies.csv");
   ("regulons", "reg.csv");
   ("pyscenic_output", "pyscenic_output.loom");
   ("aucell_mtx", "auc.csv")].

(** The cell types the resolver accepts as a subset. *)
Definition cell_type_tags : list (option string) :=
  [None; Some "Tumor"; Some "Non-Tumor"].

(** The exceptions of the file system calls. *)
Definition is_file_error (e : exn) : bool :=
  match e with
  | FileNotFoundError _ | FileExistsError _ | NotADirectoryError _
  | IsADirectoryError _ => true
  | _ => false
  end.

(** The separator [posixpath.join] puts after a directory name: none
    after an empty name or one that ends with a separator. *)
Definition join_sep (dir : string) : string :=
  if String.eqb dir "" || PyStr.endswith dir "/" then "" else "/".

(** An artifact path as seen from the sample directory: the pruning
    sub-directory, if any, and the prefixed file name. *)
Definition relative_artifact (cell_type : option string)
    (pruning : option bool) (name : string) : string :=
  match pruning with
  | Some p => (if p then "pruned" else "unpruned") +:+ "/"
              +:+ cell_type_prefix cell_type +:+ name
  | None => cell_type_prefix cell_type +:+ name
  end.

(** The dictionary keys each command builder reads. *)
Definition grn_keys : list string :=
  ["filtered_loom"; "human_tfs"; "adjacencies"].
Definition ctx_keys : list string :=
  ["adjacencies"; "ranking_dbs"; "motif_annotations"; "filtered_loom";
   "regulons"].
Definition aucell_keys : list string :=
  ["filtered_loom"; "regulons"; "pyscenic_output"].

(** * Facts about the primitives *)

Section StringFacts.

Lemma append_nil_l (s : string) : "" +:+ s = s.
Proof. reflexivity. Qed.

Lemma append_cons (c : ascii) (a b : string) :
  String c a +:+ b = String c (a +:+ b).
Proof. reflexivity. Qed.

Lemma append_nil_r (s : string) : s +:+ "" = s.
Proof.
  induction s as [|c s IH]; [reflexivity|].
  rewrite append_cons, IH. reflexivity.
Qed.

Lemma append_assoc (a b c : string) : (a +:+ b) +:+ c = a +:+ (b +:+ c).
Proof.
  induction a as [|x a IH]; [reflexivity|].
  rewrite !append_cons, IH. reflexivity.
Qed.

Lemma append_eq_nil (a b : string) : a +:+ b = "" -> a = "" /\ b = "".
Proof.
  destruct a as [|c a]; [rewrite append_nil_l; auto|].
  rewrite append_cons. discriminate.
Qed.

Lemma startswith_app (p s : string) : PyStr.startswith (p +:+ s) p = true.
Proof.
  unfold PyStr.startswith.
  induction p as [|c p IH]; [destruct s; reflexivity|].
  rewrite append_cons. simpl.
  destruct (ascii_dec c c) as [_|Hne]; [exact IH | congruence].
Qed.

Lemma contains_of_prefix (s sub : string) :
  String.prefix sub s = true -> PyStr.contains s sub = true.
Proof. intros H. destruct s; cbn [PyStr.contains]; rewrite H; reflexivity. Qed.

Lemma contains_app_r (a b sub : string) :
  PyStr.contains b sub = true -> PyStr.contains (a +:+ b) sub = true.
Proof.
  intros H. induction a as [|c a IH]; [exact H|].
  rewrite append_cons. cbn [PyStr.contains].
  destruct (String.prefix sub (String c (a +:+ b))); [reflexivity | exact IH].
Qed.

Lemma prefix_app_l (p a b : string) :
  String.prefix p a = true -> String.prefix p (a +:+ b) = true.
Proof.
  revert a. induction p as [|c p IH]; intros a H;
    [destruct (a +:+ b); reflexivity|].
  destruct a as [|x a]; [discriminate|].
  rewrite append_cons. simpl in *.
  destruct (ascii_dec c x); [apply IH, H | discriminate].
Qed.

Lemma contains_app_l (a b sub : string) :
  PyStr.contains a sub = true -> PyStr.contains (a +:+ b) sub = true.
Proof.
  induction a as [|c a IH]; cbn [PyStr.contains]; intros H.
  - destruct (String.prefix sub "") eqn:E; [|discriminate].
    apply contains_of_prefix, (prefix_app_l sub "" b E).
  - destruct (String.prefix sub (String c a)) eqn:E.
    + apply contains_of_prefix, (prefix_app_l sub (String c a) b E).
    + rewrite append_cons. cbn [PyStr.contains].
      destruct (String.prefix sub (String c (a +:+ b))); [reflexivity|].
      apply IH, H.
Qed.

Lemma append_neq_self (a b : string) : b <> "" -> a +:+ b <> a.
Proof.
  intros Hb. induction a as [|c a IH]; [exact Hb|].
  rewrite append_cons. intros [= E]. exact (IH E).
Qed.

Lemma endswith_refl (s : string) : PyStr.endswith s s = true.
Proof. destruct s; cbn [PyStr.endswith]; rewrite String.eqb_refl; reflexivity. Qed.

Lemma endswith_app (a b : string) : PyStr.endswith (a +:+ b) b = true.
Proof.
  induction a as [|c a IH]; [apply endswith_refl|].
  rewrite append_cons. cbn [PyStr.endswith]. rewrite IH.
  destruct (String.eqb _ _); reflexivity.
Qed.

(** Whether a path ends with the separator is decided by its last
    non-empty piece. *)
Lemma endswith_sep_app (a b : string) :
  b <> "" -> PyStr.endswith (a +:+ b) "/" = PyStr.endswith b "/".
Proof.
  intros Hb. induction a as [|c a IH]; [reflexivity|].
  rewrite append_cons. cbn [PyStr.endswith]. rewrite IH.
  destruct (String.eqb_spec (String c (a +:+ b)) "/") as [E|_]; [|reflexivity].
  injection E as _ E. apply append_eq_nil in E. tauto.
Qed.

End StringFacts.

Section JoinFacts.

(** Joining a relative name to a directory that is not empty and does not
    end with a separator puts exactly one separator between them. *)
Lemma join2_plain (dir name : string) :
  PyStr.startswith name "/" = false ->
  dir <> "" ->
  PyStr.endswith dir "/" = false ->
  OsPath.join2 dir name = dir +:+ "/" +:+ name.
Proof.
  intros Hn Hd He. unfold OsPath.join2. rewrite Hn, He.
  apply String.eqb_neq in Hd. rewrite Hd. reflexivity.
Qed.

(** A join with a relative, separator-free last name ends with that
    name: the result is not empty and does not end with a separator. *)
Lemma join2_relative (dir name : string) :
  PyStr.startswith name "/" = false ->
  exists pre, OsPath.join2 dir name = pre +:+ name.
Proof.
  intros Hn. unfold OsPath.join2. rewrite Hn.
  destruct (String.eqb dir "" || PyStr.endswith dir "/").
  - exists dir. reflexivity.
  - exists (dir +:+ "/"). rewrite append_assoc. reflexivity.
Qed.

End JoinFacts.

Section MonadFacts.

Lemma bind_unfold {A B} (m : M A) (f : A -> M B) (w : World) :
  (m ≫= f) w
  = match m w with
    | (Ok a, w') => f a w'
    | (Raise e, w') => (Raise e, w')
    end.
Proof. reflexivity. Qed.

Lemma bind_ok_inv {A B} (m : M A) (f : A -> M B) (w w' : World) (b : B) :
  (m ≫= f) w = (Ok b, w') ->
  exists a w1, m w = (Ok a, w1) /\ f a w1 = (Ok b, w').
Proof.
  rewrite bind_unfold. destruct (m w) as [[a|e] w1]; [eauto | discriminate].
Qed.

(** The resolver, as one equation: the validation, the directory loop,
    and then the table, filled with what the glob finds. *)
Lemma get_analysis_paths_eq (base_folder dataset_id sample_id : string)
    (cell_type : option string) (pruning : option bool) (w : World) :
  get_analysis_paths base_folder dataset_id sample_id cell_type pruning w
  = if invalid_cell_type cell_type then
      (Raise (ValueError "cell_type must be 'Tumor', 'Non-Tumor', or None"), w)
    else
      match for_each os_makedirs
              (Dict.values (base_paths base_folder dataset_id sample_id)) w with
      | (Ok _, w') =>
          (Ok (path_table base_folder dataset_id sample_id cell_type pruning
                 (FS.glob (fs w') (feather_pattern base_folder))), w')
      | (Raise e, w') => (Raise e, w')
      end.
Proof.
  unfold get_analysis_paths.
  destruct (invalid_cell_type cell_type); [reflexivity|].
  rewrite bind_unfold.
  destruct (for_each os_makedirs _ w) as [[[]|e] w']; [|reflexivity].
  destruct pruning as [[]|]; reflexivity.
Qed.

Lemma get_analysis_paths_ok_inv (base_folder dataset_id sample_id : string)
    (cell_type : option string) (pruning : option bool) (w w' : World)
    (p : PathSet) :
  get_analysis_paths base_folder dataset_id sample_id cell_type pruning w
    = (Ok p, w') ->
  invalid_cell_type cell_type = false /\
  for_each os_makedirs
    (Dict.values (base_paths base_folder dataset_id sample_id)) w
    = (Ok tt, w') /\
  p = path_table base_folder dataset_id sample_id cell_type pruning
        (FS.glob (fs w') (feather_pattern base_folder)).
Proof.
  rewrite get_analysis_paths_eq.
  destruct (invalid_cell_type cell_type); [discriminate|].
  destruct (for_each os_makedirs _ w) as [[[]|e] w1]; [|discriminate].
  intros [= <- <-]. auto.
Qed.

End MonadFacts.

Section FSFacts.
Implicit Types (f : FS.t) (cur comps : list string).

(** Creating directories only adds nodes. *)
Lemma mkdir_p_grows name f cur comps f' :
  FS.mkdir_p name f cur comps = Ok f' -> f ⊆ f'.
Proof.
  revert f cur. induction comps as [|c rest IH]; intros f cur H;
    cbn [FS.mkdir_p] in H.
  - injection H as <-. reflexivity.
  - destruct (FS.is_dot c); [eauto|].
    destruct (String.eqb c ".."); [eauto|].
    destruct (f !! (cur ++ [c])) as [[]|] eqn:E; [eauto | discriminate |].
    apply IH in H. etrans; [apply insert_subseteq; exact E | exact H].
Qed.

(** Once a chain of directories has been created, creating it again in
    the resulting file system, or in any larger one, changes nothing and
    raises nothing. *)
Lemma mkdir_p_settled name f cur comps f' :
  FS.mkdir_p name f cur comps = Ok f' ->
  forall f'', f' ⊆ f'' -> FS.mkdir_p name f'' cur comps = Ok f''.
Proof.
  revert f cur. induction comps as [|c rest IH]; intros f cur H f'' Hsub;
    cbn [FS.mkdir_p] in *; [reflexivity|].
  destruct (FS.is_dot c); [eauto|].
  destruct (String.eqb c ".."); [eauto|].
  assert (Hdir : f'' !! (cur ++ [c]) = Some FS.Dir).
  { destruct (f !! (cur ++ [c])) as [[]|] eqn:E; [| discriminate |].
    - eapply lookup_weaken; [exact E|].
      etrans; [eapply mkdir_p_grows; exact H | exact Hsub].
    - eapply lookup_weaken; [apply lookup_insert_eq|].
      etrans; [eapply mkdir_p_grows; exact H | exact Hsub]. }
  rewrite Hdir.
  destruct (f !! (cur ++ [c])) as [[]|]; [eauto | discriminate | eauto].
Qed.

Lemma makedirs_grows name f f' : FS.makedirs name f = Ok f' -> f ⊆ f'.
Proof.
  unfold FS.makedirs. destruct (String.eqb name ""); [discriminate|].
  apply mkdir_p_grows.
Qed.

Lemma makedirs_settled name f f' :
  FS.makedirs name f = Ok f' ->
  forall f'', f' ⊆ f'' -> FS.makedirs name f'' = Ok f''.
Proof.
  unfold FS.makedirs. destruct (String.eqb name ""); [discriminate|].
  apply mkdir_p_settled.
Qed.

(** The directory loop of the resolver: it leaves the trace alone, only
    adds nodes, and is a no-operation on every file system that already
    contains its result. *)
Lemma for_each_makedirs_ok (l : list string) (w w' : World) :
  for_each os_makedirs l w = (Ok tt, w') ->
  trace w' = trace w /\ fs w ⊆ fs w' /\
  forall f'' t, fs w' ⊆ f'' ->
    for_each os_makedirs l {| fs := f''; trace := t |}
    = (Ok tt, {| fs := f''; trace := t |}).
Proof.
  revert w. induction l as [|x l IH]; intros w H; cbn [for_each] in *.
  - injection H as <-. repeat split; reflexivity.
  - unfold bind in H. unfold os_makedirs at 1 in H.
    destruct (FS.makedirs x (fs w)) as [f1|e] eqn:E; [|discriminate].
    apply IH in H as (Ht & Hsub & Hre). cbn [fs trace] in *.
    split; [exact Ht|]. split.
    + etrans; [eapply makedirs_grows; exact E | exact Hsub].
    + intros f'' t Hf. unfold bind. unfold os_makedirs at 1. cbn [fs trace].
      rewrite (makedirs_settled _ _ _ E f'') by (etrans; [exact Hsub | exact Hf]).
      apply Hre, Hf.
Qed.

(** A second resolution right after a successful one succeeds, returns
    the same dictionary and leaves the file system as it is: a directory
    that exists already is never an error. *)
Lemma get_analysis_paths_rerun (base_folder dataset_id sample_id : string)
    (cell_type : option string) (pruning : option bool) (w w' : World)
    (p : PathSet) :
  get_analysis_paths base_folder dataset_id sample_id cell_type pruning w
    = (Ok p, w') ->
  get_analysis_paths base_folder dataset_id sample_id cell_type pruning w'
    = (Ok p, w').
Proof.
  intros H. apply get_analysis_paths_ok_inv in H as (Hv & Hloop & ->).
  rewrite get_analysis_paths_eq, Hv.
  apply for_each_makedirs_ok in Hloop as (_ & _ & Hre).
  destruct w' as [f' t']. cbn [fs] in *.
  rewrite (Hre f' t') by reflexivity. reflexivity.
Qed.

End FSFacts.

(** * The resolver's raw inputs *)

Section RawInputs.

Lemma raw_data_nonempty (base_folder dataset_id : string) :
  OsPath.join base_folder [dataset_id; "raw_data"] <> "" /\
  PyStr.endswith (OsPath.join base_folder [dataset_id; "raw_data"]) "/" = false.
Proof.
  unfold OsPath.join. cbn [fold_left].
  destruct (join2_relative (OsPath.join2 base_folder dataset_id) "raw_data")
    as [pre ->]; [reflexivity|].
  split.
  - intros E. apply append_eq_nil in E as [_ E]. discriminate.
  - rewrite endswith_sep_app by discriminate. reflexivity.
Qed.

Lemma raw_data_join (base_folder dataset_id name : string) :
  PyStr.startswith name "/" = false ->
  OsPath.join (OsPath.join base_folder [dataset_id; "raw_data"]) [name]
  = OsPath.join base_folder [dataset_id; "raw_data"] +:+ "/" +:+ name.
Proof.
  intros Hn. destruct (raw_data_nonempty base_folder dataset_id) as [H1 H2].
  unfold OsPath.join at 1. cbn [fold_left]. apply join2_plain; assumption.
Qed.

(** With a base folder and a data set name that are plain path pieces,
    the raw-data directory is spelled [<base>/<dataset_id>/raw_data]. *)
Lemma raw_data_plain (base_folder dataset_id : string) :
  base_folder <> "" -> PyStr.endswith base_folder "/" = false ->
  dataset_id <> "" -> PyStr.startswith dataset_id "/" = false ->
  PyStr.endswith dataset_id "/" = false ->
  OsPath.join base_folder [dataset_id; "raw_data"]
  = base_folder +:+ "/" +:+ dataset_id +:+ "/" +:+ "raw_data".
Proof.
  intros Hb Hbe Hd Hds Hde. unfold OsPath.join. cbn [fold_left].
  rewrite (join2_plain base_folder dataset_id) by assumption.
  rewrite join2_plain.
  - rewrite !append_assoc. reflexivity.
  - reflexivity.
  - intros E. apply append_eq_nil in E as [E _]. contradiction.
  - rewrite endswith_sep_app.
    + rewrite (endswith_sep_app "/" dataset_id) by assumption. exact Hde.
    + intros E. apply append_eq_nil in E as [E _]. discriminate.
Qed.

End RawInputs.

(** C10.  For every context, the raw expression matrix directory and the
    metadata file of the resolved dictionary are the two hard-coded names
    under the raw-data directory of the data set,
    [os.path.join(base_folder, dataset_id, "raw_data")].  They do not depend
    on the sample, the cell type or the pruning option (nor on the file
    system): two contexts that differ only in these read the same raw
    inputs.  When base folder and data set name are plain path pieces that
    directory is [<base>/<dataset_id>/raw_data]. *)
Theorem raw_inputs_fixed
    (base_folder dataset_id sample1 sample2 : string)
    (cell_type1 cell_type2 : option string) (pruning1 pruning2 : option bool)
    (w1 w2 w1' w2' : World) (p1 p2 : PathSet) :
  get_analysis_paths base_folder dataset_id sample1 cell_type1 pruning1 w1
    = (Ok p1, w1') ->
  get_analysis_paths base_folder dataset_id sample2 cell_type2 pruning2 w2
    = (Ok p2, w2') ->
  let raw_data := OsPath.join base_folder [dataset_id; "raw_data"] in
  Dict.get p1 "raw_matrix"
    = Some (raw_data +:+ "/" +:+
            "C3L-00004-T1_CPT0001540013_snRNA_ccRCC/outs/raw_feature_bc_matrix/") /\
  Dict.get p1 "metadata"
    = Some (raw_data +:+ "/" +:+
            "GSE240822_GBM_ccRCC_RNA_metadata_CPTAC_samples.tsv.gz") /\
  Dict.get p2 "raw_matrix" = Dict.get p1 "raw_matrix" /\
  Dict.get p2 "metadata" = Dict.get p1 "metadata" /\
  (base_folder <> "" -> PyStr.endswith base_folder "/" = false ->
   dataset_id <> "" -> PyStr.startswith dataset_id "/" = false ->
   PyStr.endswith dataset_id "/" = false ->
   raw_data = base_folder +:+ "/" +:+ dataset_id +:+ "/" +:+ "raw_data").
Proof.
  intros H1 H2 raw_data.
  apply get_analysis_paths_ok_inv in H1 as (_ & _ & ->).
  apply get_analysis_paths_ok_inv in H2 as (_ & _ & ->).
  assert (Hm : forall s c p g,
    Dict.get (path_table base_folder dataset_id s c p g) "raw_matrix"
    = Some (raw_data +:+ "/" +:+ raw_matrix_name)).
  { intros. unfold raw_data.
    rewrite <- (raw_data_join base_folder dataset_id raw_matrix_name)
      by reflexivity. reflexivity. }
  assert (Hd : forall s c p g,
    Dict.get (path_table base_folder dataset_id s c p g) "metadata"
    = Some (raw_data +:+ "/" +:+ metadata_name)).
  { intros. unfold raw_data.
    rewrite <- (raw_data_join base_folder dataset_id metadata_name)
      by reflexivity. reflexivity. }
  rewrite !Hm, !Hd. repeat split; try reflexivity.
  apply raw_data_plain.
Qed.

Lemma raw_inputs_fixed_witness :
  let r1 := get_analysis_paths "/b" "d" "s" None None Sample.empty_world in
  let r2 := get_analysis_paths "/b" "d" "t" (Some "Tumor") (Some true)
              Sample.feather_world in
  let p1 := path_table "/b" "d" "s" None None [] in
  let p2 := path_table "/b" "d" "t" (Some "Tumor") (Some true)
              ["/b/databases/hg38.feather"] in
  (r1 = (Ok p1, snd r1) /\ r2 = (Ok p2, snd r2)) /\
  Dict.get p2 "raw_matrix" = Dict.get p1 "raw_matrix" /\
  Dict.get p2 "metadata" = Dict.get p1 "metadata" /\
  OsPath.join "/b" ["d"; "raw_data"] = "/b" +:+ "/" +:+ "d" +:+ "/" +:+ "raw_data".
Proof.
  intros r1 r2 p1 p2.
  assert (H1 : r1 = (Ok p1, snd r1)) by (vm_compute; reflexivity).
  assert (H2 : r2 = (Ok p2, snd r2)) by (vm_compute; reflexivity).
  split; [split; assumption|].
  destruct (raw_inputs_fixed "/b" "d" "s" "t" None (Some "Tumor") None
              (Some true) _ _ _ _ _ _ H1 H2) as (_ & _ & Ha & Hb & Hplain).
  split; [exact Ha|]. split; [exact Hb|].
  apply Hplain; [discriminate | reflexivity | discriminate
                | reflexivity | reflexivity].
Defined.

(** * The pruning flag of the context-inference command *)

Section CtxCommand.

Lemma ctx_base_command_regulons (paths : PathSet) (base : string) :
  ctx_base_command paths = Ok base ->
  exists regulons, Dict.item paths "regulons" = Ok regulons.
Proof.
  unfold ctx_base_command, mbind, result_mbind, result_bind.
  destruct (Dict.item paths "adjacencies"); [|discriminate].
  destruct (Dict.item paths "ranking_dbs"); [|discriminate].
  destruct (Dict.item paths "motif_annotations"); [|discriminate].
  destruct (Dict.item paths "filtered_loom"); [|discriminate].
  destruct (Dict.item paths "regulons") as [r|]; [eauto | discriminate].
Qed.

Lemma run_ctx_inference_eq (paths : PathSet) (pruning : option bool)
    (base regulons : string) :
  ctx_base_command paths = Ok base ->
  Dict.item paths "regulons" = Ok regulons ->
  run_ctx_inference paths pruning
  = Ok {| command := if is_False pruning
                     then base +:+ " " +:+ no_pruning_flag else base;
          output_path := regulons |}.
Proof.
  intros Hb Hr. unfold run_ctx_inference, mbind, result_mbind, result_bind.
  rewrite Hb, Hr. reflexivity.
Qed.

Lemma is_False_iff (pruning : option bool) :
  is_False pruning = true <-> pruning = Some false.
Proof. destruct pruning as [[]|]; cbn; split; congruence. Qed.

End CtxCommand.

(** C8, as stated, fails.  The sample identifier is interpolated into
    the command through the paths, so a sample named [s --no_pruning x]
    gives, with pruning [True], a command that contains the flag (even as
    a word of its own) although pruning is not [False]. *)
Lemma pruning_flag_spelled_by_sample :
  let run := get_analysis_paths "/b" "d" "s --no_pruning x" None (Some true)
               Sample.empty_world in
  let paths := path_table "/b" "d" "s --no_pruning x" None (Some true) [] in
  fst run = Ok paths /\
  (exists cfg,
     run_ctx_inference paths (Some true) = Ok cfg /\
     PyStr.contains (command cfg) "--no_pruning" = true /\
     In "--no_pruning" (PyStr.split " " (command cfg))) /\
  ~ flag_marks_unpruned paths (Some true).
Proof.
  intros run paths.
  assert (Hrun : fst run = Ok paths) by (vm_compute; reflexivity).
  destruct (run_ctx_inference paths (Some true)) as [cfg|e] eqn:E;
    [|vm_compute in E; discriminate E].
  assert (Hc : PyStr.contains (command cfg) "--no_pruning" = true).
  { apply (f_equal (fun r => match r with
                             | Ok c => PyStr.contains (command c) "--no_pruning"
                             | Raise _ => false
                             end)) in E.
    rewrite <- E. vm_compute. reflexivity. }
  assert (Hw : In "--no_pruning" (PyStr.split " " (command cfg))).
  { apply (f_equal (fun r => match r with
                             | Ok c => PyStr.split " " (command c)
                             | Raise _ => []
                             end)) in E.
    rewrite <- E. vm_compute. tauto. }
  split; [exact Hrun|]. split; [exists cfg; auto|].
  intros H. apply (H cfg E) in Hc. discriminate Hc.
Qed.

(** C8, amended.  Whenever the dictionary has the entries the command is
    built from, [run_ctx_inference] returns the base command followed by
    [" --no_pruning"] if pruning is the value [False], and the base command
    alone if pruning is [True] or [None]: the flag is appended exactly when
    pruning is [False].  The command contains the text of the flag exactly
    when pruning is [False] or the base command, through one of the
    interpolated paths, already contains it. *)
Theorem no_pruning_flag_appended_iff_false (paths : PathSet)
    (pruning : option bool) (base : string) :
  ctx_base_command paths = Ok base ->
  exists cfg,
    run_ctx_inference paths pruning = Ok cfg /\
    command cfg = (if is_False pruning then base +:+ " --no_pruning" else base) /\
    (command cfg = base +:+ " --no_pruning" <-> pruning = Some false) /\
    (command cfg = base <-> pruning <> Some false) /\
    (PyStr.contains (command cfg) "--no_pruning" = true
     <-> pruning = Some false \/ PyStr.contains base "--no_pruning" = true).
Proof.
  intros Hb.
  destruct (ctx_base_command_regulons paths base Hb) as [regulons Hr].
  eexists. split; [apply (run_ctx_inference_eq _ _ _ _ Hb Hr)|].
  cbn [command]. change (base +:+ " " +:+ no_pruning_flag)
    with (base +:+ " --no_pruning").
  assert (Hne : base +:+ " --no_pruning" <> base)
    by (apply append_neq_self; discriminate).
  split; [reflexivity|].
  rewrite <- is_False_iff.
  destruct (is_False pruning).
  - split; [tauto|]. split; [split; [intros E; contradiction | congruence]|].
    split; [auto|]. intros _. apply contains_app_r. reflexivity.
  - split; [split; [intros E; symmetry in E; contradiction | discriminate]|].
    split; [split; [discriminate | reflexivity]|].
    split; [auto|]. intros [H|H]; [discriminate | exact H].
Qed.

Lemma no_pruning_flag_appended_iff_false_witness :
  let paths := path_table "/b" "d" "s" (Some "Tumor") (Some false) [] in
  let base :=
    "pyscenic ctx /b/d/s/unpruned/Tumor_adjacencies.csv  --annotations_fname /b/databases/motifs-v10nr_clust-nr.hgnc-m0.001-o0.0.tbl --expression_mtx_fname /b/d/s/unpruned/Tumor_filtered_scenic.loom --output /b/d/s/unpruned/Tumor_reg.csv --mask_dropouts --num_workers 20" in
  (ctx_base_command paths = Ok base /\
   PyStr.contains base "--no_pruning" = false) /\
  (exists cfg,
     run_ctx_inference paths (Some true) = Ok cfg /\
     command cfg = base /\
     PyStr.contains (command cfg) "--no_pruning" <> true) /\
  (exists cfg,
     run_ctx_inference paths (Some false) = Ok cfg /\
     command cfg = base +:+ " --no_pruning" /\
     PyStr.contains (command cfg) "--no_pruning" = true).
Proof.
  intros paths base.
  assert (Hb : ctx_base_command paths = Ok base) by (vm_compute; reflexivity).
  assert (Hfree : PyStr.contains base "--no_pruning" = false)
    by (vm_compute; reflexivity).
  split; [split; assumption|]. split.
  - destruct (no_pruning_flag_appended_iff_false paths (Some true) base Hb)
      as (cfg & Hrun & Hcmd & _ & _ & Hiff).
    exists cfg. split; [exact Hrun|]. split; [exact Hcmd|].
    intros Hc. apply Hiff in Hc as [Hc|Hc]; [discriminate Hc|].
    rewrite Hfree in Hc. discriminate Hc.
  - destruct (no_pruning_flag_appended_iff_false paths (Some false) base Hb)
      as (cfg & Hrun & Hcmd & _ & _ & Hiff).
    exists cfg. split; [exact Hrun|]. split; [exact Hcmd|].
    apply Hiff. left. reflexivity.
Defined.

(** * Subsetting by cell type *)

Section Subsetting.
Context {Row : Type}.

Lemma dict_get_in {V} (d : list (string * V)) (k : string) (v : V) :
  Dict.get d k = Some v -> (k, v) ∈ d.
Proof.
  induction d as [|[k' v'] d IH]; cbn [Dict.get]; [discriminate|].
  destruct (String.eqb_spec k' k) as [->|_].
  - intros [= ->]. left.
  - intros H. right. auto.
Qed.

Lemma ne_mask_negb (col : list (option string)) (v : string) :
  ne_mask col v = map negb (eq_mask col v).
Proof. unfold ne_mask, eq_mask. rewrite map_map. reflexivity. Qed.

(** A mask and its complement split a list of the same length. *)
Lemma select_partition {A} (mask : list bool) (l : list A) :
  length mask = length l ->
  select mask l ++ select (map negb mask) l ≡ₚ l.
Proof.
  revert l. induction mask as [|b mask IH]; intros [|x l] Hlen;
    try discriminate; [reflexivity|].
  injection Hlen as Hlen. specialize (IH l Hlen).
  destruct b; cbn [select map negb app].
  - constructor. exact IH.
  - rewrite <- Permutation_middle. constructor. exact IH.
Qed.

Lemma annotation_length (a : AnnData Row) (col : list (option string)) :
  well_formed a ->
  Dict.get (obs a) annotation_column = Some col ->
  length col = length (obs_names a).
Proof.
  intros [_ Hcols] Hget. apply dict_get_in in Hget.
  rewrite Forall_forall in Hcols. apply (Hcols _ Hget).
Qed.

End Subsetting.

(** C4.  For every expression matrix whose metadata has the annotation
    column, whatever its values, both selections succeed; the rows taken
    for "Tumor" are those whose annotation equals "Tumor", the rows taken
    for "Non-Tumor" are those of the complementary mask, so every row is in
    exactly one of the two selections, and together the two selections
    hold exactly the rows of the matrix. *)
Theorem tumor_non_tumor_partition {Row : Type} (a : AnnData Row)
    (col : list (option string)) :
  well_formed a ->
  Dict.get (obs a) annotation_column = Some col ->
  let mask := eq_mask col "Tumor" in
  length mask = length (obs_names a) /\
  subset_by_cell_type a (Some "Tumor") = Ok (subset_rows a mask) /\
  subset_by_cell_type a (Some "Non-Tumor")
    = Ok (subset_rows a (map negb mask)) /\
  obs_names (subset_rows a mask) ++ obs_names (subset_rows a (map negb mask))
    ≡ₚ obs_names a /\
  X (subset_rows a mask) ++ X (subset_rows a (map negb mask)) ≡ₚ X a.
Proof.
  intros Hwf Hget mask.
  pose proof (annotation_length a col Hwf Hget) as Hlen.
  assert (Hm : length mask = length (obs_names a)).
  { unfold mask, eq_mask. rewrite length_map. exact Hlen. }
  split; [exact Hm|].
  unfold subset_by_cell_type, Dict.item. rewrite Hget. cbn.
  rewrite ne_mask_negb. repeat split.
  - apply select_partition, Hm.
  - apply select_partition. destruct Hwf as [HX _]. congruence.
Qed.

Lemma tumor_non_tumor_partition_witness :
  well_formed Sample.adata /\
  subset_by_cell_type Sample.adata (Some "Tumor")
    = Ok {| obs_names := ["c1"];
            obs := [("louvain", [Some "0"]);
                    (annotation_column, [Some "Tumor"])];
            X := [10] |} /\
  subset_by_cell_type Sample.adata (Some "Non-Tumor")
    = Ok {| obs_names := ["c2"; "c3"];
            obs := [("louvain", [Some "1"; Some "0"]);
                    (annotation_column, [Some "Stroma"; None])];
            X := [20; 30] |}.
Proof.
  assert (Hwf : well_formed Sample.adata).
  { split; [reflexivity|]. repeat constructor. }
  split; [exact Hwf|].
  destruct (tumor_non_tumor_partition Sample.adata
              [Some "Tumor"; Some "Stroma"; None] Hwf eq_refl)
    as (_ & Ht & Hn & _).
  split; [exact Ht | exact Hn].
Defined.

(** C9, as stated, fails.  For a matrix without the annotation column
    the selection for ["Tumor"] does raise, but what it raises is the
    [KeyError] of the column lookup: the script defines no
    [MissingAnnotationError], and no exception of that class is raised. *)
Lemma missing_annotation_is_key_error :
  let bare : AnnData nat :=
    {| obs_names := ["c1"]; obs := [("louvain", [Some "0"])]; X := [10] |} in
  let r := subset_by_cell_type bare (Some "Tumor") in
  Dict.get (obs bare) annotation_column = None /\
  r = Raise (KeyError "cell_type.harmonized.cancer") /\
  raises_class r "KeyError" /\
  ~ raises_class r "MissingAnnotationError".
Proof.
  intros bare r.
  assert (E : r = Raise (KeyError "cell_type.harmonized.cancer"))
    by reflexivity.
  split; [reflexivity|]. split; [exact E|]. split.
  - exists (KeyError "cell_type.harmonized.cancer"). split; [exact E|reflexivity].
  - intros (e & He & Hc). rewrite E in He. injection He as <-.
    discriminate Hc.
Qed.

(** C9, amended.  When a cell-type subset is requested (any non-empty
    cell type) and the annotation column is absent from the metadata, the
    selection raises the [KeyError] of the column lookup, for the name of
    the column; it does not return the unfiltered matrix, nor any other
    matrix. *)
Theorem missing_annotation_raises {Row : Type} (a : AnnData Row)
    (ct : string) :
  ct <> "" ->
  Dict.get (obs a) annotation_column = None ->
  subset_by_cell_type a (Some ct) = Raise (KeyError "cell_type.harmonized.cancer") /\
  raises_class (subset_by_cell_type a (Some ct)) "KeyError" /\
  subset_by_cell_type a (Some ct) <> Ok a /\
  is_ok (subset_by_cell_type a (Some ct)) = false.
Proof.
  intros Hct Hget.
  assert (E : subset_by_cell_type a (Some ct)
              = Raise (KeyError "cell_type.harmonized.cancer")).
  { unfold subset_by_cell_type, Dict.item, PyStr.truthy.
    apply String.eqb_neq in Hct. rewrite Hct, Hget. reflexivity. }
  split; [exact E|]. rewrite E. split.
  - eexists. split; reflexivity.
  - split; [discriminate | reflexivity].
Qed.

Lemma missing_annotation_raises_witness :
  let bare : AnnData nat :=
    {| obs_names := ["c1"]; obs := [("louvain", [Some "0"])]; X := [10] |} in
  "Tumor" <> "" /\
  subset_by_cell_type bare (Some "Tumor")
    = Raise (KeyError "cell_type.harmonized.cancer").
Proof.
  intros bare.
  assert (Hne : "Tumor" <> "") by discriminate.
  split; [exact Hne|].
  exact (proj1 (missing_annotation_raises bare "Tumor" Hne eq_refl)).
Defined.

(** * Computations that record nothing *)

Section Silent.
Context {Row Auc : Type} (env : Collaborators Row Auc).

Lemma silent_ret {A} (a : A) : silent (ret a).
Proof. intros w. reflexivity. Qed.

Lemma silent_mret {A} (a : A) : silent (mret a : M A).
Proof. intros w. reflexivity. Qed.

Lemma silent_raise {A} (e : exn) : silent (raise e : M A).
Proof. intros w. reflexivity. Qed.

Lemma silent_of_result {A} (r : result A) : silent (of_result r).
Proof. intros w. reflexivity. Qed.

Lemma silent_bind {A B} (m : M A) (f : A -> M B) :
  silent m -> (forall a, silent (f a)) -> silent (m ≫= f).
Proof.
  intros Hm Hf w. rewrite bind_unfold. specialize (Hm w).
  destruct (m w) as [[a|e] w1]; cbn [snd] in *; [|exact Hm].
  rewrite Hf. exact Hm.
Qed.

Lemma silent_os_makedirs (name : string) : silent (os_makedirs name).
Proof.
  intros w. unfold os_makedirs. destruct (FS.makedirs name (fs w)); reflexivity.
Qed.

Lemma silent_glob (pattern : string) : silent (glob_glob pattern).
Proof. intros w. reflexivity. Qed.

Lemma silent_for_each {A} (f : A -> M unit) (l : list A) :
  (forall x, silent (f x)) -> silent (for_each f l).
Proof.
  intros Hf. induction l as [|x l IH]; cbn [for_each].
  - apply silent_ret.
  - apply (silent_bind (f x) (fun _ => for_each f l)); auto.
Qed.

Lemma silent_call_library (c : libcall Row Auc) : silent (call_library env c).
Proof.
  intros w. unfold call_library. destruct (library env c (fs w)). reflexivity.
Qed.

Lemma silent_read_file {A} (contents : string -> FS.t -> result A)
    (path : string) : silent (read_file contents path).
Proof.
  intros w. unfold read_file.
  destruct (FS.isfile (fs w) path); reflexivity.
Qed.

Lemma silent_get_analysis_paths (b d s : string) (ct : option string)
    (pr : option bool) : silent (get_analysis_paths b d s ct pr).
Proof.
  intros w. rewrite get_analysis_paths_eq.
  destruct (invalid_cell_type ct); [reflexivity|].
  pose proof (silent_for_each os_makedirs
                (Dict.values (base_paths b d s)) silent_os_makedirs w) as H.
  destruct (for_each os_makedirs _ w) as [[[]|e] w']; exact H.
Qed.

End Silent.

Create HintDb silent.
#[export] Hint Resolve silent_ret silent_mret silent_raise silent_of_result
  silent_os_makedirs silent_glob silent_for_each silent_call_library
  silent_read_file silent_get_analysis_paths : silent.

Ltac silent_steps :=
  repeat first
    [ progress auto with silent
    | apply silent_bind; [|intros] ].

Section Traces.
Context {Row Auc : Type} (env : Collaborators Row Auc).

Lemma silent_create_loom_file paths adata :
  silent (create_loom_file env paths adata).
Proof. unfold create_loom_file. silent_steps. Qed.

Lemma silent_plot_gene_distribution paths adata ct :
  silent (plot_gene_distribution env paths adata ct).
Proof. unfold plot_gene_distribution. silent_steps. Qed.

Lemma silent_dimensionality_reduction paths auc adata ct :
  silent (aucell_dimensionality_reduction env paths auc adata ct).
Proof. unfold aucell_dimensionality_reduction. silent_steps. Qed.

Lemma silent_step_visualise self paths :
  silent (step_visualise env self paths).
Proof.
  unfold step_visualise, plot_top_regulons, create_regulon_heatmap,
    lp_connect_auc, sc_read_h5ad.
  destruct (PyStr.truthy (cell_type self)); silent_steps.
Qed.

Lemma silent_read_anndata paths :
  silent (anndata ← of_result (Dict.item paths "anndata");
          sc_read_h5ad env anndata).
Proof. unfold sc_read_h5ad. silent_steps. Qed.

Lemma silent_preprocessing_workflow self :
  silent (preprocessing_workflow env self).
Proof. unfold preprocessing_workflow, DataLoader. silent_steps. Qed.

(** A step that returned: its body ran in the world with the entry
    recorded, and returned the same. *)
Lemma in_stage_ok {A} (s : stage) (body : M A) (w w' : World) (a : A) :
  in_stage s body w = (Ok a, w') ->
  body {| fs := fs w; trace := trace w ++ [Enter s] |} = (Ok a, w').
Proof.
  unfold in_stage. destruct (body _) as [[a'|e] w1]; [auto | discriminate].
Qed.

Lemma in_stage_silent_ok {A} (s : stage) (body : M A) (w w' : World) (a : A) :
  silent body -> in_stage s body w = (Ok a, w') ->
  body {| fs := fs w; trace := trace w ++ [Enter s] |} = (Ok a, w') /\
  trace w' = trace w ++ [Enter s].
Proof.
  intros Hs H. apply in_stage_ok in H. split; [exact H|].
  specialize (Hs {| fs := fs w; trace := trace w ++ [Enter s] |}).
  rewrite H in Hs. exact Hs.
Qed.

(** The two ways a step without commands ends. *)
Lemma in_stage_silent_cases {A} (s : stage) (body : M A) (w : World) :
  silent body ->
  let w0 := {| fs := fs w; trace := trace w ++ [Enter s] |} in
  (exists a w', in_stage s body w = (Ok a, w') /\ body w0 = (Ok a, w') /\
                trace w' = trace w ++ [Enter s]) \/
  (exists e w', in_stage s body w = (Raise e, w') /\
                fst (body w0) = Raise e /\
                trace w' = trace w ++ [Enter s; Abort s e]).
Proof.
  intros Hs w0. specialize (Hs w0). unfold in_stage. fold w0.
  destruct (body w0) as [[a|e] w1]; cbn [snd fst] in *.
  - left. exists a, w1. auto.
  - right. exists e. eexists. split; [reflexivity|]. split; [reflexivity|].
    cbn [trace]. rewrite Hs. unfold w0. cbn [trace].
    rewrite <- app_assoc. reflexivity.
Qed.

(** A step made of one command and one read. *)
Lemma command_then_read_ok {A} (cmd : string) (rd : M A) (w w' : World)
    (a : A) :
  silent rd ->
  (subprocess_run env cmd ≫= fun _ => rd) w = (Ok a, w') ->
  fst (shell env cmd (fs w)) = 0%Z /\
  trace w' = trace w ++ [Subprocess cmd].
Proof.
  intros Hs H. apply bind_ok_inv in H as ([] & w1 & H1 & H2).
  unfold subprocess_run in H1.
  destruct (shell env cmd (fs w)) as [status f'].
  destruct (Z.eqb_spec status 0) as [->|_]; [|discriminate].
  injection H1 as <-. specialize (Hs {| fs := f'; trace := trace w ++ [Subprocess cmd] |}).
  rewrite H2 in Hs. auto.
Qed.

End Traces.

(** * Fail-fast sequencing *)

Section Quiet.
Context {Row Auc : Type} (env : Collaborators Row Auc).

Lemma quiet_ret {A} (a : A) : quiet (ret a).
Proof. intros w. exists []. cbn. rewrite app_nil_r. reflexivity. Qed.

Lemma quiet_mret {A} (a : A) : quiet (mret a : M A).
Proof. apply quiet_ret. Qed.

Lemma quiet_raise {A} (e : exn) : quiet (raise e : M A).
Proof. intros w. exists []. cbn. rewrite app_nil_r. reflexivity. Qed.

Lemma quiet_of_result {A} (r : result A) : quiet (of_result r).
Proof. intros w. exists []. cbn. rewrite app_nil_r. reflexivity. Qed.

Lemma quiet_bind {A B} (m : M A) (f : A -> M B) :
  quiet m -> (forall a, quiet (f a)) -> quiet (m ≫= f).
Proof.
  intros Hm Hf w. rewrite bind_unfold.
  destruct (Hm w) as [c1 H1]. destruct (m w) as [[a|e] w1]; cbn [snd] in *.
  - destruct (Hf a w1) as [c2 H2]. exists (c1 ++ c2).
    rewrite H2, H1, map_app, app_assoc. reflexivity.
  - exists c1. exact H1.
Qed.

Lemma quiet_os_makedirs (name : string) : quiet (os_makedirs name).
Proof.
  intros w. exists []. unfold os_makedirs.
  destruct (FS.makedirs name (fs w)); cbn; rewrite app_nil_r; reflexivity.
Qed.

Lemma quiet_glob (pattern : string) : quiet (glob_glob pattern).
Proof. intros w. exists []. cbn. rewrite app_nil_r. reflexivity. Qed.

Lemma quiet_for_each {A} (f : A -> M unit) (l : list A) :
  (forall x, quiet (f x)) -> quiet (for_each f l).
Proof.
  intros Hf. induction l as [|x l IH]; cbn [for_each].
  - apply quiet_ret.
  - apply (quiet_bind (f x) (fun _ => for_each f l)); auto.
Qed.

Lemma quiet_subprocess_run (cmd : string) : quiet (subprocess_run env cmd).
Proof.
  intros w. exists [cmd]. unfold subprocess_run.
  destruct (shell env cmd (fs w)) as [status f'].
  destruct (Z.eqb status 0); reflexivity.
Qed.

Lemma quiet_call_library (c : libcall Row Auc) : quiet (call_library env c).
Proof.
  intros w. exists []. unfold call_library.
  destruct (library env c (fs w)). cbn. rewrite app_nil_r. reflexivity.
Qed.

Lemma quiet_read_file {A} (contents : string -> FS.t -> result A)
    (path : string) : quiet (read_file contents path).
Proof.
  intros w. exists []. unfold read_file.
  destruct (FS.isfile (fs w) path); cbn; rewrite app_nil_r; reflexivity.
Qed.

Lemma quiet_get_analysis_paths (b d s : string) (ct : option string)
    (pr : option bool) : quiet (get_analysis_paths b d s ct pr).
Proof.
  unfold get_analysis_paths. destruct (invalid_cell_type ct).
  - apply quiet_raise.
  - repeat (apply quiet_bind; [|intros]);
      auto using quiet_ret, quiet_of_result, quiet_glob, quiet_for_each,
                 quiet_os_makedirs.
Qed.

End Quiet.

Create HintDb quiet.
#[export] Hint Resolve quiet_ret quiet_mret quiet_raise quiet_of_result
  quiet_os_makedirs quiet_glob quiet_for_each quiet_subprocess_run
  quiet_call_library quiet_read_file quiet_get_analysis_paths : quiet.

Ltac quiet_steps :=
  repeat first
    [ progress auto with quiet
    | apply quiet_bind; [|intros] ].

Section FailFast.
Context {Row Auc : Type} (env : Collaborators Row Auc).

Lemma entered_app (a b : list event) :
  entered (a ++ b) = entered a ++ entered b.
Proof. apply omap_app. Qed.

Lemma aborts_app (a b : list event) : aborts (a ++ b) = aborts a ++ aborts b.
Proof. apply omap_app. Qed.

Lemma entered_commands (cmds : list string) :
  entered (map Subprocess cmds) = [].
Proof. induction cmds; [reflexivity | assumption]. Qed.

Lemma aborts_commands (cmds : list string) :
  aborts (map Subprocess cmds) = [].
Proof. induction cmds; [reflexivity | assumption]. Qed.

(** One instrumented step with a quiet body. *)
Lemma fail_fast_in_stage {A} (s : stage) (body : M A) :
  quiet body -> fail_fast [s] (in_stage s body).
Proof.
  intros Hq w. unfold in_stage.
  destruct (Hq {| fs := fs w; trace := trace w ++ [Enter s] |})
    as [cmds Hc].
  destruct (body _) as [[a|e] w']; cbn [fst snd fs trace] in *.
  - exists (Enter s :: map Subprocess cmds). split.
    + rewrite Hc, <- app_assoc. reflexivity.
    + cbn. rewrite entered_commands, aborts_commands. auto.
  - exists ((Enter s :: map Subprocess cmds) ++ [Abort s e]). split.
    + rewrite Hc, <- !app_assoc. reflexivity.
    + exists (Enter s :: map Subprocess cmds), s. cbn.
      rewrite entered_commands, aborts_commands. auto.
Qed.

(** Sequencing keeps the shape: the steps of the continuation are only
    entered when the first part returned. *)
Lemma fail_fast_bind {A B} (ss1 ss2 : list stage) (m : M A)
    (f : A -> M B) :
  fail_fast ss1 m -> (forall a, fail_fast ss2 (f a)) ->
  fail_fast (ss1 ++ ss2) (m ≫= f).
Proof.
  intros Hm Hf w. rewrite bind_unfold.
  destruct (Hm w) as (ev1 & Ht1 & Hs1).
  destruct (m w) as [[a|e] w1]; cbn [fst snd fail_fast_shape] in *.
  - destruct Hs1 as [He1 Ha1].
    destruct (Hf a w1) as (ev2 & Ht2 & Hs2).
    exists (ev1 ++ ev2). split.
    + rewrite Ht2, Ht1, app_assoc. reflexivity.
    + destruct (f a w1) as [[b|e] w2]; cbn [fst snd fail_fast_shape] in *.
      * destruct Hs2 as [He2 Ha2].
        rewrite entered_app, aborts_app, He1, He2, Ha1, Ha2. auto.
      * destruct Hs2 as (pre & s & -> & Hab & Hpre & Hlast).
        exists (ev1 ++ pre), s.
        rewrite entered_app, aborts_app, He1, Ha1, Hab, app_assoc.
        repeat split; [apply prefix_app, Hpre|].
        destruct (entered pre) as [|x l] eqn:E; [discriminate|].
        rewrite last_app, Hlast. reflexivity.
  - destruct Hs1 as (pre & s & -> & Hab & Hpre & Hlast).
    exists (pre ++ [Abort s e]). split; [exact Ht1|].
    exists pre, s. repeat split; auto. apply prefix_app_r, Hpre.
Qed.

Lemma fail_fast_cons {A B} (s : stage) (ss : list stage) (m : M A)
    (f : A -> M B) :
  fail_fast [s] m -> (forall a, fail_fast ss (f a)) ->
  fail_fast (s :: ss) (m ≫= f).
Proof. apply (fail_fast_bind [s] ss). Qed.

(** The bodies of the steps record no step events of their own. *)
Lemma quiet_create_loom_file paths adata :
  quiet (create_loom_file env paths adata).
Proof. unfold create_loom_file. quiet_steps. Qed.

Lemma quiet_plot_gene_distribution paths adata ct :
  quiet (plot_gene_distribution env paths adata ct).
Proof. unfold plot_gene_distribution. quiet_steps. Qed.

Lemma quiet_step_grn cfg : quiet (step_grn env cfg).
Proof. unfold step_grn, pd_read_csv. quiet_steps. Qed.

Lemma quiet_step_ctx cfg : quiet (step_ctx env cfg).
Proof. unfold step_ctx, pd_read_csv. quiet_steps. Qed.

Lemma quiet_step_aucell cfg : quiet (step_aucell env cfg).
Proof. unfold step_aucell, lp_connect_auc. quiet_steps. Qed.

Lemma quiet_dimensionality_reduction paths auc adata ct :
  quiet (aucell_dimensionality_reduction env paths auc adata ct).
Proof. unfold aucell_dimensionality_reduction. quiet_steps. Qed.

Lemma quiet_step_visualise self paths :
  quiet (step_visualise env self paths).
Proof.
  unfold step_visualise, plot_top_regulons, create_regulon_heatmap,
    lp_connect_auc, sc_read_h5ad.
  destruct (PyStr.truthy (cell_type self)); quiet_steps.
Qed.

Lemma quiet_read_anndata paths :
  quiet (anndata ← of_result (Dict.item paths "anndata");
         sc_read_h5ad env anndata).
Proof. unfold sc_read_h5ad. quiet_steps. Qed.

Lemma fail_fast_workflow (self : WorkflowManager) :
  fail_fast stage_order (run_pyscenic_workflow env self).
Proof.
  unfold run_pyscenic_workflow, steps_from_ctx, stage_order, DataLoader.
  apply fail_fast_cons;
    [apply fail_fast_in_stage, quiet_get_analysis_paths | intros loader_paths].
  apply fail_fast_cons;
    [apply fail_fast_in_stage, quiet_read_anndata | intros adata0].
  apply fail_fast_cons;
    [apply fail_fast_in_stage, quiet_of_result | intros adata].
  apply fail_fast_cons;
    [apply fail_fast_in_stage, quiet_get_analysis_paths | intros paths].
  apply fail_fast_cons;
    [apply fail_fast_in_stage, quiet_create_loom_file | intros _].
  apply fail_fast_cons;
    [apply fail_fast_in_stage, quiet_of_result | intros [[g c] a]].
  apply fail_fast_cons;
    [apply fail_fast_in_stage, quiet_step_grn | intros _].
  apply fail_fast_cons;
    [apply fail_fast_in_stage, quiet_step_ctx | intros _].
  apply fail_fast_cons;
    [apply fail_fast_in_stage, quiet_plot_gene_distribution | intros _].
  apply fail_fast_cons;
    [apply fail_fast_in_stage, quiet_step_aucell | intros auc].
  apply fail_fast_cons;
    [apply fail_fast_in_stage, quiet_dimensionality_reduction | intros _].
  apply fail_fast_in_stage, quiet_step_visualise.
Qed.

(** A step without commands has no command to fail. *)
Lemma stops_in_stage_silent {A} (s : stage) (body : M A) :
  silent body -> stops_at_failed_command env (in_stage s body).
Proof.
  intros Hs w. unfold in_stage.
  specialize (Hs {| fs := fs w; trace := trace w ++ [Enter s] |}).
  destruct (body _) as [[a|e] w1]; cbn [snd fst trace] in *.
  - exists [Enter s]. split; [exact Hs|].
    intros cmd status _ _ [H|[]]. discriminate H.
  - exists [Enter s; Abort s e]. split.
    + rewrite Hs, <- app_assoc. reflexivity.
    + intros cmd status _ _ [H|[H|[]]]; discriminate H.
Qed.

(** A step made of one command and a read: the read is reached only
    after exit status 0. *)
Lemma stops_in_stage_command {A} (s : stage) (cmd0 : string) (rd : M A) :
  silent rd ->
  stops_at_failed_command env
    (in_stage s (subprocess_run env cmd0 ≫= fun _ => rd)).
Proof.
  intros Hs w. unfold in_stage. rewrite bind_unfold. unfold subprocess_run.
  cbn [fs trace].
  destruct (shell env cmd0 (fs w)) as [st f'] eqn:Esh.
  assert (Hst : forall cmd status,
            (forall f, fst (shell env cmd f) = status) ->
            Subprocess cmd0 = Subprocess cmd -> cmd = cmd0 /\ status = st).
  { intros cmd status Hall [= <-]. split; [reflexivity|].
    rewrite <- (Hall (fs w)), Esh. reflexivity. }
  destruct (Z.eqb_spec st 0) as [Hz|Hnz].
  - specialize (Hs {| fs := f';
                      trace := (trace w ++ [Enter s]) ++ [Subprocess cmd0] |}).
    destruct (rd _) as [[a|e] w1]; cbn [snd fst trace] in *.
    + exists [Enter s; Subprocess cmd0]. split.
      * rewrite Hs, <- app_assoc. reflexivity.
      * intros cmd status Hne Hall [H|[H|[]]]; [discriminate H|].
        destruct (Hst cmd status Hall H) as [_ ->]. contradiction.
    + exists [Enter s; Subprocess cmd0; Abort s e]. split.
      * rewrite Hs, <- !app_assoc. reflexivity.
      * intros cmd status Hne Hall [H|[H|[H|[]]]]; try discriminate H.
        destruct (Hst cmd status Hall H) as [_ ->]. contradiction.
  - cbn [snd fst trace].
    exists [Enter s; Subprocess cmd0; Abort s (CalledProcessError st cmd0)].
    split; [rewrite <- !app_assoc; reflexivity|].
    intros cmd status Hne Hall [H|[H|[H|[]]]]; try discriminate H.
    destruct (Hst cmd status Hall H) as [-> ->].
    split; [reflexivity|]. exists [Enter s], s. split; [reflexivity|].
    intros [H'|[]]. discriminate H'.
Qed.

Lemma stops_bind {A B} (m : M A) (f : A -> M B) :
  stops_at_failed_command env m ->
  (forall a, stops_at_failed_command env (f a)) ->
  stops_at_failed_command env (m ≫= f).
Proof.
  intros Hm Hf w. rewrite bind_unfold.
  destruct (Hm w) as (evs1 & T1 & H1).
  destruct (m w) as [[a|e] w1]; cbn [fst snd] in *.
  - destruct (Hf a w1) as (evs2 & T2 & H2).
    exists (evs1 ++ evs2). split; [rewrite T2, T1, app_assoc; reflexivity|].
    intros cmd status Hne Hall Hin. apply in_app_or in Hin as [Hin|Hin].
    + destruct (H1 cmd status Hne Hall Hin) as [H _]. discriminate H.
    + destruct (H2 cmd status Hne Hall Hin) as (Hr & pre & s & -> & Hpre).
      split; [exact Hr|]. exists (evs1 ++ pre), s.
      split; [rewrite app_assoc; reflexivity|].
      intros Hin'. apply in_app_or in Hin' as [Hin'|Hin']; [|auto].
      destruct (H1 cmd status Hne Hall Hin') as [H _]. discriminate H.
  - exists evs1. split; [exact T1|].
    intros cmd status Hne Hall Hin.
    destruct (H1 cmd status Hne Hall Hin) as ([= ->] & Hpre).
    split; [reflexivity | exact Hpre].
Qed.

Lemma stops_workflow (self : WorkflowManager) :
  stops_at_failed_command env (run_pyscenic_workflow env self).
Proof.
  unfold run_pyscenic_workflow, steps_from_ctx, DataLoader,
    step_grn, step_ctx, step_aucell.
  apply stops_bind;
    [apply stops_in_stage_silent, silent_get_analysis_paths
    | intros loader_paths].
  apply stops_bind;
    [apply stops_in_stage_silent, silent_read_anndata | intros adata0].
  apply stops_bind;
    [apply stops_in_stage_silent, silent_of_result | intros adata].
  apply stops_bind;
    [apply stops_in_stage_silent, silent_get_analysis_paths | intros paths].
  apply stops_bind;
    [apply stops_in_stage_silent, silent_create_loom_file | intros _].
  apply stops_bind;
    [apply stops_in_stage_silent, silent_of_result | intros [[g c] a]].
  apply stops_bind;
    [apply stops_in_stage_command, silent_read_file | intros _].
  apply stops_bind;
    [apply stops_in_stage_command, silent_read_file | intros _].
  apply stops_bind;
    [apply stops_in_stage_silent, silent_plot_gene_distribution | intros _].
  apply stops_bind;
    [apply stops_in_stage_command, silent_read_file | intros auc].
  apply stops_bind;
    [apply stops_in_stage_silent, silent_dimensionality_reduction
    | intros _].
  apply stops_in_stage_silent, silent_step_visualise.
Qed.

End FailFast.



(** * The scoring step and its regulon input *)

(** C3, as stated, fails.  In a world where the regulon table
    [/b/d/s/Tumor_reg.csv] does not exist, the scoring step hands its
    command to the shell and, with a tool that exits with status 0 and
    writes its output, returns normally: the step is not gated on its
    input. *)
Lemma scoring_runs_without_regulons :
  let run := in_stage StAUCell (step_aucell Sample.env Sample.aucell_cfg)
               Sample.no_regulons_world in
  FS.isfile (fs Sample.no_regulons_world) "/b/d/s/Tumor_reg.csv" = false /\
  fst run = Ok tt /\
  trace (snd run) = [Enter StAUCell; Subprocess (command Sample.aucell_cfg)] /\
  ~ scoring_gated Sample.env "/b/d/s/Tumor_reg.csv" Sample.aucell_cfg
      Sample.no_regulons_world.
Proof.
  intros run.
  assert (Hmissing :
    FS.isfile (fs Sample.no_regulons_world) "/b/d/s/Tumor_reg.csv" = false)
    by (vm_compute; reflexivity).
  assert (Hok : fst run = Ok tt) by (vm_compute; reflexivity).
  split; [exact Hmissing|]. split; [exact Hok|].
  split; [vm_compute; reflexivity|].
  unfold scoring_gated. intros H. specialize (H Hmissing).
  fold run in H. destruct run as [r w']. cbn [fst] in Hok. subst r.
  destruct H as [H _]. discriminate.
Qed.

(** C3, amended.  The scoring step makes no check of its own: whenever it
    is entered, its command is handed to the shell right away.  The one
    place where the run depends on the regulon table before that is the
    read that ends step 3: if right after the context-inference command
    the path of the table names no regular file, step 3 raises (the
    [CalledProcessError] of a non-zero exit status, otherwise the error of
    opening the path: [IsADirectoryError] for a directory,
    [NotADirectoryError] when a regular file stands in the way of the
    path, [FileNotFoundError] when a name is missing) and the run ends
    there, with the scoring step not entered and its command not started.
    Nothing looks at the table again: once steps 3 and 4 have returned,
    the scoring command is started, in whatever state the file system is
    by then. *)
Theorem scoring_unchecked_ctx_read_gates {Row Auc : Type}
    (env : Collaborators Row Auc) (self : WorkflowManager) (paths : PathSet)
    (adata : AnnData Row) (ctx_cfg aucell_cfg : Config) (w : World) :
  let run := steps_from_ctx env self paths adata ctx_cfg aucell_cfg w in
  (exists rest,
     trace (snd (in_stage StAUCell (step_aucell env aucell_cfg) w))
     = trace w ++ Enter StAUCell :: Subprocess (command aucell_cfg) :: rest) /\
  (let after_ctx := snd (shell env (command ctx_cfg) (fs w)) in
   FS.isfile after_ctx (output_path ctx_cfg) = false ->
   let status := fst (shell env (command ctx_cfg) (fs w)) in
   let regulons := output_path ctx_cfg in
   let e := if Z.eqb status 0 then
              if FS.isdir after_ctx regulons then IsADirectoryError regulons
              else if negb (String.eqb regulons "")
                      && FS.hits_file after_ctx [] (FS.components regulons)
                   then NotADirectoryError regulons
              else FileNotFoundError regulons
            else CalledProcessError status (command ctx_cfg) in
   fst run = Raise e /\
   trace (snd run)
   = trace w ++ [Enter StCtx; Subprocess (command ctx_cfg); Abort StCtx e]) /\
  (forall w1 w2,
     in_stage StCtx (step_ctx env ctx_cfg) w = (Ok tt, w1) ->
     in_stage StGeneDistribution
       (plot_gene_distribution env paths adata (cell_type self)) w1
     = (Ok tt, w2) ->
     exists rest,
       trace (snd run)
       = trace w ++ [Enter StCtx; Subprocess (command ctx_cfg);
                     Enter StGeneDistribution;
                     Enter StAUCell; Subprocess (command aucell_cfg)]
                 ++ rest).
Proof.
  intros run.
  assert (Hscore : forall w0, exists rest,
            trace (snd (in_stage StAUCell (step_aucell env aucell_cfg) w0))
            = trace w0 ++ Enter StAUCell
                :: Subprocess (command aucell_cfg) :: rest).
  { intros w0. unfold in_stage, step_aucell. rewrite bind_unfold.
    unfold subprocess_run at 1. cbn [fs trace].
    destruct (shell env (command aucell_cfg) (fs w0)) as [status f'].
    destruct (Z.eqb status 0).
    - unfold lp_connect_auc, read_file. cbn [fs trace].
      destruct (FS.isfile f' (output_path aucell_cfg));
        [destruct (loom_auc env _ _)|];
        cbn [snd trace]; rewrite <- ?app_assoc; eexists; reflexivity.
    - cbn [snd trace]. rewrite <- !app_assoc. eexists. reflexivity. }
  split; [apply Hscore|]. split.
  - intros after_ctx Hmissing status regulons e.
    assert (E : run = (Raise e,
                       {| fs := after_ctx;
                          trace := trace w ++ [Enter StCtx;
                                               Subprocess (command ctx_cfg);
                                               Abort StCtx e] |})).
    { subst run e regulons status after_ctx. unfold steps_from_ctx.
      rewrite bind_unfold.
      unfold in_stage at 1, step_ctx. rewrite bind_unfold.
      unfold subprocess_run at 1. cbn [fs trace].
      destruct (shell env (command ctx_cfg) (fs w)) as [status f'].
      cbn [fst snd] in *.
      destruct (Z.eqb status 0).
      - unfold pd_read_csv, read_file. cbn [fs trace]. rewrite Hmissing.
        unfold FS.open_error. cbn [fs trace]. rewrite <- !app_assoc.
        reflexivity.
      - cbn [fs trace]. rewrite <- !app_assoc. reflexivity. }
    rewrite E. split; reflexivity.
  - intros w1 w2 H3 H4. subst run. unfold steps_from_ctx.
    rewrite bind_unfold, H3, bind_unfold, H4, bind_unfold.
    assert (T1 : trace w1
                 = trace w ++ [Enter StCtx; Subprocess (command ctx_cfg)]).
    { apply in_stage_ok in H3. unfold step_ctx in H3.
      destruct (command_then_read_ok env _ _ _ _ _ (silent_read_file _ _) H3)
        as [_ T]. cbn [trace] in T. rewrite T, <- app_assoc. reflexivity. }
    assert (T2 : trace w2 = trace w1 ++ [Enter StGeneDistribution]).
    { apply (in_stage_silent_ok _ _ _ _ _
               (silent_plot_gene_distribution env _ _ _) H4). }
    destruct (Hscore w2) as (rest & T3).
    destruct (in_stage StAUCell (step_aucell env aucell_cfg) w2)
      as [[auc|e] w3]; cbn [snd] in *.
    + rewrite bind_unfold.
      pose proof (in_stage_silent_cases StDimReduction
                    (aucell_dimensionality_reduction env paths auc adata
                       (cell_type self)) w3
                    (silent_dimensionality_reduction env _ _ _ _)) as H6.
      destruct H6 as [([] & w4 & -> & _ & T4)|(e & w4 & -> & _ & T4)].
      * pose proof (in_stage_silent_cases StVisualise
                      (step_visualise env self paths) w4
                      (silent_step_visualise env _ _)) as H7.
        destruct H7 as [([] & w5 & -> & _ & T5)|(e & w5 & -> & _ & T5)];
          cbn [snd]; rewrite T5, T4, T3, T2, T1, <- !app_assoc;
          eexists; reflexivity.
      * cbn [snd]. rewrite T4, T3, T2, T1, <- !app_assoc.
        eexists. reflexivity.
    + rewrite T3, T2, T1, <- !app_assoc. eexists. reflexivity.
Qed.

Lemma scoring_unchecked_ctx_read_gates_witness :
  let env := Sample.env_with Sample.idle_shell in
  let w := Sample.no_regulons_world in
  let run := steps_from_ctx env Sample.tumor_unpruned [] Sample.adata
               Sample.ctx_cfg Sample.aucell_cfg w in
  let regulons := "/b/d/s/Tumor_reg.csv" in
  let env' := Sample.env_removing regulons in
  let paths := path_table "/b" "d" "s" (Some "Tumor") None [] in
  let run' := steps_from_ctx env' Sample.tumor_unpruned paths Sample.adata
                Sample.ctx_cfg Sample.aucell_cfg w in
  (FS.isfile (snd (shell env (command Sample.ctx_cfg) (fs w)))
     (output_path Sample.ctx_cfg) = false /\
   fst run = Raise (FileNotFoundError regulons) /\
   trace (snd run)
   = [Enter StCtx; Subprocess (command Sample.ctx_cfg);
      Abort StCtx (FileNotFoundError regulons)]) /\
  (exists w1 w2,
     in_stage StCtx (step_ctx env' Sample.ctx_cfg) w = (Ok tt, w1) /\
     in_stage StGeneDistribution
       (plot_gene_distribution env' paths Sample.adata (Some "Tumor")) w1
     = (Ok tt, w2) /\
     FS.isfile (fs w1) regulons = true /\
     FS.isfile (fs w2) regulons = false /\
     exists rest,
       trace (snd run')
       = [Enter StCtx; Subprocess (command Sample.ctx_cfg);
          Enter StGeneDistribution;
          Enter StAUCell; Subprocess (command Sample.aucell_cfg)] ++ rest).
Proof.
  intros env w run regulons env' paths run'.
  assert (Hmissing :
    FS.isfile (snd (shell env (command Sample.ctx_cfg) (fs w)))
      (output_path Sample.ctx_cfg) = false) by (vm_compute; reflexivity).
  split.
  - split; [exact Hmissing|].
    exact (proj1 (proj2 (scoring_unchecked_ctx_read_gates env
                           Sample.tumor_unpruned [] Sample.adata
                           Sample.ctx_cfg Sample.aucell_cfg w)) Hmissing).
  - set (r1 := in_stage StCtx (step_ctx env' Sample.ctx_cfg) w).
    set (r2 := in_stage StGeneDistribution
                 (plot_gene_distribution env' paths Sample.adata (Some "Tumor"))
                 (snd r1)).
    assert (H1 : r1 = (Ok tt, snd r1)) by (vm_compute; reflexivity).
    assert (H2 : r2 = (Ok tt, snd r2)) by (vm_compute; reflexivity).
    exists (snd r1), (snd r2).
    split; [exact H1|]. split; [exact H2|].
    split; [vm_compute; reflexivity|]. split; [vm_compute; reflexivity|].
    exact (proj2 (proj2 (scoring_unchecked_ctx_read_gates env'
                           Sample.tumor_unpruned paths Sample.adata
                           Sample.ctx_cfg Sample.aucell_cfg w))
             (snd r1) (snd r2) H1 H2).
Defined.

(** * Determinism of the resolver *)

Section Determinism.

(** Two dictionaries that differ in the value of one key agree on every
    other key. *)
Lemma dict_get_other {V} (l1 l2 : list (string * V)) (k0 k : string)
    (v v' : V) :
  k <> k0 ->
  Dict.get (l1 ++ (k0, v) :: l2) k = Dict.get (l1 ++ (k0, v') :: l2) k.
Proof.
  intros Hk. induction l1 as [|[k1 v1] l1 IH]; cbn [app Dict.get].
  - destruct (String.eqb_spec k0 k) as [->|_]; [contradiction | reflexivity].
  - rewrite IH. reflexivity.
Qed.

Lemma path_table_other (b d s : string) (ct : option string)
    (pr : option bool) (g1 g2 : list string) (k : string) :
  k <> "ranking_dbs" ->
  Dict.get (path_table b d s ct pr g1) k
  = Dict.get (path_table b d s ct pr g2) k.
Proof.
  intros Hk. unfold path_table.
  exact (dict_get_other
           [("base", b); ("databases", OsPath.join b ["databases"]);
            ("raw_data", OsPath.join b [d; "raw_data"]);
            ("output", output_dir b d s pr);
            ("figures", OsPath.join b [d; s; "figures"]);
            ("human_tfs",
             OsPath.join (OsPath.join b ["databases"]) ["allTFs_hg38.txt"])]
           _ "ranking_dbs" k _ _ Hk).
Qed.

End Determinism.

(** C6, as stated, fails.  The same context resolved in an empty file
    system and in one where [/b/databases] holds a [.feather] file gives
    two different dictionaries: the [ranking_dbs] entry is the list the
    glob finds on disk. *)
Lemma resolver_reads_directory_listing :
  let r1 := get_analysis_paths "/b" "d" "s" None None Sample.empty_world in
  let r2 := get_analysis_paths "/b" "d" "s" None None Sample.feather_world in
  fst r1 = Ok (path_table "/b" "d" "s" None None []) /\
  fst r2 = Ok (path_table "/b" "d" "s" None None ["/b/databases/hg38.feather"]) /\
  Dict.get (path_table "/b" "d" "s" None None []) "ranking_dbs" = Some "" /\
  Dict.get (path_table "/b" "d" "s" None None ["/b/databases/hg38.feather"])
    "ranking_dbs" = Some "/b/databases/hg38.feather" /\
  ~ resolver_ignores_files "/b" "d" "s" None None
      Sample.empty_world Sample.feather_world.
Proof.
  intros r1 r2.
  assert (H1 : fst r1 = Ok (path_table "/b" "d" "s" None None []))
    by (vm_compute; reflexivity).
  assert (H2 : fst r2 = Ok (path_table "/b" "d" "s" None None
                              ["/b/databases/hg38.feather"]))
    by (vm_compute; reflexivity).
  split; [exact H1|]. split; [exact H2|].
  split; [reflexivity|]. split; [reflexivity|].
  unfold resolver_ignores_files. fold r1 r2. rewrite H1, H2. intros E.
  apply (f_equal (fun r => match r with
                           | Ok p => Dict.get p "ranking_dbs"
                           | Raise _ => None
                           end)) in E.
  vm_compute in E. discriminate.
Qed.

(** C6, amended.  Two successful resolutions of the same context, in
    whatever two file systems, return dictionaries with the same keys in
    the same order and the same value for every key other than
    [ranking_dbs]; [ranking_dbs] is the space-joined list that the glob
    [<databases>/*.feather] finds at the time of the call, and the two
    dictionaries are identical when these lists are.  In particular a
    resolution repeated right after a successful one succeeds and returns
    the identical dictionary. *)
Theorem resolver_deterministic_up_to_glob
    (base_folder dataset_id sample_id : string) (cell_type : option string)
    (pruning : option bool) (w1 w2 w1' w2' : World) (p1 p2 : PathSet) :
  get_analysis_paths base_folder dataset_id sample_id cell_type pruning w1
    = (Ok p1, w1') ->
  get_analysis_paths base_folder dataset_id sample_id cell_type pruning w2
    = (Ok p2, w2') ->
  let pattern := OsPath.join (OsPath.join base_folder ["databases"])
                   ["*.feather"] in
  Dict.keys p1 = Dict.keys p2 /\
  (forall k, k <> "ranking_dbs" -> Dict.get p1 k = Dict.get p2 k) /\
  Dict.get p1 "ranking_dbs" = Some (PyStr.join " " (FS.glob (fs w1') pattern)) /\
  (FS.glob (fs w1') pattern = FS.glob (fs w2') pattern -> p1 = p2) /\
  get_analysis_paths base_folder dataset_id sample_id cell_type pruning w1'
    = (Ok p1, w1').
Proof.
  intros H1 H2 pattern.
  pose proof (get_analysis_paths_rerun _ _ _ _ _ _ _ _ H1) as Hre.
  apply get_analysis_paths_ok_inv in H1 as (_ & _ & E1).
  apply get_analysis_paths_ok_inv in H2 as (_ & _ & E2).
  fold pattern in E1, E2. change (feather_pattern base_folder) with pattern in *.
  split; [subst; reflexivity|].
  split; [intros k Hk; subst; apply path_table_other, Hk|].
  split; [subst; reflexivity|].
  split; [intros Hg; subst; rewrite Hg; reflexivity | exact Hre].
Qed.

Lemma resolver_deterministic_up_to_glob_witness :
  let r1 := get_analysis_paths "/b" "d" "s" None None Sample.empty_world in
  let r2 := get_analysis_paths "/b" "d" "s" None None Sample.feather_world in
  let r3 := get_analysis_paths "/b" "d" "s" None None Sample.clustered_world in
  let p1 := path_table "/b" "d" "s" None None [] in
  let p2 := path_table "/b" "d" "s" None None ["/b/databases/hg38.feather"] in
  (r1 = (Ok p1, snd r1) /\ r2 = (Ok p2, snd r2) /\ r3 = (Ok p1, snd r3)) /\
  FS.glob (fs (snd r1)) "/b/databases/*.feather"
    = FS.glob (fs (snd r3)) "/b/databases/*.feather" /\
  Dict.keys p1 = Dict.keys p2 /\
  Dict.get p1 "adjacencies" = Dict.get p2 "adjacencies" /\
  get_analysis_paths "/b" "d" "s" None None (snd r1) = (Ok p1, snd r1).
Proof.
  intros r1 r2 r3 p1 p2.
  assert (H1 : r1 = (Ok p1, snd r1)) by (vm_compute; reflexivity).
  assert (H2 : r2 = (Ok p2, snd r2)) by (vm_compute; reflexivity).
  assert (H3 : r3 = (Ok p1, snd r3)) by (vm_compute; reflexivity).
  assert (Hg : FS.glob (fs (snd r1)) "/b/databases/*.feather"
               = FS.glob (fs (snd r3)) "/b/databases/*.feather")
    by (vm_compute; reflexivity).
  split; [split; [exact H1 | split; [exact H2 | exact H3]]|].
  split; [exact Hg|].
  destruct (resolver_deterministic_up_to_glob "/b" "d" "s" None None
              _ _ _ _ _ _ H1 H2) as (Hk & Hv & _ & _ & Hre).
  destruct (resolver_deterministic_up_to_glob "/b" "d" "s" None None
              _ _ _ _ _ _ H1 H3) as (_ & _ & _ & Hsame & _).
  pose proof (Hsame Hg) as _.
  split; [exact Hk|]. split; [apply Hv; discriminate | exact Hre].
Defined.

(** * Cell-type tags: the command line against the resolver *)

Section CellTypeTags.

(** The resolver accepts a non-empty cell type only when it is spelled
    exactly [Tumor] or [Non-Tumor]. *)
Lemma invalid_cell_type_spec (ct : string) :
  invalid_cell_type (Some ct) = false <->
  ct = "" \/ ct = "Tumor" \/ ct = "Non-Tumor".
Proof.
  unfold invalid_cell_type, PyStr.truthy, in_list. cbn [existsb].
  destruct (String.eqb_spec ct "") as [->|H0]; [cbn; tauto|].
  destruct (String.eqb_spec ct "Tumor") as [->|H1]; [cbn; tauto|].
  destruct (String.eqb_spec ct "Non-Tumor") as [->|H2]; [cbn; tauto|].
  cbn. split; [discriminate | tauto].
Qed.

(** What the command line lets through as a cell type is one of the two
    lower-case spellings. *)
Lemma parse_cell_type_some (s ct : string) :
  parse_cell_type (Some s) = Ok (Some ct) ->
  ct = "tumor" \/ ct = "non-tumor".
Proof.
  unfold parse_cell_type, in_list. cbn [existsb].
  destruct (String.eqb (PyStr.lower s) "none"); [discriminate|].
  destruct (String.eqb_spec (PyStr.lower s) "tumor") as [E|_].
  - cbn. intros [= <-]. auto.
  - destruct (String.eqb_spec (PyStr.lower s) "non-tumor") as [E|_];
      cbn; [intros [= <-]; auto | discriminate].
Qed.

(** Every cell type that [parse_arguments] accepts is rejected by the
    resolver. *)
Lemma cli_cell_type_never_resolves (s ct b d sm : string)
    (pr : option bool) (w : World) :
  parse_cell_type (Some s) = Ok (Some ct) ->
  get_analysis_paths b d sm (Some ct) pr w
  = (Raise (ValueError "cell_type must be 'Tumor', 'Non-Tumor', or None"), w).
Proof.
  intros H. apply parse_cell_type_some in H as [->| ->];
    rewrite get_analysis_paths_eq; reflexivity.
Qed.

End CellTypeTags.

(** C2, evaluated on the code.  The command line [--cell_type Tumor] is
    accepted by [parse_arguments], which passes the lower-cased value
    [tumor] on; the resolver compares with the exact spellings and raises
    [ValueError], so [main] stops in its first path resolution.  The
    resolver accepts [Tumor] and rejects [tumor] and [NON-TUMOR]. *)
Theorem cli_cell_type_rejected_by_resolver :
  let rejected :=
    ValueError "cell_type must be 'Tumor', 'Non-Tumor', or None" in
  parse_arguments Sample.cli_tumor
    = Ok {| base_folder := "/b"; dataset_id := "d"; sample_id := "s";
            cell_type := Some "tumor"; pruning := None |} /\
  main Sample.env Sample.cli_tumor Sample.empty_world
    = (Raise rejected, Sample.empty_world) /\
  fst (get_analysis_paths "/b" "d" "s" (Some "tumor") None Sample.empty_world)
    = Raise rejected /\
  fst (get_analysis_paths "/b" "d" "s" (Some "NON-TUMOR") None
         Sample.empty_world) = Raise rejected /\
  fst (get_analysis_paths "/b" "d" "s" (Some "Tumor") None Sample.empty_world)
    = Ok (path_table "/b" "d" "s" (Some "Tumor") None []).
Proof.
  intros rejected.
  split; [reflexivity|]. split; [reflexivity|]. split; [reflexivity|].
  split; [reflexivity|]. vm_compute. reflexivity.
Qed.

(** * The output directory of a pruned run *)

(** C7, evaluated on the code.  Resolving with pruning set to [True] in an
    empty file system returns [/b/d/s/pruned] as the output directory; the
    five directories of the first dictionary exist afterwards, the output
    directory that the artifacts are to be written into does not. *)
Theorem pruned_output_directory_not_created :
  let run := get_analysis_paths "/b" "d" "s" None (Some true)
               Sample.empty_world in
  fst run = Ok (path_table "/b" "d" "s" None (Some true) []) /\
  Dict.get (path_table "/b" "d" "s" None (Some true) []) "output"
    = Some "/b/d/s/pruned" /\
  Dict.get (path_table "/b" "d" "s" None (Some true) []) "anndata"
    = Some "/b/d/s/pruned/anndata.h5ad" /\
  FS.isdir (fs (snd run)) "/b/d/s/pruned" = false /\
  map (FS.isdir (fs (snd run)))
    ["/b"; "/b/databases"; "/b/d/raw_data"; "/b/d/s"; "/b/d/s/figures"]
    = [true; true; true; true; true].
Proof.
  intros run.
  split; [vm_compute; reflexivity|]. split; [reflexivity|].
  split; [reflexivity|]. split; vm_compute; reflexivity.
Qed.

(** * The paths of a pruned GRN run *)

(** C1, evaluated on the code.  For the context [Tumor] / pruning [False]
    the loader resolves its artifacts under [/b/d/s/unpruned/], but the
    workflow resolves the paths again without the pruning option before the
    GRN steps: the three commands it executes read and write
    [/b/d/s/Tumor_...], none of these paths lies under [/b/d/s/unpruned/],
    and the regulon table is written to [/b/d/s/Tumor_reg.csv].  The
    file names do carry the [Tumor_] prefix, and the context-inference
    command contains the [Tumor_adjacencies.csv] input and the flag. *)
Theorem grn_workflow_drops_pruning_directory :
  let run := run_pyscenic_workflow Sample.env Sample.tumor_unpruned
               Sample.clustered_world in
  let ctx_command :=
    "pyscenic ctx /b/d/s/Tumor_adjacencies.csv  --annotations_fname /b/databases/motifs-v10nr_clust-nr.hgnc-m0.001-o0.0.tbl --expression_mtx_fname /b/d/s/Tumor_filtered_scenic.loom --output /b/d/s/Tumor_reg.csv --mask_dropouts --num_workers 20 --no_pruning" in
  fst run = Ok tt /\
  executed_commands (trace (snd run))
    = ["pyscenic grn /b/d/s/Tumor_filtered_scenic.loom /b/databases/allTFs_hg38.txt -o /b/d/s/Tumor_adjacencies.csv --num_workers 20";
       ctx_command;
       "pyscenic aucell /b/d/s/Tumor_filtered_scenic.loom /b/d/s/Tumor_reg.csv --output /b/d/s/Tumor_pyscenic_output.loom --num_workers 20"] /\
  map (fun p => PyStr.startswith p "/b/d/s/unpruned/")
    ["/b/d/s/Tumor_filtered_scenic.loom"; "/b/d/s/Tumor_adjacencies.csv";
     "/b/d/s/Tumor_reg.csv"; "/b/d/s/Tumor_pyscenic_output.loom"]
    = [false; false; false; false] /\
  FS.isfile (fs (snd run)) "/b/d/s/Tumor_reg.csv" = true /\
  FS.isfile (fs (snd run)) "/b/d/s/unpruned/Tumor_reg.csv" = false /\
  fst (DataLoader Sample.tumor_unpruned Sample.clustered_world)
    = Ok (path_table "/b" "d" "s" (Some "Tumor") (Some false) []) /\
  Dict.get (path_table "/b" "d" "s" (Some "Tumor") (Some false) [])
    "adjacencies" = Some "/b/d/s/unpruned/Tumor_adjacencies.csv" /\
  PyStr.contains ctx_command "Tumor_adjacencies.csv" = true /\
  PyStr.contains ctx_command "--no_pruning" = true.
Proof.
  intros run ctx_command.
  split; [vm_compute; reflexivity|]. split; [vm_compute; reflexivity|].
  split; [reflexivity|]. split; [vm_compute; reflexivity|].
  split; [vm_compute; reflexivity|]. split; [vm_compute; reflexivity|].
  split; [reflexivity|]. split; vm_compute; reflexivity.
Qed.

(** * File systems in which every entry lies in a directory *)

Section WellFormedFS.
Implicit Types (f : FS.t) (cur comps loc : list string).

Lemma is_dir_at_mono f f' loc :
  f ⊆ f' -> FS.is_dir_at f loc = true -> FS.is_dir_at f' loc = true.
Proof.
  intros Hsub. unfold FS.is_dir_at. destruct loc as [|x l]; [auto|].
  destruct (f !! (x :: l)) as [[]|] eqn:E; try discriminate.
  rewrite (lookup_weaken _ _ _ _ E Hsub). auto.
Qed.

Lemma is_file_at_mono f f' loc :
  f ⊆ f' -> FS.is_file_at f loc = true -> FS.is_file_at f' loc = true.
Proof.
  intros Hsub. unfold FS.is_file_at.
  destruct (f !! loc) as [[]|] eqn:E; try discriminate.
  rewrite (lookup_weaken _ _ _ _ E Hsub). auto.
Qed.

Lemma walk_mono f f' cur comps loc :
  f ⊆ f' -> FS.walk f cur comps = Some loc -> FS.walk f' cur comps = Some loc.
Proof.
  intros Hsub. revert cur. induction comps as [|c rest IH]; intros cur;
    cbn [FS.walk]; [auto|].
  destruct (FS.is_dir_at f cur) eqn:E; [|discriminate].
  rewrite (is_dir_at_mono _ _ _ Hsub E).
  destruct (FS.is_dot c); [apply IH|].
  destruct (String.eqb c ".."); apply IH.
Qed.

Lemma isdir_mono f f' (s : string) :
  f ⊆ f' -> FS.isdir f s = true -> FS.isdir f' s = true.
Proof.
  intros Hsub. unfold FS.isdir, FS.locate.
  destruct (String.eqb s ""); [discriminate|].
  destruct (FS.walk f [] (FS.components s)) as [loc|] eqn:E; [|discriminate].
  rewrite (walk_mono _ _ _ _ _ Hsub E). apply is_dir_at_mono, Hsub.
Qed.

Lemma isfile_mono f f' (s : string) :
  f ⊆ f' -> FS.isfile f s = true -> FS.isfile f' s = true.
Proof.
  intros Hsub. unfold FS.isfile, FS.locate.
  destruct (String.eqb s ""); [discriminate|].
  destruct (FS.walk f [] (FS.components s)) as [loc|] eqn:E; [|discriminate].
  rewrite (walk_mono _ _ _ _ _ Hsub E). apply is_file_at_mono, Hsub.
Qed.

Lemma parent_snoc cur (c : string) : FS.parent (cur ++ [c]) = cur.
Proof. apply removelast_last. Qed.

Lemma is_dir_at_snoc f cur (c : string) :
  FS.is_dir_at f (cur ++ [c])
  = match f !! (cur ++ [c]) with Some FS.Dir => true | _ => false end.
Proof. destruct cur; reflexivity. Qed.

Lemma well_formed_parent f cur :
  fs_well_formed f -> FS.is_dir_at f cur = true ->
  FS.is_dir_at f (FS.parent cur) = true.
Proof.
  intros Hwf H. destruct cur as [|x l]; [reflexivity|].
  unfold FS.is_dir_at in H.
  destruct (f !! (x :: l)) as [n|] eqn:E; [|discriminate].
  apply (Hwf _ _ E).
Qed.

Lemma well_formed_mkdir f cur (c : string) :
  fs_well_formed f -> FS.is_dir_at f cur = true ->
  f !! (cur ++ [c]) = None ->
  fs_well_formed (<[cur ++ [c] := FS.Dir]> f).
Proof.
  intros Hwf Hcur Hnone loc n Hloc.
  assert (Hsub : f ⊆ <[cur ++ [c] := FS.Dir]> f) by (apply insert_subseteq, Hnone).
  destruct (decide (cur ++ [c] = loc)) as [<-|Hne].
  - rewrite parent_snoc. apply (is_dir_at_mono _ _ _ Hsub Hcur).
  - rewrite lookup_insert_ne in Hloc by exact Hne.
    apply (is_dir_at_mono _ _ _ Hsub), (Hwf _ _ Hloc).
Qed.

(** The directories that [mkdir_p] walks through exist afterwards. *)
Lemma mkdir_p_walk name f cur comps f' :
  fs_well_formed f -> FS.is_dir_at f cur = true ->
  FS.mkdir_p name f cur comps = Ok f' ->
  fs_well_formed f' /\
  exists loc, FS.walk f' cur comps = Some loc /\ FS.is_dir_at f' loc = true.
Proof.
  revert f cur. induction comps as [|c rest IH]; intros f cur Hwf Hcur H.
  - cbn [FS.mkdir_p] in H. injection H as <-. split; [exact Hwf|].
    exists cur. split; [reflexivity | exact Hcur].
  - pose proof (mkdir_p_grows _ _ _ _ _ H) as Hsub.
    cbn [FS.mkdir_p FS.walk] in *.
    rewrite (is_dir_at_mono _ _ _ Hsub Hcur).
    destruct (FS.is_dot c); [eauto|].
    destruct (String.eqb c "..");
      [apply (IH f (FS.parent cur)); auto using well_formed_parent|].
    destruct (f !! (cur ++ [c])) as [[]|] eqn:E; [| discriminate |].
    + apply (IH f (cur ++ [c])); auto. rewrite is_dir_at_snoc, E. reflexivity.
    + apply (IH (<[cur ++ [c] := FS.Dir]> f) (cur ++ [c])); auto.
      * apply well_formed_mkdir; assumption.
      * rewrite is_dir_at_snoc, lookup_insert_eq. reflexivity.
Qed.

Lemma makedirs_isdir name f f' :
  fs_well_formed f -> FS.makedirs name f = Ok f' ->
  fs_well_formed f' /\ FS.isdir f' name = true.
Proof.
  intros Hwf. unfold FS.makedirs, FS.isdir, FS.locate.
  destruct (String.eqb name ""); [discriminate|]. intros H.
  destruct (mkdir_p_walk name f [] _ f' Hwf eq_refl H)
    as (Hwf' & loc & -> & Hd).
  auto.
Qed.

(** What [mkdir_p] adds are directories. *)
Lemma mkdir_p_adds_dirs name f cur comps f' :
  FS.mkdir_p name f cur comps = Ok f' ->
  forall loc n, f' !! loc = Some n -> f !! loc = Some n \/ n = FS.Dir.
Proof.
  revert f cur. induction comps as [|c rest IH]; intros f cur H loc n Hloc;
    cbn [FS.mkdir_p] in H.
  - injection H as <-. auto.
  - destruct (FS.is_dot c); [eauto|].
    destruct (String.eqb c ".."); [eauto|].
    destruct (f !! (cur ++ [c])) as [[]|] eqn:E; [eauto | discriminate |].
    destruct (IH _ _ H loc n Hloc) as [H1|H1]; [|auto].
    destruct (decide (cur ++ [c] = loc)) as [<-|Hne].
    + rewrite lookup_insert_eq in H1. injection H1 as <-. auto.
    + rewrite lookup_insert_ne in H1 by exact Hne. auto.
Qed.

Lemma makedirs_adds_dirs name f f' :
  FS.makedirs name f = Ok f' ->
  forall loc n, f' !! loc = Some n -> f !! loc = Some n \/ n = FS.Dir.
Proof.
  unfold FS.makedirs. destruct (String.eqb name ""); [discriminate|].
  apply mkdir_p_adds_dirs.
Qed.

(** The directory loop on a well-formed file system. *)
Lemma for_each_makedirs_isdir (l : list string) (w w' : World) :
  fs_well_formed (fs w) ->
  for_each os_makedirs l w = (Ok tt, w') ->
  fs_well_formed (fs w') /\
  Forall (fun d => FS.isdir (fs w') d = true) l /\
  (forall loc n, fs w' !! loc = Some n ->
     fs w !! loc = Some n \/ n = FS.Dir).
Proof.
  revert w. induction l as [|x l IH]; intros w Hwf H; cbn [for_each] in H.
  - injection H as <-. auto.
  - unfold bind in H. unfold os_makedirs at 1 in H.
    destruct (FS.makedirs x (fs w)) as [f1|e] eqn:E; [|discriminate].
    destruct (makedirs_isdir _ _ _ Hwf E) as [Hwf1 Hd1].
    pose proof (for_each_makedirs_ok _ _ _ H) as (_ & Hsub & _).
    destruct (IH {| fs := f1; trace := trace w |} Hwf1 H)
      as (Hwf' & Hall & Hnew). cbn [fs] in *.
    split; [exact Hwf'|]. split.
    + constructor; [apply (isdir_mono _ _ _ Hsub Hd1) | exact Hall].
    + intros loc n Hloc. destruct (Hnew loc n Hloc) as [H1|H1]; [|auto].
      apply (makedirs_adds_dirs _ _ _ E loc n H1).
Qed.

End WellFormedFS.

(** * What the resolver does to the world *)

Section ResolverEffects.

Lemma mkdir_p_raises name f cur comps e :
  FS.mkdir_p name f cur comps = Raise e -> is_file_error e = true.
Proof.
  revert f cur. induction comps as [|c rest IH]; intros f cur H;
    cbn [FS.mkdir_p] in H; [discriminate|].
  destruct (FS.is_dot c); [eauto|].
  destruct (String.eqb c ".."); [eauto|].
  destruct (f !! (cur ++ [c])) as [[]|]; [eauto | | eauto].
  injection H as <-. destruct (forallb _ rest); reflexivity.
Qed.

Lemma makedirs_raises name f e :
  FS.makedirs name f = Raise e -> is_file_error e = true.
Proof.
  unfold FS.makedirs. destruct (String.eqb name "").
  - intros [= <-]. reflexivity.
  - apply mkdir_p_raises.
Qed.

Lemma for_each_makedirs_raises (l : list string) (w w' : World) e :
  for_each os_makedirs l w = (Raise e, w') -> is_file_error e = true.
Proof.
  revert w. induction l as [|x l IH]; intros w H; cbn [for_each] in H;
    [discriminate|].
  unfold bind in H. unfold os_makedirs at 1 in H.
  destruct (FS.makedirs x (fs w)) as [f1|e1] eqn:E.
  - eauto.
  - injection H as <- _. apply (makedirs_raises _ _ _ E).
Qed.

Lemma for_each_makedirs_adds_dirs (l : list string) (w w' : World) :
  for_each os_makedirs l w = (Ok tt, w') ->
  forall loc n, fs w' !! loc = Some n -> fs w !! loc = Some n \/ n = FS.Dir.
Proof.
  revert w. induction l as [|x l IH]; intros w H loc n Hloc;
    cbn [for_each] in H.
  - injection H as <-. auto.
  - unfold bind in H. unfold os_makedirs at 1 in H.
    destruct (FS.makedirs x (fs w)) as [f1|e] eqn:E; [|discriminate].
    destruct (IH _ H loc n Hloc) as [H1|H1]; [|auto].
    apply (makedirs_adds_dirs _ _ _ E loc n H1).
Qed.

Lemma invalid_cell_type_true (ct : option string) :
  invalid_cell_type ct = true <->
  exists t, ct = Some t /\ t <> "" /\ t <> "Tumor" /\ t <> "Non-Tumor".
Proof.
  destruct ct as [t|]; cbn [invalid_cell_type].
  - pose proof (invalid_cell_type_spec t) as Hs.
    cbn [invalid_cell_type] in Hs. split.
    + intros H. exists t. split; [reflexivity|].
      repeat split; intros ->; discriminate H.
    + intros (t' & [= <-] & H0 & H1 & H2).
      destruct (PyStr.truthy (Some t) && negb (in_list t ["Tumor"; "Non-Tumor"]));
        [reflexivity|]. destruct Hs as [Hs _]. specialize (Hs eq_refl). tauto.
  - split; [discriminate|]. intros (t & H & _). discriminate.
Qed.

End ResolverEffects.

(** X1.  [get_analysis_paths] raises its [ValueError] exactly when the
    cell type is a non-empty string other than ["Tumor"] and ["Non-Tumor"]
    (the comparison is exact, letter case included; [None] and the empty
    string pass).  The check comes first: when it fails nothing has been
    created. *)
Theorem resolver_value_error_iff (base_folder dataset_id sample_id : string)
    (cell_type : option string) (pruning : option bool) (w : World) :
  let run := get_analysis_paths base_folder dataset_id sample_id cell_type
               pruning w in
  (fst run = Raise (ValueError "cell_type must be 'Tumor', 'Non-Tumor', or None")
   <-> exists t, cell_type = Some t /\ t <> "" /\ t <> "Tumor" /\ t <> "Non-Tumor")
  /\
  (fst run = Raise (ValueError "cell_type must be 'Tumor', 'Non-Tumor', or None")
   -> snd run = w).
Proof.
  intros run. subst run. rewrite get_analysis_paths_eq.
  rewrite <- invalid_cell_type_true.
  destruct (invalid_cell_type cell_type).
  - cbn [fst snd]. split; [tauto | reflexivity].
  - destruct (for_each os_makedirs _ w) as [[[]|e] w'] eqn:E; cbn [fst snd].
    + split; [split; discriminate | discriminate].
    + pose proof (for_each_makedirs_raises _ _ _ _ E) as He.
      split; [split; [|discriminate]|]; intros [= ->]; discriminate He.
Qed.

Lemma resolver_value_error_iff_witness :
  let run := get_analysis_paths "/b" "d" "s" (Some "Stroma") (Some true)
               Sample.feather_world in
  (exists t, Some "Stroma" = Some t /\ t <> "" /\ t <> "Tumor" /\ t <> "Non-Tumor")
  /\ fst run = Raise (ValueError "cell_type must be 'Tumor', 'Non-Tumor', or None")
  /\ snd run = Sample.feather_world.
Proof.
  intros run.
  assert (Hbad : exists t, Some "Stroma" = Some t /\ t <> "" /\ t <> "Tumor"
                            /\ t <> "Non-Tumor").
  { exists "Stroma". repeat split; discriminate. }
  split; [exact Hbad|].
  destruct (resolver_value_error_iff "/b" "d" "s" (Some "Stroma") (Some true)
              Sample.feather_world) as (Hiff & Hsame).
  pose proof (proj2 Hiff Hbad) as Hraise.
  split; [exact Hraise | exact (Hsame Hraise)].
Defined.

(** X2.  With an empty base folder and an accepted cell type the resolver
    fails on the first directory of its loop: ["base"] is the empty path,
    for which [os.makedirs] raises [FileNotFoundError], and nothing has
    been created. *)
Theorem empty_base_folder_not_found (dataset_id sample_id : string)
    (cell_type : option string) (pruning : option bool) (w : World) :
  invalid_cell_type cell_type = false ->
  get_analysis_paths "" dataset_id sample_id cell_type pruning w
  = (Raise (FileNotFoundError ""), w).
Proof.
  intros Hv. rewrite get_analysis_paths_eq, Hv. destruct w. reflexivity.
Qed.

Lemma empty_base_folder_not_found_witness :
  invalid_cell_type (Some "Tumor") = false /\
  get_analysis_paths "" "d" "s" (Some "Tumor") None Sample.feather_world
  = (Raise (FileNotFoundError ""), Sample.feather_world).
Proof.
  split; [reflexivity|].
  exact (empty_base_folder_not_found "d" "s" (Some "Tumor") None
           Sample.feather_world eq_refl).
Defined.

(** X3.  In a file system where every entry lies in a directory, a
    successful resolution leaves the entries ["base"], ["databases"],
    ["raw_data"] and ["figures"] of the returned dictionary, and the sample
    directory [base/dataset/sample], as existing directories, and the file
    system is still of that kind.  The sample directory is the ["output"]
    entry when no pruning is asked for. *)
Theorem resolved_directories_exist
    (base_folder dataset_id sample_id : string) (cell_type : option string)
    (pruning : option bool) (w w' : World) (p : PathSet) :
  fs_well_formed (fs w) ->
  get_analysis_paths base_folder dataset_id sample_id cell_type pruning w
    = (Ok p, w') ->
  fs_well_formed (fs w') /\
  Forall (fun k => exists dir, Dict.get p k = Some dir /\
                               FS.isdir (fs w') dir = true)
    ["base"; "databases"; "raw_data"; "figures"] /\
  FS.isdir (fs w') (OsPath.join base_folder [dataset_id; sample_id]) = true /\
  (pruning = None ->
   Dict.get p "output" = Some (OsPath.join base_folder [dataset_id; sample_id])).
Proof.
  intros Hwf H. apply get_analysis_paths_ok_inv in H as (_ & Hloop & ->).
  destruct (for_each_makedirs_isdir _ _ _ Hwf Hloop) as (Hwf' & Hall & _).
  cbn [base_paths Dict.values map snd] in Hall.
  inversion_clear Hall as [|? ? Hbase Hall1].
  inversion_clear Hall1 as [|? ? Hdb Hall2].
  inversion_clear Hall2 as [|? ? Hraw Hall3].
  inversion_clear Hall3 as [|? ? Hout Hall4].
  inversion_clear Hall4 as [|? ? Hfig _].
  split; [exact Hwf'|]. split.
  - repeat constructor; eexists; (split; [reflexivity|]); assumption.
  - split; [exact Hout|]. intros ->. reflexivity.
Qed.

Lemma fs_well_formed_empty : fs_well_formed ∅.
Proof. intros loc n H. rewrite lookup_empty in H. discriminate. Qed.

Lemma resolved_directories_exist_witness :
  let run := get_analysis_paths "/b" "d" "s" (Some "Tumor") (Some false)
               Sample.empty_world in
  fs_well_formed (fs Sample.empty_world) /\
  fst run = Ok (path_table "/b" "d" "s" (Some "Tumor") (Some false) []) /\
  FS.isdir (fs (snd run)) "/b/d/s" = true /\
  fs_well_formed (fs (snd run)).
Proof.
  intros run.
  assert (Hwf : fs_well_formed (fs Sample.empty_world))
    by exact fs_well_formed_empty.
  assert (H : run = (Ok (path_table "/b" "d" "s" (Some "Tumor") (Some false) []),
                     snd run)) by (vm_compute; reflexivity).
  split; [exact Hwf|]. split; [rewrite H; reflexivity|].
  destruct (resolved_directories_exist "/b" "d" "s" (Some "Tumor") (Some false)
              _ _ _ Hwf H) as (Hwf' & _ & Hout & _).
  split; [exact Hout | exact Hwf'].
Defined.

(** X4.  A successful resolution only adds directories: it records no
    event, every entry of the file system is still there with the same
    contents, every new entry is a directory, and each path that named a
    regular file or a directory before still does. *)
Theorem resolver_only_adds_directories
    (base_folder dataset_id sample_id : string) (cell_type : option string)
    (pruning : option bool) (w w' : World) (p : PathSet) :
  get_analysis_paths base_folder dataset_id sample_id cell_type pruning w
    = (Ok p, w') ->
  trace w' = trace w /\
  fs w ⊆ fs w' /\
  (forall loc n, fs w' !! loc = Some n ->
     fs w !! loc = Some n \/ n = FS.Dir) /\
  (forall path, FS.isfile (fs w) path = true -> FS.isfile (fs w') path = true) /\
  (forall path, FS.isdir (fs w) path = true -> FS.isdir (fs w') path = true).
Proof.
  intros H. apply get_analysis_paths_ok_inv in H as (_ & Hloop & _).
  pose proof (for_each_makedirs_ok _ _ _ Hloop) as (Ht & Hsub & _).
  split; [exact Ht|]. split; [exact Hsub|]. split.
  - apply (for_each_makedirs_adds_dirs _ _ _ Hloop).
  - split; intros path; [apply isfile_mono | apply isdir_mono]; exact Hsub.
Qed.

Lemma resolver_only_adds_directories_witness :
  let run := get_analysis_paths "/b" "d" "s" (Some "Tumor") (Some false)
               Sample.clustered_world in
  let anndata := "/b/d/s/unpruned/Tumor_anndata.h5ad" in
  (run = (Ok (path_table "/b" "d" "s" (Some "Tumor") (Some false) []), snd run)
   /\ FS.isfile (fs Sample.clustered_world) anndata = true) /\
  FS.isfile (fs (snd run)) anndata = true /\
  trace (snd run) = [].
Proof.
  intros run anndata.
  assert (H : run = (Ok (path_table "/b" "d" "s" (Some "Tumor") (Some false) []),
                     snd run)) by (vm_compute; reflexivity).
  assert (Hf : FS.isfile (fs Sample.clustered_world) anndata = true)
    by (vm_compute; reflexivity).
  split; [split; assumption|].
  destruct (resolver_only_adds_directories "/b" "d" "s" (Some "Tumor")
              (Some false) _ _ _ H) as (Ht & _ & _ & Hfile & _).
  split; [exact (Hfile anndata Hf) | exact Ht].
Defined.

(** * The spelling of the artifact paths *)

Section ArtifactPaths.

Lemma join2_sep (dir name : string) :
  PyStr.startswith name "/" = false ->
  OsPath.join2 dir name = dir +:+ join_sep dir +:+ name.
Proof.
  intros Hn. unfold OsPath.join2, join_sep. rewrite Hn.
  destruct (String.eqb dir "" || PyStr.endswith dir "/"); reflexivity.
Qed.

Lemma join_sep_cases (dir : string) : join_sep dir = "" \/ join_sep dir = "/".
Proof.
  unfold join_sep.
  destruct (String.eqb dir "" || PyStr.endswith dir "/"); auto.
Qed.

(** A name that is not empty and does not end with a separator is
    followed by one. *)
Lemma join_sep_after (pre name : string) :
  name <> "" -> PyStr.endswith name "/" = false ->
  join_sep (pre +:+ name) = "/".
Proof.
  intros Hn He. unfold join_sep. rewrite endswith_sep_app, He by exact Hn.
  destruct (String.eqb_spec (pre +:+ name) "") as [E|_]; [|reflexivity].
  apply append_eq_nil in E as [_ E]. contradiction.
Qed.

Lemma valid_prefix_relative (ct : option string) (name : string) :
  invalid_cell_type ct = false ->
  In name (map snd artifact_names) ->
  PyStr.startswith (cell_type_prefix ct +:+ name) "/" = false.
Proof.
  intros Hv Hin.
  assert (Hp : cell_type_prefix ct = "" \/ cell_type_prefix ct = "Tumor_"
               \/ cell_type_prefix ct = "Non-Tumor_").
  { destruct ct as [t|]; [|auto].
    apply invalid_cell_type_spec in Hv as [->|[->| ->]]; auto. }
  cbn in Hin.
  destruct Hp as [->|[->| ->]];
    repeat (destruct Hin as [<-|Hin]; [reflexivity|]); contradiction.
Qed.

Lemma pruning_segment_relative (p : bool) :
  PyStr.startswith (if p then "pruned" else "unpruned") "/" = false.
Proof. destruct p; reflexivity. Qed.

(** The output directory, spelled from the sample directory. *)
Lemma output_dir_spelled (b d s : string) (pr : option bool) :
  let sample_dir := OsPath.join b [d; s] in
  output_dir b d s pr
  = match pr with
    | Some p => sample_dir +:+ join_sep sample_dir
                +:+ (if p then "pruned" else "unpruned")
    | None => sample_dir
    end
  /\ (pr <> None -> join_sep (output_dir b d s pr) = "/").
Proof.
  intros sample_dir.
  assert (E : output_dir b d s pr
              = match pr with
                | Some p => sample_dir +:+ join_sep sample_dir
                            +:+ (if p then "pruned" else "unpruned")
                | None => sample_dir
                end).
  { unfold output_dir. fold sample_dir. destruct pr as [p|]; [|reflexivity].
    unfold OsPath.join. cbn [fold_left].
    apply join2_sep, pruning_segment_relative. }
  split; [exact E|]. intros Hpr. rewrite E.
  destruct pr as [p|]; [|congruence].
  rewrite <- append_assoc.
  apply join_sep_after; destruct p; discriminate || reflexivity.
Qed.

Lemma artifact_entry (b d s : string) (ct : option string) (pr : option bool)
    (g : list string) (key name : string) :
  In (key, name) artifact_names ->
  Dict.get (path_table b d s ct pr g) key
  = Some (OsPath.join (output_dir b d s pr) [cell_type_prefix ct +:+ name]).
Proof.
  intros Hin. cbn in Hin.
  repeat (destruct Hin as [[= <- <-]|Hin]; [reflexivity|]). contradiction.
Qed.

Lemma in_artifact_names (key name : string) :
  In (key, name) artifact_names -> In name (map snd artifact_names).
Proof. intros H. apply (in_map snd) in H. exact H. Qed.

(** Every artifact entry is the sample directory followed by the relative
    artifact path. *)
Lemma artifact_entry_relative (b d s : string) (ct : option string)
    (pr : option bool) (g : list string) (key name : string) :
  invalid_cell_type ct = false ->
  In (key, name) artifact_names ->
  let sample_dir := OsPath.join b [d; s] in
  Dict.get (path_table b d s ct pr g) key
  = Some (sample_dir +:+ join_sep sample_dir +:+ relative_artifact ct pr name).
Proof.
  intros Hv Hin sample_dir. rewrite (artifact_entry _ _ _ _ _ _ _ _ Hin).
  unfold OsPath.join at 1. cbn [fold_left].
  rewrite join2_sep
    by (apply valid_prefix_relative; [exact Hv | eapply in_artifact_names, Hin]).
  destruct (output_dir_spelled b d s pr) as [Hout Hsep]. fold sample_dir in Hout.
  unfold relative_artifact. destruct pr as [p|].
  - rewrite Hsep by discriminate. rewrite Hout, !append_assoc. reflexivity.
  - rewrite Hout. reflexivity.
Qed.

End ArtifactPaths.

(** X5.  Every artifact entry of a resolved dictionary (["anndata"],
    ["filtered_loom"], ["adjacencies"], ["regulons"], ["pyscenic_output"],
    ["aucell_mtx"]) is spelled: the ["output"] entry, a separator, the
    cell type prefix, the fixed file name.  The separator is ["/"], and
    it is left out exactly when the output entry is empty or ends with
    ["/"]; with a pruning choice it is always there. *)
Theorem artifacts_lie_in_output_directory
    (base_folder dataset_id sample_id : string) (cell_type : option string)
    (pruning : option bool) (w w' : World) (p : PathSet) :
  get_analysis_paths base_folder dataset_id sample_id cell_type pruning w
    = (Ok p, w') ->
  exists output,
    Dict.get p "output" = Some output /\
    output = output_dir base_folder dataset_id sample_id pruning /\
    let sep := if String.eqb output "" || PyStr.endswith output "/"
               then "" else "/" in
    (pruning <> None -> sep = "/") /\
    Forall (fun kn =>
              Dict.get p (fst kn)
              = Some (output +:+ sep +:+ cell_type_prefix cell_type +:+ snd kn))
      artifact_names.
Proof.
  intros H. apply get_analysis_paths_ok_inv in H as (Hv & _ & ->).
  exists (output_dir base_folder dataset_id sample_id pruning).
  split; [reflexivity|]. split; [reflexivity|].
  change (if String.eqb (output_dir base_folder dataset_id sample_id pruning) ""
             || PyStr.endswith
                  (output_dir base_folder dataset_id sample_id pruning) "/"
          then "" else "/")
    with (join_sep (output_dir base_folder dataset_id sample_id pruning)).
  cbv zeta. split; [apply output_dir_spelled|].
  apply Forall_forall. intros [key name] Hin. apply list_elem_of_In in Hin.
  cbn [fst snd]. rewrite (artifact_entry _ _ _ _ _ _ _ _ Hin).
  unfold OsPath.join at 1. cbn [fold_left].
  rewrite join2_sep
    by (apply valid_prefix_relative; [exact Hv | eapply in_artifact_names, Hin]).
  reflexivity.
Qed.

Lemma artifacts_lie_in_output_directory_witness :
  let run := get_analysis_paths "/b" "d" "s" (Some "Non-Tumor") (Some true)
               Sample.empty_world in
  let p := path_table "/b" "d" "s" (Some "Non-Tumor") (Some true) [] in
  run = (Ok p, snd run) /\
  exists output,
    Dict.get p "output" = Some output /\
    output = "/b/d/s/pruned" /\
    Dict.get p "regulons"
    = Some (output +:+ "/" +:+ "Non-Tumor_" +:+ "reg.csv").
Proof.
  intros run p.
  assert (H : run = (Ok p, snd run)) by (vm_compute; reflexivity).
  split; [exact H|].
  destruct (artifacts_lie_in_output_directory "/b" "d" "s" (Some "Non-Tumor")
              (Some true) _ _ _ H) as (output & Ho & Hd & Hs & Hall).
  exists output. split; [exact Ho|]. split; [exact Hd|].
  rewrite Forall_forall in Hall.
  rewrite <- Hs by discriminate.
  apply (Hall ("regulons", "reg.csv")). apply list_elem_of_In. cbn. tauto.
Defined.

(** X6.  For one base folder, dataset and sample, the dictionaries that
    [get_analysis_paths] returns for the nine contexts made of a cell type
    among [None], ["Tumor"], ["Non-Tumor"] and a pruning choice among
    [None], [True], [False] differ pairwise in every artifact entry: two
    resolutions that agree on one artifact entry were made for the same
    cell type and the same pruning choice, in whatever file systems. *)
Theorem contexts_have_distinct_artifacts
    (base_folder dataset_id sample_id : string)
    (cell_type1 cell_type2 : option string) (pruning1 pruning2 : option bool)
    (w1 w2 w1' w2' : World) (p1 p2 : PathSet) (key name : string) :
  In cell_type1 cell_type_tags -> In cell_type2 cell_type_tags ->
  get_analysis_paths base_folder dataset_id sample_id cell_type1 pruning1 w1
    = (Ok p1, w1') ->
  get_analysis_paths base_folder dataset_id sample_id cell_type2 pruning2 w2
    = (Ok p2, w2') ->
  In (key, name) artifact_names ->
  Dict.get p1 key = Dict.get p2 key ->
  cell_type1 = cell_type2 /\ pruning1 = pruning2.
Proof.
  intros H1 H2 R1 R2 Hin Heq.
  apply get_analysis_paths_ok_inv in R1 as (_ & _ & ->).
  apply get_analysis_paths_ok_inv in R2 as (_ & _ & ->).
  assert (Hv : forall ct, In ct cell_type_tags -> invalid_cell_type ct = false).
  { intros ct Hc. cbn in Hc. destruct Hc as [<-|[<-|[<-|[]]]]; reflexivity. }
  rewrite (artifact_entry_relative _ _ _ cell_type1 pruning1 _ key name),
          (artifact_entry_relative _ _ _ cell_type2 pruning2 _ key name)
    in Heq by auto.
  injection Heq as Heq. do 2 apply String.app_inj in Heq.
  cbn in H1, H2, Hin.
  destruct H1 as [<-|[<-|[<-|[]]]]; destruct H2 as [<-|[<-|[<-|[]]]];
    destruct pruning1 as [[]|]; destruct pruning2 as [[]|];
    try (split; reflexivity);
    repeat (destruct Hin as [[= <- <-]|Hin];
            [vm_compute in Heq; discriminate Heq|]);
    contradiction.
Qed.

Lemma contexts_have_distinct_artifacts_witness :
  let r1 := get_analysis_paths "/b" "d" "s" (Some "Tumor") (Some true)
              Sample.empty_world in
  let r2 := get_analysis_paths "/b" "d" "s" (Some "Tumor") (Some false)
              Sample.feather_world in
  let p1 := path_table "/b" "d" "s" (Some "Tumor") (Some true) [] in
  let p2 := path_table "/b" "d" "s" (Some "Tumor") (Some false)
              ["/b/databases/hg38.feather"] in
  (In (Some "Tumor") cell_type_tags /\
   r1 = (Ok p1, snd r1) /\ r2 = (Ok p2, snd r2) /\
   In ("regulons", "reg.csv") artifact_names) /\
  Dict.get p1 "regulons" <> Dict.get p2 "regulons".
Proof.
  intros r1 r2 p1 p2.
  assert (Ht : In (Some "Tumor") cell_type_tags) by (cbn; tauto).
  assert (R1 : r1 = (Ok p1, snd r1)) by (vm_compute; reflexivity).
  assert (R2 : r2 = (Ok p2, snd r2)) by (vm_compute; reflexivity).
  assert (Hk : In ("regulons", "reg.csv") artifact_names) by (cbn; tauto).
  split; [auto|]. intros Heq.
  destruct (contexts_have_distinct_artifacts "/b" "d" "s" _ _ _ _ _ _ _ _ _ _
              "regulons" "reg.csv" Ht Ht R1 R2 Hk Heq) as [_ Hp].
  discriminate Hp.
Defined.

(** * The command builders *)

Section Builders.

Lemma item_ok {V} (d : list (string * V)) (k : string) (v : V) :
  Dict.item d k = Ok v <-> Dict.get d k = Some v.
Proof.
  unfold Dict.item. destruct (Dict.get d k); split; congruence.
Qed.

Lemma item_raise {V} (d : list (string * V)) (k : string) (e : exn) :
  Dict.item d k = Raise e <-> Dict.get d k = None /\ e = KeyError k.
Proof.
  unfold Dict.item. destruct (Dict.get d k); split;
    [discriminate | intros [? _]; discriminate
    | intros [= <-]; auto | intros [_ ->]; reflexivity].
Qed.

End Builders.

Ltac builder_items :=
  repeat match goal with
    | |- context [Dict.item ?d ?k] =>
        let v := fresh "v" in let E := fresh "E" in
        destruct (Dict.item d k) as [v|?] eqn:E;
        [apply item_ok in E | apply item_raise in E as [E ->]]
    | H : context [Dict.item ?d ?k] |- _ =>
        let v := fresh "v" in let E := fresh "E" in
        destruct (Dict.item d k) as [v|?] eqn:E;
        [apply item_ok in E | apply item_raise in E as [E ->]]
    end.

(** X7.  On a dictionary returned by the resolver the three command
    builders never raise, for any pruning flag, and the output path each
    one reports is the dictionary entry of its artifact: ["adjacencies"],
    ["regulons"], ["pyscenic_output"]. *)
Theorem builders_succeed_on_resolved_paths
    (base_folder dataset_id sample_id : string) (cell_type : option string)
    (pruning flag : option bool) (w w' : World) (p : PathSet) :
  get_analysis_paths base_folder dataset_id sample_id cell_type pruning w
    = (Ok p, w') ->
  exists grn ctx aucell,
    run_grn_inference p = Ok grn /\
    run_ctx_inference p flag = Ok ctx /\
    run_aucell p = Ok aucell /\
    Dict.get p "adjacencies" = Some (output_path grn) /\
    Dict.get p "regulons" = Some (output_path ctx) /\
    Dict.get p "pyscenic_output" = Some (output_path aucell).
Proof.
  intros H. apply get_analysis_paths_ok_inv in H as (_ & _ & ->).
  do 3 eexists. repeat split; reflexivity.
Qed.

Lemma builders_succeed_on_resolved_paths_witness :
  let run := get_analysis_paths "/b" "d" "s" None None Sample.empty_world in
  let p := path_table "/b" "d" "s" None None [] in
  run = (Ok p, snd run) /\
  exists grn, run_grn_inference p = Ok grn /\
              output_path grn = "/b/d/s/adjacencies.csv".
Proof.
  intros run p.
  assert (H : run = (Ok p, snd run)) by (vm_compute; reflexivity).
  split; [exact H|].
  destruct (builders_succeed_on_resolved_paths "/b" "d" "s" None None None
              _ _ _ H) as (grn & _ & _ & Hg & _ & _ & Ha & _).
  exists grn. split; [exact Hg|].
  cbn in Ha. injection Ha as Ha. symmetry. exact Ha.
Defined.

(** X8.  Whenever the three builders succeed on a dictionary, their
    commands form a chain: all three name the same expression loom; the
    file the GRN command writes after [-o] is the first argument of the
    context command; the file the context command writes after [--output]
    is the second argument of the AUCell command.  The context command
    is followed by [--no_pruning] when the flag is [False], and by nothing
    otherwise. *)
Theorem commands_hand_artifacts_on (paths : PathSet) (flag : option bool)
    (grn ctx aucell : Config) :
  run_grn_inference paths = Ok grn ->
  run_ctx_inference paths flag = Ok ctx ->
  run_aucell paths = Ok aucell ->
  exists loom tfs dbs motifs,
    Dict.get paths "filtered_loom" = Some loom /\
    command grn
    = "pyscenic grn " +:+ loom +:+ " " +:+ tfs
      +:+ " -o " +:+ output_path grn +:+ " --num_workers 20" /\
    (let base :=
       "pyscenic ctx " +:+ output_path grn +:+ " " +:+ dbs +:+ " "
       +:+ "--annotations_fname " +:+ motifs +:+ " "
       +:+ "--expression_mtx_fname " +:+ loom +:+ " "
       +:+ "--output " +:+ output_path ctx +:+ " "
       +:+ "--mask_dropouts --num_workers 20" in
     command ctx
     = if is_False flag then base +:+ " " +:+ "--no_pruning" else base) /\
    command aucell
    = "pyscenic aucell " +:+ loom +:+ " " +:+ output_path ctx
      +:+ " --output " +:+ output_path aucell +:+ " --num_workers 20".
Proof.
  unfold run_grn_inference, run_ctx_inference, ctx_base_command, run_aucell,
    mbind, mret, result_mbind, result_ret, result_bind.
  intros Hg Hc Ha. builder_items; try discriminate.
  injection Hg as <-. injection Hc as <-. injection Ha as <-.
  cbn [command output_path].
  match goal with
  | E1 : Dict.get paths "filtered_loom" = Some ?l,
    E2 : Dict.get paths "human_tfs" = Some ?t,
    E3 : Dict.get paths "ranking_dbs" = Some ?r,
    E4 : Dict.get paths "motif_annotations" = Some ?m |- _ =>
      exists l, t, r, m
  end.
  split; [assumption|].
  split; [reflexivity|]. split; [reflexivity|]. reflexivity.
Qed.

Lemma commands_hand_artifacts_on_witness :
  let paths := path_table "/b" "d" "s" (Some "Tumor") None [] in
  let grn := {| command := "pyscenic grn /b/d/s/Tumor_filtered_scenic.loom /b/databases/allTFs_hg38.txt -o /b/d/s/Tumor_adjacencies.csv --num_workers 20";
                output_path := "/b/d/s/Tumor_adjacencies.csv" |} in
  let ctx := {| command := "pyscenic ctx /b/d/s/Tumor_adjacencies.csv  --annotations_fname /b/databases/motifs-v10nr_clust-nr.hgnc-m0.001-o0.0.tbl --expression_mtx_fname /b/d/s/Tumor_filtered_scenic.loom --output /b/d/s/Tumor_reg.csv --mask_dropouts --num_workers 20";
                output_path := "/b/d/s/Tumor_reg.csv" |} in
  let aucell := {| command := "pyscenic aucell /b/d/s/Tumor_filtered_scenic.loom /b/d/s/Tumor_reg.csv --output /b/d/s/Tumor_pyscenic_output.loom --num_workers 20";
                   output_path := "/b/d/s/Tumor_pyscenic_output.loom" |} in
  (run_grn_inference paths = Ok grn /\
   run_ctx_inference paths (Some true) = Ok ctx /\
   run_aucell paths = Ok aucell) /\
  exists loom, Dict.get paths "filtered_loom" = Some loom.
Proof.
  intros paths grn ctx aucell.
  assert (Hg : run_grn_inference paths = Ok grn) by (vm_compute; reflexivity).
  assert (Hc : run_ctx_inference paths (Some true) = Ok ctx)
    by (vm_compute; reflexivity).
  assert (Ha : run_aucell paths = Ok aucell) by (vm_compute; reflexivity).
  split; [split; [exact Hg | split; [exact Hc | exact Ha]]|].
  destruct (commands_hand_artifacts_on paths (Some true) grn ctx aucell
              Hg Hc Ha) as (loom & _ & _ & _ & Hl & _).
  exists loom. exact Hl.
Defined.

(** X9.  A command builder succeeds exactly when the dictionary has
    every key it reads (three for GRN, five for context inference, three
    for AUCell), and otherwise raises [KeyError] for one of those keys,
    which is missing; it raises nothing else. *)
Theorem builders_fail_only_on_missing_key (paths : PathSet)
    (flag : option bool) :
  let present keys := forallb (fun k => bool_decide (is_Some (Dict.get paths k)))
                        keys in
  let missing keys e :=
    exists k, e = KeyError k /\ In k keys /\ Dict.get paths k = None in
  (is_ok (run_grn_inference paths) = present grn_keys /\
   is_ok (run_ctx_inference paths flag) = present ctx_keys /\
   is_ok (run_aucell paths) = present aucell_keys) /\
  (forall e, run_grn_inference paths = Raise e -> missing grn_keys e) /\
  (forall e, run_ctx_inference paths flag = Raise e -> missing ctx_keys e) /\
  (forall e, run_aucell paths = Raise e -> missing aucell_keys e).
Proof.
  intros present missing. subst present missing.
  unfold run_grn_inference, run_ctx_inference, ctx_base_command, run_aucell,
    mbind, mret, result_mbind, result_ret, result_bind, Dict.item,
    grn_keys, ctx_keys, aucell_keys.
  cbn [forallb In].
  destruct (Dict.get paths "filtered_loom") eqn:E1;
    destruct (Dict.get paths "human_tfs") eqn:E2;
    destruct (Dict.get paths "adjacencies") eqn:E3;
    destruct (Dict.get paths "ranking_dbs") eqn:E4;
    destruct (Dict.get paths "motif_annotations") eqn:E5;
    destruct (Dict.get paths "regulons") eqn:E6;
    destruct (Dict.get paths "pyscenic_output") eqn:E7;
    (split; [repeat split; reflexivity|]);
    repeat split; intros e He; try discriminate He;
    injection He as <-; eexists; (split; [reflexivity|]); split; auto 10.
Qed.

Lemma builders_fail_only_on_missing_key_witness :
  let paths : PathSet := [("filtered_loom", "/b/d/s/filtered_scenic.loom")] in
  run_aucell paths = Raise (KeyError "regulons") /\
  exists k, KeyError "regulons" = KeyError k /\ In k aucell_keys /\
            Dict.get paths k = None.
Proof.
  intros paths.
  assert (H : run_aucell paths = Raise (KeyError "regulons")) by reflexivity.
  split; [exact H|].
  destruct (builders_fail_only_on_missing_key paths None) as (_ & _ & _ & Ha).
  exact (Ha _ H).
Defined.

(** * Subsetting by cell type *)

Section SubsetFacts.
Context {Row : Type}.

Lemma select_length {A B} (mask : list bool) (l1 : list A) (l2 : list B) :
  length l1 = length l2 ->
  length (select mask l1) = length (select mask l2).
Proof.
  revert l1 l2. induction mask as [|b mask IH]; intros [|x l1] [|y l2] H;
    try discriminate; try reflexivity.
  injection H as H. destruct b; cbn [select length]; auto.
Qed.

Lemma select_length_le {A} (mask : list bool) (l : list A) :
  length (select mask l) <= length l.
Proof.
  revert l. induction mask as [|b mask IH]; intros [|x l];
    cbn [select length]; try lia.
  specialize (IH l). destruct b; cbn [length]; lia.
Qed.

Lemma select_all {A} (mask : list bool) (l : list A) :
  length mask = length l -> Forall (fun b => b = true) mask ->
  select mask l = l.
Proof.
  revert l. induction mask as [|b mask IH]; intros [|x l] Hlen Hall;
    try discriminate; [reflexivity|].
  injection Hlen as Hlen. inversion_clear Hall as [|? ? Hb Hall'].
  subst b. cbn [select]. rewrite IH; auto.
Qed.

Lemma select_eq_mask (col : list (option string)) (v : string) :
  Forall (fun x => x = Some v) (select (eq_mask col v) col).
Proof.
  induction col as [|x col IH]; cbn [eq_mask map select]; [constructor|].
  fold (eq_mask col v). destruct (bool_decide_reflect (x = Some v)); auto.
Qed.

Lemma select_ne_mask (col : list (option string)) (v : string) :
  Forall (fun x => x <> Some v) (select (ne_mask col v) col).
Proof.
  induction col as [|x col IH]; cbn [ne_mask map select]; [constructor|].
  fold (ne_mask col v). destruct (bool_decide_reflect (x = Some v)); cbn; auto.
Qed.

Lemma eq_mask_all (col : list (option string)) (v : string) :
  Forall (fun x => x = Some v) col ->
  length (eq_mask col v) = length col /\
  Forall (fun b => b = true) (eq_mask col v).
Proof.
  intros H. unfold eq_mask. rewrite length_map. split; [reflexivity|].
  induction H as [|x col Hx _ IH]; cbn [map]; constructor; auto.
  apply bool_decide_eq_true, Hx.
Qed.

Lemma ne_mask_all (col : list (option string)) (v : string) :
  Forall (fun x => x <> Some v) col ->
  length (ne_mask col v) = length col /\
  Forall (fun b => b = true) (ne_mask col v).
Proof.
  intros H. unfold ne_mask. rewrite length_map. split; [reflexivity|].
  induction H as [|x col Hx _ IH]; cbn [map]; constructor; auto.
  apply negb_true_iff, bool_decide_eq_false, Hx.
Qed.

Lemma get_subset_column (d : list (string * list (option string)))
    (mask : list bool) (k : string) :
  Dict.get (map (fun col => (fst col, select mask (snd col))) d) k
  = select mask <$> Dict.get d k.
Proof.
  induction d as [|[k' c] d IH]; cbn [map Dict.get fst snd]; [reflexivity|].
  destruct (String.eqb k' k); [reflexivity | exact IH].
Qed.

Lemma subset_rows_well_formed (a : AnnData Row) (mask : list bool) :
  well_formed a -> well_formed (subset_rows a mask).
Proof.
  intros [HX Hcols]. split; cbn [subset_rows X obs_names obs].
  - apply select_length, HX.
  - apply Forall_map. eapply Forall_impl; [exact Hcols|].
    intros [k c] Hc. cbn [fst snd] in *. apply select_length, Hc.
Qed.

Lemma subset_rows_all (a : AnnData Row) (mask : list bool) :
  well_formed a -> length mask = length (obs_names a) ->
  Forall (fun b => b = true) mask -> subset_rows a mask = a.
Proof.
  intros [HX Hcols] Hlen Hall. destruct a as [names cols x].
  cbn [obs_names obs X] in *. unfold subset_rows. cbn [obs_names obs X].
  f_equal.
  - apply select_all; assumption.
  - induction Hcols as [|[k c] cols Hc _ IH]; cbn [map fst snd]; [reflexivity|].
    cbn [snd] in Hc. rewrite IH, select_all by congruence. reflexivity.
  - apply select_all; congruence.
Qed.

(** The three outcomes of a successful subsetting. *)
Lemma subset_by_cell_type_ok (a r : AnnData Row) (ct : option string) :
  subset_by_cell_type a ct = Ok r ->
  r = a \/
  exists col, Dict.get (obs a) annotation_column = Some col /\
    ((ct = Some "Tumor" /\ r = subset_rows a (eq_mask col "Tumor")) \/
     (ct = Some "Non-Tumor" /\ r = subset_rows a (ne_mask col "Tumor"))).
Proof.
  unfold subset_by_cell_type. destruct ct as [t|]; [|intros [= <-]; auto].
  destruct (PyStr.truthy (Some t)); [|intros [= <-]; auto].
  unfold Dict.item.
  destruct (Dict.get (obs a) annotation_column) as [col|]; [|discriminate].
  cbn [Dict.get].
  destruct (String.eqb_spec "Tumor" t) as [<-|_].
  - intros [= <-]. right. exists col. auto.
  - destruct (String.eqb_spec "Non-Tumor" t) as [<-|_].
    + intros [= <-]. right. exists col. auto.
    + intros [= <-]. auto.
Qed.

End SubsetFacts.

(** X10.  Subsetting a well-formed matrix by cell type gives a
    well-formed matrix with the same metadata columns, in the same order,
    and at most as many cells. *)
Theorem subset_keeps_well_formed {Row : Type} (a r : AnnData Row)
    (ct : option string) :
  well_formed a ->
  subset_by_cell_type a ct = Ok r ->
  well_formed r /\
  Dict.keys (obs r) = Dict.keys (obs a) /\
  length (obs_names r) <= length (obs_names a).
Proof.
  intros Hwf H.
  assert (Hrows : forall mask,
            well_formed (subset_rows a mask) /\
            Dict.keys (obs (subset_rows a mask)) = Dict.keys (obs a) /\
            length (obs_names (subset_rows a mask)) <= length (obs_names a)).
  { intros mask. split; [apply subset_rows_well_formed, Hwf|]. split.
    - unfold Dict.keys. cbn [subset_rows obs]. rewrite map_map. reflexivity.
    - apply select_length_le. }
  apply subset_by_cell_type_ok in H
    as [->|(col & _ & [[_ ->]|[_ ->]])]; auto.
Qed.

Lemma subset_keeps_well_formed_witness :
  well_formed Sample.adata /\
  exists r, subset_by_cell_type Sample.adata (Some "Non-Tumor") = Ok r /\
            well_formed r /\ length (obs_names r) <= 3.
Proof.
  assert (Hwf : well_formed Sample.adata).
  { split; [reflexivity|]. repeat constructor. }
  split; [exact Hwf|]. eexists. split; [reflexivity|].
  destruct (subset_keeps_well_formed Sample.adata _ (Some "Non-Tumor") Hwf
              eq_refl) as (Hr & _ & Hlen).
  split; [exact Hr | exact Hlen].
Defined.

(** X11.  After subsetting for ["Tumor"] every remaining cell is
    annotated ["Tumor"]; after subsetting for ["Non-Tumor"] no remaining
    cell is (cells without annotation are among them). *)
Theorem subset_annotations {Row : Type} (a t n : AnnData Row) :
  subset_by_cell_type a (Some "Tumor") = Ok t ->
  subset_by_cell_type a (Some "Non-Tumor") = Ok n ->
  exists tumor_col other_col,
    Dict.get (obs t) annotation_column = Some tumor_col /\
    Forall (fun v => v = Some "Tumor") tumor_col /\
    Dict.get (obs n) annotation_column = Some other_col /\
    Forall (fun v => v <> Some "Tumor") other_col.
Proof.
  intros Ht Hn.
  unfold subset_by_cell_type, Dict.item in Ht, Hn. cbn in Ht, Hn.
  destruct (Dict.get (obs a) annotation_column) as [col|] eqn:E;
    [|discriminate].
  injection Ht as <-. injection Hn as <-.
  exists (select (eq_mask col "Tumor") col), (select (ne_mask col "Tumor") col).
  cbn [subset_rows obs]. rewrite !get_subset_column, E. cbn.
  split; [reflexivity|]. split; [apply select_eq_mask|].
  split; [reflexivity | apply select_ne_mask].
Qed.

Lemma subset_annotations_witness :
  exists t n,
    (subset_by_cell_type Sample.adata (Some "Tumor") = Ok t /\
     subset_by_cell_type Sample.adata (Some "Non-Tumor") = Ok n) /\
    exists tumor_col other_col,
      Dict.get (obs t) annotation_column = Some tumor_col /\
      Forall (fun v => v = Some "Tumor") tumor_col /\
      Dict.get (obs n) annotation_column = Some other_col /\
      Forall (fun v => v <> Some "Tumor") other_col.
Proof.
  do 2 eexists. split; [split; reflexivity|].
  exact (subset_annotations Sample.adata _ _ eq_refl eq_refl).
Defined.

(** X12.  Subsetting is idempotent on well-formed matrices: applying
    the same cell type to the result changes nothing. *)
Theorem subset_idempotent {Row : Type} (a r : AnnData Row)
    (ct : option string) :
  well_formed a ->
  subset_by_cell_type a ct = Ok r ->
  subset_by_cell_type r ct = Ok r.
Proof.
  intros Hwf H.
  destruct (subset_by_cell_type_ok _ _ _ H)
    as [->|(col & E & [[-> ->]|[-> ->]])]; [exact H| |].
  - pose proof (subset_rows_well_formed a (eq_mask col "Tumor") Hwf) as Hwf'.
    unfold subset_by_cell_type, Dict.item. cbn [PyStr.truthy String.eqb negb].
    cbn [subset_rows obs]. rewrite get_subset_column, E. cbn [fmap option_fmap option_map Dict.get String.eqb Ascii.eqb Bool.eqb].
    destruct (eq_mask_all _ "Tumor" (select_eq_mask col "Tumor")) as [Hl Hall].
    rewrite subset_rows_all; [reflexivity | exact Hwf' | | exact Hall].
    rewrite Hl. cbn [subset_rows obs_names]. apply select_length.
    apply (annotation_length a col Hwf E).
  - pose proof (subset_rows_well_formed a (ne_mask col "Tumor") Hwf) as Hwf'.
    unfold subset_by_cell_type, Dict.item. cbn [PyStr.truthy String.eqb negb].
    cbn [subset_rows obs]. rewrite get_subset_column, E. cbn [fmap option_fmap option_map Dict.get String.eqb Ascii.eqb Bool.eqb].
    destruct (ne_mask_all _ "Tumor" (select_ne_mask col "Tumor")) as [Hl Hall].
    rewrite subset_rows_all; [reflexivity | exact Hwf' | | exact Hall].
    rewrite Hl. cbn [subset_rows obs_names]. apply select_length.
    apply (annotation_length a col Hwf E).
Qed.

Lemma subset_idempotent_witness :
  well_formed Sample.adata /\
  exists r, subset_by_cell_type Sample.adata (Some "Tumor") = Ok r /\
            subset_by_cell_type r (Some "Tumor") = Ok r.
Proof.
  assert (Hwf : well_formed Sample.adata).
  { split; [reflexivity|]. repeat constructor. }
  split; [exact Hwf|]. eexists. split; [reflexivity|].
  exact (subset_idempotent Sample.adata _ (Some "Tumor") Hwf eq_refl).
Defined.

(** * The trace of a run that returns *)

(** X13.  A run of [run_pyscenic_workflow] that returns has entered
    the twelve steps in order and handed exactly three commands to the
    shell: the GRN command in step 2, the context command in step 3 and
    the AUCell command in step 5.  All three are built from the dictionary
    resolved in the path update, that is, without the pruning choice,
    whatever the manager's [pruning] is; [pruning] only reaches the
    [--no_pruning] flag. *)
Theorem successful_run_trace {Row Auc : Type} (env : Collaborators Row Auc)
    (self : WorkflowManager) (w w' : World) :
  run_pyscenic_workflow env self w = (Ok tt, w') ->
  exists feather grn ctx aucell,
    let paths := path_table (base_folder self) (dataset_id self)
                   (sample_id self) (cell_type self) None feather in
    run_grn_inference paths = Ok grn /\
    run_ctx_inference paths (pruning self) = Ok ctx /\
    run_aucell paths = Ok aucell /\
    trace w'
    = trace w ++
      [Enter StLoadPaths; Enter StReadAnnData; Enter StSubset;
       Enter StUpdatePaths; Enter StCreateLoom; Enter StPrepareCommands;
       Enter StGRN; Subprocess (command grn);
       Enter StCtx; Subprocess (command ctx);
       Enter StGeneDistribution;
       Enter StAUCell; Subprocess (command aucell);
       Enter StDimReduction; Enter StVisualise].
Proof.
  unfold run_pyscenic_workflow, steps_from_ctx. intros H.
  apply bind_ok_inv in H as (loader_paths & w1 & H1 & H).
  apply bind_ok_inv in H as (adata0 & w2 & H2 & H).
  apply bind_ok_inv in H as (adata & w3 & H3 & H).
  apply bind_ok_inv in H as (paths & w4 & H4 & H).
  apply bind_ok_inv in H as ([] & w5 & H5 & H).
  apply bind_ok_inv in H as ([[grn ctx] aucell] & w6 & H6 & H).
  apply bind_ok_inv in H as ([] & w7 & H7 & H).
  apply bind_ok_inv in H as ([] & w8 & H8 & H).
  apply bind_ok_inv in H as ([] & w9 & H9 & H).
  apply bind_ok_inv in H as (auc & w10 & H10 & H).
  apply bind_ok_inv in H as ([] & w11 & H11 & H12).
  apply in_stage_silent_ok in H1 as [_ T1];
    [|apply silent_get_analysis_paths].
  apply in_stage_silent_ok in H2 as [_ T2]; [|apply silent_read_anndata].
  apply in_stage_silent_ok in H3 as [_ T3]; [|apply silent_of_result].
  apply in_stage_silent_ok in H4 as [H4 T4];
    [|apply silent_get_analysis_paths].
  apply in_stage_silent_ok in H5 as [_ T5]; [|apply silent_create_loom_file].
  apply in_stage_silent_ok in H6 as [H6 T6]; [|apply silent_of_result].
  apply in_stage_ok, command_then_read_ok in H7 as [_ T7];
    [|apply silent_read_file].
  apply in_stage_ok, command_then_read_ok in H8 as [_ T8];
    [|apply silent_read_file].
  apply in_stage_silent_ok in H9 as [_ T9];
    [|apply silent_plot_gene_distribution].
  apply in_stage_ok, command_then_read_ok in H10 as [_ T10];
    [|apply silent_read_file].
  apply in_stage_silent_ok in H11 as [_ T11];
    [|apply silent_dimensionality_reduction].
  apply in_stage_silent_ok in H12 as [_ T12]; [|apply silent_step_visualise].
  cbn [fs trace] in *.
  apply get_analysis_paths_ok_inv in H4 as (_ & _ & ->).
  unfold of_result in H6. apply (f_equal fst) in H6. cbn [fst] in H6.
  unfold mbind, mret, result_mbind, result_ret, result_bind in H6.
  destruct (run_grn_inference _) as [g|] eqn:Eg; [|discriminate].
  destruct (run_ctx_inference _ _) as [c|] eqn:Ec; [|discriminate].
  destruct (run_aucell _) as [a|] eqn:Ea; [|discriminate].
  injection H6 as -> -> ->.
  exists (FS.glob (fs w4) (feather_pattern (base_folder self))),
    grn, ctx, aucell. cbv zeta.
  split; [exact Eg|]. split; [exact Ec|]. split; [exact Ea|].
  rewrite T12, T11, T10, T9, T8, T7, T6, T5, T4, T3, T2, T1.
  rewrite <- !app_assoc. reflexivity.
Qed.

Lemma successful_run_trace_witness :
  let run := run_pyscenic_workflow Sample.env Sample.tumor_unpruned
               Sample.clustered_world in
  run = (Ok tt, snd run) /\
  exists feather grn ctx aucell,
    run_ctx_inference (path_table "/b" "d" "s" (Some "Tumor") None feather)
      (Some false) = Ok ctx /\
    executed_commands (trace (snd run))
    = [command grn; command ctx; command aucell].
Proof.
  intros run.
  assert (H : run = (Ok tt, snd run)) by (vm_compute; reflexivity).
  split; [exact H|].
  destruct (successful_run_trace Sample.env Sample.tumor_unpruned _ _ H)
    as (feather & grn & ctx & aucell & _ & Hc & _ & Ht).
  exists feather, grn, ctx, aucell. split; [exact Hc|].
  rewrite Ht. reflexivity.
Defined.

(** * The loom export, [main] and [parse_arguments] *)

(** X14.  [create_loom_file] needs the cluster column and the
    annotation column: for a matrix without ["louvain"] it raises
    [KeyError] for that name; with ["louvain"] but without the annotation
    column, [KeyError] for the annotation column; in both cases before the
    loom library is called, so that nothing is written.  With both columns
    the outcome is that of the one call [lp.create] on the
    ["filtered_loom"] path. *)
Theorem loom_export_needs_cluster_and_annotation {Row Auc : Type}
    (env : Collaborators Row Auc) (paths : PathSet) (adata : AnnData Row)
    (loom : string) (w : World) :
  Dict.get paths "filtered_loom" = Some loom ->
  let run := create_loom_file env paths adata w in
  (Dict.get (obs adata) "louvain" = None ->
   run = (Raise (KeyError "louvain"), w)) /\
  (Dict.get (obs adata) "louvain" <> None ->
   Dict.get (obs adata) annotation_column = None ->
   run = (Raise (KeyError "cell_type.harmonized.cancer"), w)) /\
  (Dict.get (obs adata) "louvain" <> None ->
   Dict.get (obs adata) annotation_column <> None ->
   run = call_library env (LpCreate loom adata) w).
Proof.
  intros Hl run. subst run. unfold create_loom_file.
  rewrite !bind_unfold. unfold of_result, Dict.item. rewrite Hl.
  destruct (Dict.get (obs adata) "louvain");
    destruct (Dict.get (obs adata) annotation_column);
    repeat split; intros; try congruence; reflexivity.
Qed.

Lemma loom_export_needs_cluster_and_annotation_witness :
  let paths := path_table "/b" "d" "s" None None [] in
  let unclustered : AnnData nat :=
    {| obs_names := ["c1"];
       obs := [(annotation_column, [Some "Tumor"])];
       X := [10] |} in
  (Dict.get paths "filtered_loom" = Some "/b/d/s/filtered_scenic.loom" /\
   Dict.get (obs unclustered) "louvain" = None) /\
  create_loom_file Sample.env paths unclustered Sample.empty_world
  = (Raise (KeyError "louvain"), Sample.empty_world).
Proof.
  intros paths unclustered.
  assert (Hl : Dict.get paths "filtered_loom"
               = Some "/b/d/s/filtered_scenic.loom") by reflexivity.
  assert (Hc : Dict.get (obs unclustered) "louvain" = None) by reflexivity.
  split; [split; assumption|].
  exact (proj1 (loom_export_needs_cluster_and_annotation Sample.env paths
                  unclustered _ Sample.empty_world Hl) Hc).
Defined.

(** X15.  [main] runs its three phases in order and stops at the first
    failure: rejected arguments end it before anything is touched; a
    failure of the preprocessing workflow ends it before the GRN workflow
    starts, with no step entered and no command run; otherwise the GRN
    workflow runs in the world preprocessing left. *)
Theorem main_stops_before_workflow {Row Auc : Type}
    (env : Collaborators Row Auc) (argv : Argv) (w : World) :
  (forall e, parse_arguments argv = Raise e ->
     main env argv w = (Raise e, w)) /\
  (forall self e w',
     parse_arguments argv = Ok self ->
     preprocessing_workflow env self w = (Raise e, w') ->
     main env argv w = (Raise e, w') /\ trace w' = trace w) /\
  (forall self w',
     parse_arguments argv = Ok self ->
     preprocessing_workflow env self w = (Ok tt, w') ->
     main env argv w = run_pyscenic_workflow env self w' /\
     trace w' = trace w).
Proof.
  unfold main. rewrite bind_unfold. unfold of_result.
  split; [|split].
  - intros e ->. reflexivity.
  - intros self e w' -> H. rewrite bind_unfold, H. split; [reflexivity|].
    pose proof (silent_preprocessing_workflow env self w) as Hs.
    rewrite H in Hs. exact Hs.
  - intros self w' -> H. rewrite bind_unfold, H. split; [reflexivity|].
    pose proof (silent_preprocessing_workflow env self w) as Hs.
    rewrite H in Hs. exact Hs.
Qed.

Lemma main_stops_before_workflow_witness :
  let argv := {| arg_base_folder := "/b"; arg_dataset_id := "d";
                 arg_sample_id := "s"; arg_cell_type := None;
                 arg_prune := Some "maybe" |} in
  let e := ValueError
    "Invalid value for --prune. Must be 'true', 'false', or 'None'." in
  parse_arguments argv = Raise e /\
  main Sample.env argv Sample.empty_world = (Raise e, Sample.empty_world).
Proof.
  intros argv e.
  assert (H : parse_arguments argv = Raise e) by reflexivity.
  split; [exact H|].
  exact (proj1 (main_stops_before_workflow Sample.env argv Sample.empty_world)
           e H).
Defined.

Section ParseFacts.

Lemma lower_ascii_idempotent (c : ascii) :
  PyStr.lower_ascii (PyStr.lower_ascii c) = PyStr.lower_ascii c.
Proof.
  destruct c as [[] [] [] [] [] [] [] []]; reflexivity.
Qed.

Lemma lower_idempotent (s : string) :
  PyStr.lower (PyStr.lower s) = PyStr.lower s.
Proof.
  induction s as [|c s IH]; [reflexivity|].
  cbn [PyStr.lower]. rewrite lower_ascii_idempotent, IH. reflexivity.
Qed.

End ParseFacts.

(** X16.  [parse_arguments] accepts [--prune] among true, false, none
    and [--cell_type] among none, tumor, non-tumor, compared without
    regard to letter case, and nothing else; [--prune] is checked first,
    so that its message wins when both are wrong.  On success the three
    positional arguments are handed on unchanged, the prune value is the
    boolean (none and absent are [None]), and the cell type is handed on
    in lower case (none and absent are [None]).  Parsing depends on the two
    options only through their lower-case form. *)
Theorem parse_arguments_spec (argv : Argv) :
  let prune := PyStr.lower <$> arg_prune argv in
  let ct := PyStr.lower <$> arg_cell_type argv in
  let prune_ok :=
    match prune with
    | None => true
    | Some s => in_list s ["true"; "false"; "none"]
    end in
  let ct_ok :=
    match ct with
    | None => true
    | Some s => in_list s ["none"; "tumor"; "non-tumor"]
    end in
  is_ok (parse_arguments argv) = prune_ok && ct_ok /\
  (prune_ok = false ->
   parse_arguments argv
   = Raise (ValueError
       "Invalid value for --prune. Must be 'true', 'false', or 'None'.")) /\
  (forall self, parse_arguments argv = Ok self ->
     base_folder self = arg_base_folder argv /\
     dataset_id self = arg_dataset_id argv /\
     sample_id self = arg_sample_id argv /\
     pruning self = (if bool_decide (prune = Some "true") then Some true
                     else if bool_decide (prune = Some "false") then Some false
                     else None) /\
     cell_type self = (if bool_decide (ct = Some "none") then None else ct)) /\
  parse_arguments argv
  = parse_arguments {| arg_base_folder := arg_base_folder argv;
                       arg_dataset_id := arg_dataset_id argv;
                       arg_sample_id := arg_sample_id argv;
                       arg_cell_type := ct;
                       arg_prune := prune |}.
Proof.
  intros prune ct prune_ok ct_ok. subst prune ct prune_ok ct_ok.
  destruct argv as [b d s oct opr].
  unfold parse_arguments, parse_prune, parse_cell_type, in_list,
    mbind, mret, result_mbind, result_ret, result_bind.
  cbn [arg_base_folder arg_dataset_id arg_sample_id arg_cell_type arg_prune
       existsb].
  destruct opr as [pr|]; destruct oct as [c|];
    cbn [fmap option_fmap option_map]; rewrite ?lower_idempotent;
    try generalize (PyStr.lower pr); try generalize (PyStr.lower c); intros;
    repeat match goal with
           | |- context [String.eqb ?a ?b] =>
               destruct (String.eqb_spec a b)
           end;
    cbn [is_ok andb orb negb];
    (split; [reflexivity|]); (split; [congruence|]);
    (split; [|reflexivity]);
    intros self [= <-]; cbn [base_folder dataset_id sample_id pruning cell_type];
    do 3 (split; [reflexivity|]);
    repeat case_bool_decide; split; congruence.
Qed.

Lemma parse_arguments_spec_witness :
  let argv := {| arg_base_folder := "/b"; arg_dataset_id := "d";
                 arg_sample_id := "s"; arg_cell_type := Some "Non-Tumor";
                 arg_prune := Some "False" |} in
  exists self,
    parse_arguments argv = Ok self /\
    pruning self = Some false /\ cell_type self = Some "non-tumor".
Proof.
  intros argv.
  destruct (parse_arguments argv) as [self|e] eqn:E; [|discriminate E].
  exists self. split; [reflexivity|].
  destruct (parse_arguments_spec argv) as (_ & _ & Hs & _).
  destruct (Hs self E) as (_ & _ & _ & Hp & Hc).
  split; [exact Hp | exact Hc].
Defined.

(** * Runs on a matrix without clusters *)

Section EarlySteps.
Context {Row Auc : Type} (env : Collaborators Row Auc).

Lemma read_h5ad_ok (path : string) (w w' : World) (a : AnnData Row) :
  sc_read_h5ad env path w = (Ok a, w') ->
  FS.isfile (fs w) path = true /\ h5ad_contents env path (fs w) = Ok a.
Proof.
  unfold sc_read_h5ad, read_file.
  destruct (FS.isfile (fs w) path); [intros [= -> _]; auto | discriminate].
Qed.

Lemma subset_keeps_missing_column (a r : AnnData Row) (ct : option string)
    (k : string) :
  subset_by_cell_type a ct = Ok r ->
  Dict.get (obs a) k = None -> Dict.get (obs r) k = None.
Proof.
  intros H Hk.
  apply subset_by_cell_type_ok in H as [->|(col & _ & [[_ ->]|[_ ->]])];
    [exact Hk | |];
    cbn [subset_rows obs]; rewrite get_subset_column, Hk; reflexivity.
Qed.

Lemma create_loom_file_unclustered (b d s : string) (ct : option string)
    (pr : option bool) (feather : list string) (adata : AnnData Row)
    (w : World) :
  Dict.get (obs adata) "louvain" = None ->
  create_loom_file env (path_table b d s ct pr feather) adata w
  = (Raise (KeyError "louvain"), w).
Proof.
  intros H. unfold create_loom_file. rewrite !bind_unfold.
  unfold of_result, Dict.item. rewrite H. reflexivity.
Qed.

End EarlySteps.

(** X17.  If the stored matrix has no ["louvain"] column, the GRN
    workflow always fails, in one of its first five steps, before any
    command is built or run: the trace is the entries of the steps up to
    the failing one followed by its failure, and when the run gets as far
    as the loom export the failure is [KeyError] for ["louvain"]. *)
Theorem unclustered_matrix_runs_no_command {Row Auc : Type}
    (env : Collaborators Row Auc) (self : WorkflowManager) (w : World) :
  (forall path f a, h5ad_contents env path f = Ok a ->
                    Dict.get (obs a) "louvain" = None) ->
  let run := run_pyscenic_workflow env self w in
  exists n s e,
    fst run = Raise e /\
    n < 5 /\ stage_order !! n = Some s /\
    trace (snd run)
    = trace w ++ map Enter (take (S n) stage_order) ++ [Abort s e] /\
    (s = StCreateLoom -> e = KeyError "louvain").
Proof.
  intros Hh run. subst run. unfold run_pyscenic_workflow.
  rewrite bind_unfold.
  destruct (in_stage_silent_cases StLoadPaths (DataLoader self) w
              (silent_get_analysis_paths _ _ _ _ _))
    as [(p1 & w1 & -> & _ & T1)|(e & w' & -> & _ & T)].
  2:{ exists 0, StLoadPaths, e. cbn [fst snd]. rewrite T.
      repeat split; [lia | discriminate]. }
  rewrite bind_unfold.
  destruct (in_stage_silent_cases StReadAnnData _ w1 (silent_read_anndata env p1))
    as [(a0 & w2 & -> & B2 & T2)|(e & w' & -> & _ & T)].
  2:{ exists 1, StReadAnnData, e. cbn [fst snd]. rewrite T, T1, <- app_assoc.
      repeat split; [lia | discriminate]. }
  apply bind_ok_inv in B2 as (path & w1' & _ & B2).
  apply read_h5ad_ok in B2 as [_ B2]. apply Hh in B2.
  rewrite bind_unfold.
  destruct (in_stage_silent_cases StSubset
              (of_result (subset_by_cell_type a0 (cell_type self))) w2
              (silent_of_result _))
    as [(a & w3 & -> & B3 & T3)|(e & w' & -> & _ & T)].
  2:{ exists 2, StSubset, e. cbn [fst snd]. rewrite T, T2, T1, <- !app_assoc.
      repeat split; [lia | discriminate]. }
  apply (f_equal fst) in B3. cbn [fst of_result] in B3.
  pose proof (subset_keeps_missing_column _ _ _ "louvain" B3 B2) as Ha.
  rewrite bind_unfold.
  destruct (in_stage_silent_cases StUpdatePaths
              (get_analysis_paths (base_folder self) (dataset_id self)
                 (sample_id self) (cell_type self) None) w3
              (silent_get_analysis_paths _ _ _ _ _))
    as [(p & w4 & -> & B4 & T4)|(e & w' & -> & _ & T)].
  2:{ exists 3, StUpdatePaths, e. cbn [fst snd].
      rewrite T, T3, T2, T1, <- !app_assoc.
      repeat split; [lia | discriminate]. }
  apply get_analysis_paths_ok_inv in B4 as (_ & _ & Hp).
  rewrite bind_unfold.
  destruct (in_stage_silent_cases StCreateLoom (create_loom_file env p a) w4
              (silent_create_loom_file env p a))
    as [(u & w5 & _ & B5 & _)|(e & w' & -> & B5 & T)]; subst p.
  { rewrite (create_loom_file_unclustered env _ _ _ _ _ _ _ _ Ha) in B5.
    discriminate B5. }
  rewrite (create_loom_file_unclustered env _ _ _ _ _ _ _ _ Ha) in B5.
  injection B5 as <-.
  exists 4, StCreateLoom, (KeyError "louvain"). cbn [fst snd].
  rewrite T, T4, T3, T2, T1, <- !app_assoc.
  repeat split; lia.
Qed.

Lemma unclustered_matrix_runs_no_command_witness :
  let unclustered : AnnData nat :=
    {| obs_names := ["c1"];
       obs := [(annotation_column, [Some "Tumor"])];
       X := [10] |} in
  let env : Collaborators nat unit :=
    {| shell := Sample.obedient_shell;
       library := fun _ f => (Ok tt, f);
       h5ad_contents := fun _ _ => Ok unclustered;
       csv_contents := fun _ _ => Ok tt;
       loom_auc := fun _ _ => Ok tt |} in
  let run := run_pyscenic_workflow env Sample.tumor_unpruned
               Sample.clustered_world in
  (forall path f a, h5ad_contents env path f = Ok a ->
                    Dict.get (obs a) "louvain" = None) /\
  fst run = Raise (KeyError "louvain") /\
  exists n s e,
    n < 5 /\
    trace (snd run) = map Enter (take (S n) stage_order) ++ [Abort s e].
Proof.
  intros unclustered env run.
  assert (Hh : forall path f a, h5ad_contents env path f = Ok a ->
                                Dict.get (obs a) "louvain" = None).
  { intros path f a [= <-]. reflexivity. }
  split; [exact Hh|]. split; [vm_compute; reflexivity|].
  destruct (unclustered_matrix_runs_no_command env Sample.tumor_unpruned
              Sample.clustered_world Hh) as (n & s & e & _ & Hn & _ & Ht & _).
  exists n, s, e. split; [exact Hn | exact Ht].
Defined.

(** * The commands of an arbitrary run *)

Section Commands.
Context {Row Auc : Type} (env : Collaborators Row Auc).

Lemma executed_commands_app (a b : list event) :
  executed_commands (a ++ b) = executed_commands a ++ executed_commands b.
Proof. apply omap_app. Qed.

(** A step without commands leaves the list of executed commands as it
    was, however it ends. *)
Lemma commands_in_stage_silent {A} (s : stage) (body : M A) (w : World) :
  silent body ->
  executed_commands (trace (snd (in_stage s body w)))
  = executed_commands (trace w).
Proof.
  intros Hs.
  destruct (in_stage_silent_cases s body w Hs)
    as [(a & w' & -> & _ & T)|(e & w' & -> & _ & T)]; cbn [snd]; rewrite T;
    rewrite executed_commands_app; cbn; apply app_nil_r.
Qed.

(** A step made of one command and a read adds that command, however it
    ends. *)
Lemma commands_in_stage_command {A} (s : stage) (cmd : string) (rd : M A)
    (w : World) :
  silent rd ->
  executed_commands
    (trace (snd (in_stage s (subprocess_run env cmd ≫= fun _ => rd) w)))
  = executed_commands (trace w) ++ [cmd].
Proof.
  intros Hs. unfold in_stage. rewrite bind_unfold. unfold subprocess_run.
  cbn [fs trace].
  destruct (shell env cmd (fs w)) as [status f'].
  destruct (Z.eqb status 0).
  - match goal with
    | |- context [rd ?w0] => specialize (Hs w0); destruct (rd w0) as [[a|e] w1]
    end; cbn [snd trace] in *; rewrite ?executed_commands_app, Hs,
      !executed_commands_app; cbn; rewrite ?app_nil_r; reflexivity.
  - cbn [snd trace]. rewrite !executed_commands_app. cbn.
    rewrite !app_nil_r. reflexivity.
Qed.

End Commands.

Ltac silent_stage C H :=
  rewrite bind_unfold;
  match goal with
  | |- context [in_stage ?s ?body ?w] =>
      pose proof (commands_in_stage_silent s body w H) as C
  end.

(** X18.  Whatever the collaborators do and however the run ends, the
    commands a run of [run_pyscenic_workflow] hands to the shell are an
    initial segment of the GRN, context and AUCell commands, in that order,
    built from the dictionary resolved without the pruning choice; no other
    command is ever run. *)
Theorem workflow_commands_prefix {Row Auc : Type}
    (env : Collaborators Row Auc) (self : WorkflowManager) (w : World) :
  let run := run_pyscenic_workflow env self w in
  exists cmds,
    executed_commands (trace (snd run)) = executed_commands (trace w) ++ cmds /\
    (cmds = [] \/
     exists feather grn ctx aucell,
       let paths := path_table (base_folder self) (dataset_id self)
                      (sample_id self) (cell_type self) None feather in
       run_grn_inference paths = Ok grn /\
       run_ctx_inference paths (pruning self) = Ok ctx /\
       run_aucell paths = Ok aucell /\
       cmds `prefix_of` [command grn; command ctx; command aucell]).
Proof.
  intros run. subst run. unfold run_pyscenic_workflow, steps_from_ctx.
  silent_stage C1 (silent_get_analysis_paths (base_folder self)
    (dataset_id self) (sample_id self) (cell_type self) (pruning self)).
  destruct (in_stage StLoadPaths _ w) as [[p1|e] w1]; cbn [snd] in *;
    [|exists []; rewrite app_nil_r; auto].
  silent_stage C2 (silent_read_anndata env p1).
  destruct (in_stage StReadAnnData _ w1) as [[a0|e] w2]; cbn [snd] in *;
    [|exists []; rewrite app_nil_r, C2; auto].
  silent_stage C3 (silent_of_result (subset_by_cell_type a0 (cell_type self))).
  destruct (in_stage StSubset _ w2) as [[a|e] w3]; cbn [snd] in *;
    [|exists []; rewrite app_nil_r, C3, C2; auto].
  silent_stage C4 (silent_get_analysis_paths (base_folder self)
    (dataset_id self) (sample_id self) (cell_type self) None).
  destruct (in_stage StUpdatePaths _ w3) as [[p|e] w4] eqn:E4; cbn [snd] in *;
    [|exists []; rewrite app_nil_r, C4, C3, C2; auto].
  apply in_stage_ok, get_analysis_paths_ok_inv in E4 as (_ & _ & Hp).
  silent_stage C5 (silent_create_loom_file env p a).
  destruct (in_stage StCreateLoom _ w4) as [[[]|e] w5]; cbn [snd] in *;
    [|exists []; rewrite app_nil_r, C5, C4, C3, C2; auto].
  rewrite bind_unfold.
  match goal with
  | |- context [in_stage StPrepareCommands ?body w5] =>
      pose proof (commands_in_stage_silent StPrepareCommands body w5
                    (silent_of_result _)) as C6
  end.
  destruct (in_stage StPrepareCommands _ w5) as [[[[grn ctx] aucell]|e] w6]
    eqn:E6; cbn [snd] in *;
    [|exists []; rewrite app_nil_r, C6, C5, C4, C3, C2; auto].
  apply in_stage_ok in E6. unfold of_result in E6.
  apply (f_equal fst) in E6. cbn [fst] in E6.
  unfold mbind, mret, result_mbind, result_ret, result_bind in E6.
  destruct (run_grn_inference p) as [g|] eqn:Eg; [|discriminate].
  destruct (run_ctx_inference p _) as [c|] eqn:Ec; [|discriminate].
  destruct (run_aucell p) as [au|] eqn:Ea; [|discriminate].
  injection E6 as -> -> ->. subst p.
  assert (Hb : forall cmds,
            cmds `prefix_of` [command grn; command ctx; command aucell] ->
            cmds = [] \/
            exists feather g c au,
              let paths := path_table (base_folder self) (dataset_id self)
                             (sample_id self) (cell_type self) None feather in
              run_grn_inference paths = Ok g /\
              run_ctx_inference paths (pruning self) = Ok c /\
              run_aucell paths = Ok au /\
              cmds `prefix_of` [command g; command c; command au]).
  { intros cmds Hpre. right.
    exists (FS.glob (fs w4) (feather_pattern (base_folder self))),
      grn, ctx, aucell. cbv zeta. auto. }
  assert (E0 : executed_commands (trace w6) = executed_commands (trace w))
    by (rewrite C6, C5, C4, C3, C2; exact C1).
  clear C1 C2 C3 C4 C5 C6 Eg Ec Ea.
  rewrite bind_unfold. unfold step_grn.
  pose proof (commands_in_stage_command env StGRN (command grn)
                (pd_read_csv env (output_path grn)) w6
                (silent_read_file _ _)) as C7.
  destruct (in_stage StGRN _ w6) as [[[]|e] w7]; cbn [snd] in *;
    rewrite E0 in C7.
  2:{ exists [command grn]. split; [exact C7|]. apply Hb.
      exists [command ctx; command aucell]. reflexivity. }
  rewrite bind_unfold. unfold step_ctx.
  pose proof (commands_in_stage_command env StCtx (command ctx)
                (pd_read_csv env (output_path ctx)) w7
                (silent_read_file _ _)) as C8.
  destruct (in_stage StCtx _ w7) as [[[]|e] w8]; cbn [snd] in *;
    rewrite C7, <- app_assoc in C8.
  2:{ exists [command grn; command ctx]. split; [exact C8|]. apply Hb.
      exists [command aucell]. reflexivity. }
  silent_stage C9 (silent_plot_gene_distribution env
    (path_table (base_folder self) (dataset_id self) (sample_id self)
       (cell_type self) None
       (FS.glob (fs w4) (feather_pattern (base_folder self))))
    a (cell_type self)).
  destruct (in_stage StGeneDistribution _ w8) as [[[]|e] w9]; cbn [snd] in *;
    rewrite C8 in C9.
  2:{ exists [command grn; command ctx]. split; [exact C9|]. apply Hb.
      exists [command aucell]. reflexivity. }
  rewrite bind_unfold. unfold step_aucell.
  pose proof (commands_in_stage_command env StAUCell (command aucell)
                (lp_connect_auc env (output_path aucell)) w9
                (silent_read_file _ _)) as C10.
  destruct (in_stage StAUCell _ w9) as [[auc|e] w10]; cbn [snd] in *;
    rewrite C9, <- app_assoc in C10.
  2:{ exists [command grn; command ctx; command aucell].
      split; [exact C10|]. apply Hb. reflexivity. }
  silent_stage C11 (silent_dimensionality_reduction env
    (path_table (base_folder self) (dataset_id self) (sample_id self)
       (cell_type self) None
       (FS.glob (fs w4) (feather_pattern (base_folder self))))
    auc a (cell_type self)).
  destruct (in_stage StDimReduction _ w10) as [[[]|e] w11]; cbn [snd] in *;
    rewrite C10 in C11.
  2:{ exists [command grn; command ctx; command aucell].
      split; [exact C11|]. apply Hb. reflexivity. }
  pose proof (commands_in_stage_silent StVisualise _ w11
                (silent_step_visualise env self
                   (path_table (base_folder self) (dataset_id self)
                      (sample_id self) (cell_type self) None
                      (FS.glob (fs w4) (feather_pattern (base_folder self))))))
    as C12.
  rewrite C11 in C12.
  exists [command grn; command ctx; command aucell].
  split; [exact C12|]. apply Hb. reflexivity.
Qed.
